(** * Lighter connector: order execution and settlement

    A shallow embedding of [utils/connectors/lighter/lighter_connector.py]
    (class [LighterConnector]) and of the dataclasses of
    [utils/connectors/base_connector.py] it returns, followed by the
    properties of the order-execution subsystem: precision transcoding,
    slippage bounds, market-metadata caching, fill confirmation by polling
    and position listing.

    Modelling conventions.
    - A Python [float] is kept as the rational ([Q]) it denotes, an [int]
      as an integer ([Z]).  Where the code turns a float into an exact
      integer (the two converters, with the worst price that goes into
      them) or where a result can leave the range of the doubles (the
      settlement quotients), the arithmetic is rounded to binary64 as the
      machine does ([round64]); elsewhere (mid-price, leverage, funding
      rate, elapsed time) it is exact.  Where Python raises OverflowError
      (the conversion of too large an [int] to a float, [int()] of an
      infinite product, a true division whose quotient is out of range) the
      model raises it; a worst price that would itself be an infinity is
      outside the model.  [int(x)] on a float is truncation toward zero.
      Module [Binary64] evaluates the converters and the numeric examples on
      primitive IEEE 754 doubles and checks [round64] against them.
    - Values decoded from JSON are terms of [json]; a Python [dict] is a
      [gmap].
    - The connector object, the trade log and the observable I/O live in a
      [world] that is threaded through a state-and-exception monad [Py];
      state changes made before an exception is raised persist, as in
      Python.
    - Everything outside the process (HTTP endpoints, the signing SDK, the
      clock, the process environment, [json.loads], [float(str)]) is a field
      of [env].
    - [datetime.now()] timestamps of the dataclasses are not modelled. *)

From Stdlib Require Import ZArith QArith Qround Qabs Qpower Lqa Lia Floats.
From stdpp Require Import base option list gmap strings.

#[local] Set Warnings "-register-all".
#[local] Open Scope Z_scope.
#[local] Open Scope string_scope.

(** ** Numbers *)

(** [int(x)] for a float [x]: the integer part, truncated toward zero. *)
Definition py_int (x : Q) : Z := Z.quot (Qnum x) (Zpos (Qden x)).

(** [x > y], [x < y] and [x != y] on floats. *)
Definition Qgtb (x y : Q) : bool := negb (Qle_bool x y).
Definition Qltb (x y : Q) : bool := negb (Qle_bool y x).
Definition Qneb (x y : Q) : bool := negb (Qeq_bool x y).

(** Whether a rational is an integer, as [10 ** d] needs it. *)
Definition is_integral (q : Q) : bool := Qeq_bool q (inject_Z (Qfloor q)).

(** The double nearest to [q], ties to even, as IEEE 754 rounds the exact
    result of an operation: 53 bits of mantissa, exponents down to the
    subnormals at [2^-1074]; [None] when the result is beyond the largest
    double, where the machine gives an infinity. *)
Definition round64 (q : Q) : option Q :=
  let n := Z.abs (Qnum q) in
  let d := Zpos (Qden q) in
  if Z.eqb n 0 then Some 0%Q
  else
    let e0 := Z.log2 n - Z.log2 d in
    (* [e] is the exponent of [n / d]: [2^e <= n / d < 2^(e + 1)] *)
    let e := if Z.ltb (n * 2 ^ Z.max 0 (- e0)) (d * 2 ^ Z.max 0 e0) then e0 - 1 else e0 in
    (* the unit in the last place is [2^t] *)
    let t := Z.max (e - 52) (-1074) in
    let num := n * 2 ^ Z.max 0 (- t) in
    let den := d * 2 ^ Z.max 0 t in
    let m := num / den in
    let r := num mod den in
    let m' := if Z.ltb den (2 * r) || (Z.eqb den (2 * r) && Z.odd m) then m + 1 else m in
    if Z.leb 0 t && Z.leb (2 ^ 1024) (m' * 2 ^ t) then None
    else Some (Qred (Qmake (Z.sgn (Qnum q) * m' * 2 ^ Z.max 0 t)
                           (Z.to_pos (2 ^ Z.max 0 (- t))))).

(** [x + y], [x - y] and [x * y] on floats: the operands are doubles (a
    rational that is none stands for the double nearest to it, as a literal
    does), the exact result is rounded. *)
Definition float_add (x y : Q) : option Q :=
  a ← round64 x; b ← round64 y; round64 (a + b).
Definition float_sub (x y : Q) : option Q :=
  a ← round64 x; b ← round64 y; round64 (a - b).
Definition float_mul (x y : Q) : option Q :=
  a ← round64 x; b ← round64 y; round64 (a * b).

(** [current_price * (1 + slippage)] and [current_price * (1 - slippage)]. *)
Definition worst_buy_price (current_price slippage : Q) : option Q :=
  float_add 1 slippage ≫= float_mul current_price.
Definition worst_sell_price (current_price slippage : Q) : option Q :=
  float_sub 1 slippage ≫= float_mul current_price.

(** ** JSON values *)

Inductive json :=
| JNull
| JBool (b : bool)
| JNum (q : Q)
| JStr (s : string)
| JArr (l : list json)
| JObj (d : gmap string json).

(** Python truthiness ([if v:], [a and b], [a or b]). *)
Definition truthy (v : json) : bool :=
  match v with
  | JNull => false
  | JBool b => b
  | JNum q => Qneb q 0
  | JStr s => negb (String.eqb s "")
  | JArr l => match l with [] => false | _ => true end
  | JObj d => negb (bool_decide (d = ∅))
  end.

(** [v == n] for a number literal [n]; [True == 1] and [False == 0]. *)
Definition py_eq_num (v : json) (n : Q) : bool :=
  match v with
  | JNum q => Qeq_bool q n
  | JBool b => Qeq_bool (if b then 1 else 0) n
  | _ => false
  end.

(** ** Exceptions

    The source raises plain [Exception]s whose text is an f-string; the text
    is kept structurally, one constructor of [msg] per template. *)

Inductive exn :=
| KeyError (key : string)
| TypeError
| AttributeError
| ValueError
| JSONDecodeError
| RequestError                         (* raised by [requests] *)
| OverflowError
| SignerError                          (* raised inside the signing SDK *)
| Exception (m : msg)
with msg :=
| TradingNotEnabled                    (* "Trading not enabled - call setup_trading() first" *)
| UnknownSymbol (symbol : string)      (* "Unknown symbol ..." *)
| BaseEndpointNotConfigured            (* "Base endpoint not configured" *)
| NoPriceData (symbol : string)        (* "No price data available for symbol ..." *)
| OrderFailed (err : string)           (* "Order failed: {err}" *)
| PollIntervalRequired                 (* "LIGHTER_POLL_INTERVAL environment variable is required" *)
| TransactionFailedStatus (tx_hash : string) (status : json)
                                       (* "Transaction {tx_hash} failed with status: {status}" *)
| TransactionNotConfirmed (tx_hash : string) (timeout : Z)
                                       (* "Transaction {tx_hash} did not confirm within {timeout} seconds" *)
| NoAccountData                        (* "No account data found in response" *)
| FailedTo (what : string) (cause : exn). (* "Failed to {what}: {e}" *)

(** ** Dataclasses of [base_connector.py] *)

Inductive OrderSide := BUY | SELL.
Inductive OrderType := MARKET | LIMIT | STOP_LOSS | TAKE_PROFIT.
Inductive OrderStatus := PENDING | FILLED | PARTIAL.

Record Order := {
  id : string;
  symbol : string;
  side : OrderSide;
  type : OrderType;
  size : Q;
  price : option Q;
  status : OrderStatus;
}.

Record Position := {
  pos_symbol : string;
  pos_side : OrderSide;
  pos_size : Q;
  entry_price : Q;
  current_price : Q;
  unrealized_pnl : Q;
  leverage : Q;
}.

(** ** The connector object *)

Record connector := {
  base_endpoint : option string;
  l1_address : string;
  account_index : option Z;
  signer_client : bool;                       (* [self.signer_client] is set *)
  _symbol_to_market_id_cache : gmap string Z;
  _market_size_decimals : gmap Z json;
  _market_price_decimals : gmap Z json;
  _market_min_base_amounts : gmap Z json;
}.

Definition set_size_decimals (m : gmap Z json) (c : connector) : connector :=
  {| base_endpoint := base_endpoint c; l1_address := l1_address c;
     account_index := account_index c; signer_client := signer_client c;
     _symbol_to_market_id_cache := _symbol_to_market_id_cache c;
     _market_size_decimals := m;
     _market_price_decimals := _market_price_decimals c;
     _market_min_base_amounts := _market_min_base_amounts c |}.

Definition set_price_decimals (m : gmap Z json) (c : connector) : connector :=
  {| base_endpoint := base_endpoint c; l1_address := l1_address c;
     account_index := account_index c; signer_client := signer_client c;
     _symbol_to_market_id_cache := _symbol_to_market_id_cache c;
     _market_size_decimals := _market_size_decimals c;
     _market_price_decimals := m;
     _market_min_base_amounts := _market_min_base_amounts c |}.

Definition set_min_base_amounts (m : gmap Z json) (c : connector) : connector :=
  {| base_endpoint := base_endpoint c; l1_address := l1_address c;
     account_index := account_index c; signer_client := signer_client c;
     _symbol_to_market_id_cache := _symbol_to_market_id_cache c;
     _market_size_decimals := _market_size_decimals c;
     _market_price_decimals := _market_price_decimals c;
     _market_min_base_amounts := m |}.

(** ** The outside world *)

(** Arguments of [signer_client.create_market_order]. *)
Record market_order := {
  market_index : Z;
  client_order_index : Z;
  base_amount : Z;
  avg_execution_price : Z;
  is_ask : bool;
  reduce_only : bool;
}.

(** The [response] component of the SDK's reply, by the shapes the source
    inspects: a falsy non-dict value, an object (with or without a
    [tx_hash] attribute), or a dict (with or without a ['tx_hash'] key). *)
Inductive sdk_response :=
| RespNone
| RespObject (tx_hash : option string)
| RespDict (tx_hash : option string).

Inductive signer_reply :=
| SignerRaises
| SignerReply (response : sdk_response) (err : option string).

(** A [requests.Response] of the transaction-status endpoint; [body] is what
    [response.json()] returns, [None] when it raises. *)
Record http_response := {
  status_code : Z;
  body : option json;
}.

Record env := {
  getenv : string → option string;            (* [os.getenv] *)
  float_of_str : string → option Q;           (* [float(s)], [None] = ValueError *)
  int_of_str : string → option Z;             (* [int(s)], [None] = ValueError *)
  json_loads : string → option json;          (* [json.loads(s)], [None] = JSONDecodeError *)
  time_time : nat → Q;                        (* the k-th reading of [time.time()] *)
  orderbook_meta : Z → option json;           (* GET /orderbook-meta, decoded; [None] = raised *)
  order_book_orders : Z → option json;        (* GET /orderBookOrders, decoded; [None] = raised *)
  tx_by_hash : nat → string → option http_response;
                                              (* the k-th GET /tx; [None] = [requests.get] raised *)
  account_by_l1 : option json;                (* GET /account, decoded; [None] = raised *)
  create_market_order : market_order → signer_reply;
}.

(** What the process did to the outside world, newest first. *)
Inductive event :=
| EvOrderbookMeta (market_id : Z)
| EvOrderBookOrders (market_id : Z)
| EvCreateMarketOrder (o : market_order)
| EvTx (tx_hash : string)
| EvSleep (seconds : Q)
| EvAccount
| EvLogTrade (o : Order).

Record world := {
  self : connector;
  events : list event;
  clock_reads : nat;                          (* calls of [time.time()] so far *)
  tx_polls : nat;                             (* GET /tx requests so far *)
}.

(** ** The monad *)

Inductive outcome (A : Type) :=
| Return (a : A)
| Raise (e : exn)
| Stuck.          (* out of fuel, or a value the rational model cannot express *)
Arguments Return {A} a.
Arguments Raise {A} e.
Arguments Stuck {A}.

Definition Py (A : Type) : Type := world → outcome A * world.

Definition ret {A} (a : A) : Py A := λ w, (Return a, w).
Definition raise {A} (e : exn) : Py A := λ w, (Raise e, w).
Definition stuck {A} : Py A := λ w, (Stuck, w).

Definition bind {A B} (c : Py A) (k : A → Py B) : Py B :=
  λ w, match c w with
       | (Return a, w') => k a w'
       | (Raise e, w') => (Raise e, w')
       | (Stuck, w') => (Stuck, w')
       end.

(** [try: c  except Exception as e: h e] *)
Definition try_except {A} (c : Py A) (h : exn → Py A) : Py A :=
  λ w, match c w with
       | (Raise e, w') => h e w'
       | r => r
       end.

Notation "'let!' x ':=' c 'in' k" := (bind c (λ x, k))
  (at level 10, x pattern, c at level 100, k at level 200).

Definition get_self : Py connector := λ w, (Return (self w), w).

Definition modify_self (f : connector → connector) : Py unit :=
  λ w, (Return tt, {| self := f (self w); events := events w;
                      clock_reads := clock_reads w; tx_polls := tx_polls w |}).

Definition emit (e : event) : Py unit :=
  λ w, (Return tt, {| self := self w; events := e :: events w;
                      clock_reads := clock_reads w; tx_polls := tx_polls w |}).

(** Lift a pure partial result, raising [e] when it is absent. *)
Definition or_raise {A} (o : option A) (e : exn) : Py A :=
  match o with Some a => ret a | None => raise e end.

(** ** Python operations on JSON values *)

(** [d.get(key, dflt)]; anything but a dict has no [get]. *)
Definition py_get (d : json) (key : string) (dflt : json) : Py json :=
  match d with
  | JObj m => ret (default dflt (m !! key))
  | _ => raise AttributeError
  end.

(** [d[key]] with a string key: KeyError on a dict without it, TypeError on
    a value that is not indexed by strings. *)
Definition py_getitem (d : json) (key : string) : Py json :=
  match d with
  | JObj m => or_raise (m !! key) (KeyError key)
  | _ => raise TypeError
  end.

(** [float(v)]. *)
Definition py_float (E : env) (v : json) : Py Q :=
  match v with
  | JNum q => ret q
  | JBool b => ret (if b then 1 else 0)%Q
  | JStr s => or_raise (float_of_str E s) ValueError
  | _ => raise TypeError
  end.

(** A float the model can express; an infinite or undefined intermediate
    result is outside it. *)
Definition finite (o : option Q) : Py Q :=
  match o with Some x => ret x | None => stuck end.

(** [q / n] for a number [q] and an integer literal [n]: the quotient
    rounded to a double, OverflowError when it is beyond the doubles (which
    takes an [int] [q], a float being in range). *)
Definition true_division (q n : Q) : Py Q :=
  match round64 (q / n) with
  | Some x => ret x
  | None => raise OverflowError
  end.

(** [v / n] for a number literal [n]. *)
Definition py_truediv (v : json) (n : Q) : Py Q :=
  match v with
  | JNum q => true_division q n
  | JBool b => true_division (if b then 1 else 0) n
  | _ => raise TypeError
  end.

(** [10 ** d], an [int] for an integer [d >= 0].  A negative or non-integral
    exponent gives a float from the C library's [pow], which the model does
    not express. *)
Definition py_pow10 (d : json) : Py Q :=
  match d with
  | JNum q => if is_integral q && Z.leb 0 (Qfloor q) then ret (10 ^ Qfloor q)%Q else stuck
  | JBool b => ret (if b then 10 else 1)%Q
  | _ => raise TypeError
  end.

(** [int(x * scale)] for a float [x] and an [int] [scale]: the integer is
    converted to a float (OverflowError when it is too large), the product
    is rounded to a double, and [int()] drops its fractional part
    (OverflowError on an infinite product). *)
Definition py_int_of_product (x scale : Q) : Py Z :=
  match round64 x with
  | None => stuck
  | Some a =>
      match round64 scale with
      | None => raise OverflowError
      | Some b =>
          match round64 (a * b) with
          | None => raise OverflowError
          | Some product => ret (py_int product)
          end
      end
  end.

(** ** Precision transcoding *)

Definition _convert_size_to_lighter_format (size : Q) (market_id : Z) : Py Z :=
  let! c := get_self in
  let! size_decimal := or_raise (_market_size_decimals c !! market_id) (KeyError "market_id") in
  let! scale := py_pow10 size_decimal in
  py_int_of_product size scale.

Definition _convert_price_to_lighter_format (price : Q) (market_id : Z) : Py Z :=
  let! c := get_self in
  let! price_decimal := or_raise (_market_price_decimals c !! market_id) (KeyError "market_id") in
  let! scale := py_pow10 price_decimal in
  py_int_of_product price scale.

(** ** Market metadata *)

(** [market_id in d] *)
Definition has_key (d : gmap Z json) (market_id : Z) : bool :=
  bool_decide (is_Some (d !! market_id)).

(** [not self.base_endpoint]: unset or the empty string. *)
Definition endpoint_missing (c : connector) : bool :=
  match base_endpoint c with
  | None => true
  | Some url => String.eqb url ""
  end.

Definition _ensure_market_data (E : env) (market_id : Z) : Py unit :=
  let! c := get_self in
  if has_key (_market_size_decimals c) market_id
     && has_key (_market_price_decimals c) market_id
     && has_key (_market_min_base_amounts c) market_id
  then ret tt
  else
    try_except
      (let! _ := (if endpoint_missing c
                  then raise (Exception BaseEndpointNotConfigured) else ret tt) in
       let! _ := emit (EvOrderbookMeta market_id) in
       let! orderbook_details := or_raise (orderbook_meta E market_id) RequestError in
       let! sd := py_getitem orderbook_details "size_decimals" in
       let! _ := modify_self
                   (λ c, set_size_decimals (<[market_id := sd]> (_market_size_decimals c)) c) in
       let! pd := py_getitem orderbook_details "price_decimals" in
       let! _ := modify_self
                   (λ c, set_price_decimals (<[market_id := pd]> (_market_price_decimals c)) c) in
       let! mb := py_getitem orderbook_details "min_base_amount" in
       modify_self
         (λ c, set_min_base_amounts (<[market_id := mb]> (_market_min_base_amounts c)) c))
      (λ e, raise (Exception (FailedTo "get market decimals" e))).

(** ** Price discovery *)

Record Price := { price_symbol : string; price_value : Q }.

(** [levels[0].get('price') if levels else None] *)
Definition best_price (levels : json) : Py json :=
  if truthy levels then
    match levels with
    | JArr (level :: _) => py_get level "price" JNull
    | JStr _ => raise AttributeError
    | JObj _ => raise (KeyError "0")
    | _ => raise TypeError
    end
  else ret JNull.

(** [symbol in self._symbol_to_market_id_cache], then the lookup. *)
Definition resolve_symbol (symbol : string) : Py Z :=
  let! c := get_self in
  or_raise (_symbol_to_market_id_cache c !! symbol) (Exception (UnknownSymbol symbol)).

Definition get_current_price (E : env) (symbol : string) : Py Price :=
  try_except
    (let! market_id := resolve_symbol symbol in
     let! c := get_self in
     let! _ := (match base_endpoint c with          (* [self.base_endpoint.rstrip('/')] *)
                | None => raise AttributeError
                | Some _ => ret tt
                end) in
     let! _ := emit (EvOrderBookOrders market_id) in
     let! orderbook_data := or_raise (order_book_orders E market_id) RequestError in
     let! bids := py_get orderbook_data "bids" (JArr []) in
     let! asks := py_get orderbook_data "asks" (JArr []) in
     let! best_bid := best_price bids in
     let! best_ask := best_price asks in
     let! current :=
       (if truthy best_bid && truthy best_ask then
          let! b := py_float E best_bid in
          let! a := py_float E best_ask in
          ret ((b + a) / 2)%Q
        else if truthy best_bid then py_float E best_bid
        else if truthy best_ask then py_float E best_ask
        else raise (Exception (NoPriceData symbol))) in
     ret {| price_symbol := symbol; price_value := current |})
    (λ e, raise (Exception (FailedTo "get current price" e))).

(** ** Fill confirmation *)

(** The dict returned by [_wait_for_fill].  ['block_height'] and
    ['executed_at'] are [None] where the returned dict has no such key. *)
Record fill_result := {
  fill_status : string;
  fill_tx_hash : string;
  actual_price : option Q;
  actual_size : Q;
  block_height : option json;
  executed_at : option json;
  tx_data : json;
}.

Definition time_now (E : env) : Py Q :=
  λ w, (Return (time_time E (clock_reads w)),
        {| self := self w; events := events w;
           clock_reads := S (clock_reads w); tx_polls := tx_polls w |}).

(** [requests.get(f"{base_url}/api/v1/tx", params={'by': 'hash', 'value': tx_hash})] *)
Definition requests_get_tx (E : env) (tx_hash : string) : Py http_response :=
  λ w, (match tx_by_hash E (tx_polls w) tx_hash with
        | Some r => Return r
        | None => Raise RequestError
        end,
        {| self := self w; events := EvTx tx_hash :: events w;
           clock_reads := clock_reads w; tx_polls := S (tx_polls w) |}).

(** [await asyncio.sleep(seconds)] *)
Definition sleep (seconds : Q) : Py unit := emit (EvSleep seconds).

(** [json.loads(v)]: only a string is decoded. *)
Definition py_json_loads (E : env) (v : json) : Py json :=
  match v with
  | JStr s => or_raise (json_loads E s) JSONDecodeError
  | _ => raise TypeError
  end.

(** [status > n] *)
Definition py_gt_num (v : json) (n : Q) : Py bool :=
  match v with
  | JNum q => ret (Qgtb q n)
  | JBool b => ret (Qgtb (if b then 1 else 0) n)
  | _ => raise TypeError
  end.

(** The [status == 3] branch: what the settlement payload yields. *)
Definition settled (E : env) (tx_hash : string) (expected_size : Q) (tx_data : json)
  : Py fill_result :=
  let! event_info_str := py_get tx_data "event_info" (JStr "{}") in
  try_except
    (let! event_info := py_json_loads E event_info_str in
     let! trade_info := py_get event_info "t" (JObj ∅) in
     let! p := py_get trade_info "p" (JNum 0) in
     let! actual_price := py_truediv p 100 in
     let! s := py_get trade_info "s" (JNum 0) in
     let! actual_size := py_truediv s 10000 in
     let! bh := py_get tx_data "block_height" JNull in
     let! ea := py_get tx_data "executed_at" JNull in
     ret {| fill_status := "FILLED"; fill_tx_hash := tx_hash;
            actual_price := if Qgtb actual_price 0 then Some actual_price else None;
            actual_size := if Qgtb actual_size 0 then actual_size else expected_size;
            block_height := Some bh; executed_at := Some ea; tx_data := tx_data |})
    (λ e, match e with
          | JSONDecodeError | KeyError _ =>
              ret {| fill_status := "FILLED"; fill_tx_hash := tx_hash;
                     actual_price := None; actual_size := expected_size;
                     block_height := None; executed_at := None; tx_data := tx_data |}
          | _ => raise e
          end).

(** The body of the [try:] inside the polling loop: [Some r] when it
    executes [return r], [None] when it runs to its end, after the sleep. *)
Definition poll_once (E : env) (tx_hash : string) (expected_size poll_interval : Q)
  : Py (option fill_result) :=
  let! c := get_self in
  let! _ := (match base_endpoint c with            (* [self.base_endpoint.rstrip('/')] *)
             | None => raise AttributeError
             | Some _ => ret tt
             end) in
  let! response := requests_get_tx E tx_hash in
  let! r :=
    (if Z.eqb (status_code response) 200 then
       let! tx_data := or_raise (body response) RequestError in
       let! status := py_get tx_data "status" JNull in
       if py_eq_num status 3 then
         let! r := settled E tx_hash expected_size tx_data in
         ret (Some r)
       else if py_eq_num status 2 then ret None
       else if truthy status then
         let! beyond := py_gt_num status 3 in
         if beyond then raise (Exception (TransactionFailedStatus tx_hash status))
         else ret None
       else ret None
     else if Z.eqb (status_code response) 404 then ret None
     else ret None) in
  match r with
  | Some r => ret (Some r)
  | None => let! _ := sleep poll_interval in ret None
  end.

(** The [while] loop; [fuel] bounds the number of iterations. *)
Fixpoint wait_loop (E : env) (fuel : nat) (tx_hash : string) (expected_size : Q)
    (timeout : Z) (start_time poll_interval : Q) : Py fill_result :=
  match fuel with
  | O => stuck
  | S fuel' =>
      let! now := time_now E in
      if Qltb (now - start_time) (inject_Z timeout) then
        let! r := try_except
                    (poll_once E tx_hash expected_size poll_interval)
                    (λ _, let! _ := sleep poll_interval in ret None) in
        match r with
        | Some r => ret r
        | None => wait_loop E fuel' tx_hash expected_size timeout start_time poll_interval
        end
      else raise (Exception (TransactionNotConfirmed tx_hash timeout))
  end.

Definition _wait_for_fill (E : env) (fuel : nat) (tx_hash symbol : string)
    (expected_side : OrderSide) (expected_size : Q) (timeout : Z) : Py fill_result :=
  let! start_time := time_now E in
  match getenv E "LIGHTER_POLL_INTERVAL" with
  | None => raise (Exception PollIntervalRequired)
  | Some poll_interval_str =>
      if String.eqb poll_interval_str "" then raise (Exception PollIntervalRequired)
      else
        let! poll_interval := or_raise (float_of_str E poll_interval_str) ValueError in
        wait_loop E fuel tx_hash expected_size timeout start_time poll_interval
  end.

(** ** Order execution *)

(** [slippage or 0.01] *)
Definition slippage_or_default (slippage : option Q) : Q :=
  match slippage with
  | Some s => if Qneb s 0 then s else 0.01
  | None => 0.01
  end%Q.

(** The transaction hash read off the SDK's response, ["unknown"] when
    neither a [tx_hash] attribute nor a ['tx_hash'] key is there. *)
Definition extract_tx_hash (response : sdk_response) : string :=
  match response with
  | RespObject (Some h) => h
  | RespDict (Some h) => h
  | _ => "unknown"
  end.

(** [await self.signer_client.create_market_order(...)], then [if err: raise]. *)
Definition submit_market_order (E : env) (o : market_order) : Py sdk_response :=
  let! _ := emit (EvCreateMarketOrder o) in
  match create_market_order E o with
  | SignerRaises => raise SignerError
  | SignerReply response (Some err) => raise (Exception (OrderFailed err))
  | SignerReply response None => ret response
  end.

(** [int(os.getenv('LIGHTER_FILL_TIMEOUT'))] *)
Definition fill_timeout (E : env) : Py Z :=
  match getenv E "LIGHTER_FILL_TIMEOUT" with
  | None => raise TypeError
  | Some s => or_raise (int_of_str E s) ValueError
  end.

(** [self._log_trade(order)] of the base class: one record appended to the
    trade log. *)
Definition _log_trade (order : Order) : Py unit := emit (EvLogTrade order).

Definition require_signer : Py unit :=
  let! c := get_self in
  if signer_client c then ret tt else raise (Exception TradingNotEnabled).

Definition place_market_buy_order (E : env) (fuel : nat)
    (symbol : string) (size : Q) (slippage : option Q) : Py Order :=
  try_except
    (let! _ := require_signer in
     let! market_id := resolve_symbol symbol in
     let! _ := _ensure_market_data E market_id in
     let! price_obj := get_current_price E symbol in
     let current_price := price_value price_obj in
     let slippage := slippage_or_default slippage in
     let! worst_price := finite (worst_buy_price current_price slippage) in
     let! base_amount := _convert_size_to_lighter_format size market_id in
     let! avg_execution_price := _convert_price_to_lighter_format worst_price market_id in
     let! response :=
       submit_market_order E
         {| market_index := market_id; client_order_index := 0;
            base_amount := base_amount; avg_execution_price := avg_execution_price;
            is_ask := false; reduce_only := false |} in
     let tx_hash := extract_tx_hash response in
     let! executed :=
       (if negb (String.eqb tx_hash "unknown") then
          let! timeout := fill_timeout E in
          let! fill_result := _wait_for_fill E fuel tx_hash symbol BUY size timeout in
          ret (actual_price fill_result, actual_size fill_result)
        else ret (Some current_price, size)) in
     let order := {| id := tx_hash; symbol := symbol; side := BUY; type := MARKET;
                     size := snd executed; price := fst executed; status := FILLED |} in
     let! _ := _log_trade order in
     ret order)
    (λ e, raise (Exception (FailedTo "place market buy order" e))).

Definition place_market_sell_order (E : env) (fuel : nat)
    (symbol : string) (size : Q) (slippage : option Q) : Py Order :=
  try_except
    (let! _ := require_signer in
     let! market_id := resolve_symbol symbol in
     let! _ := _ensure_market_data E market_id in
     let! price_obj := get_current_price E symbol in
     let current_price := price_value price_obj in
     let slippage := slippage_or_default slippage in
     let! worst_price := finite (worst_sell_price current_price slippage) in
     let! base_amount := _convert_size_to_lighter_format size market_id in
     let! avg_execution_price := _convert_price_to_lighter_format worst_price market_id in
     let! response :=
       submit_market_order E
         {| market_index := market_id; client_order_index := 0;
            base_amount := base_amount; avg_execution_price := avg_execution_price;
            is_ask := true; reduce_only := false |} in
     let tx_hash := extract_tx_hash response in
     let order := {| id := tx_hash; symbol := symbol; side := SELL; type := MARKET;
                     size := size; price := Some current_price; status := FILLED |} in
     let! _ := _log_trade order in
     ret order)
    (λ e, raise (Exception (FailedTo "place market sell order" e))).

Definition close_buy_position (E : env) (fuel : nat)
    (symbol : string) (size : Q) (slippage : option Q) : Py Order :=
  try_except
    (let! _ := require_signer in
     let! market_id := resolve_symbol symbol in
     let! _ := _ensure_market_data E market_id in
     let! price_obj := get_current_price E symbol in
     let current_price := price_value price_obj in
     let slippage := slippage_or_default slippage in
     let! worst_price := finite (worst_sell_price current_price slippage) in
     let! base_amount := _convert_size_to_lighter_format size market_id in
     let! avg_execution_price := _convert_price_to_lighter_format worst_price market_id in
     let! response :=
       submit_market_order E
         {| market_index := market_id; client_order_index := 0;
            base_amount := base_amount; avg_execution_price := avg_execution_price;
            is_ask := true; reduce_only := true |} in
     let tx_hash := extract_tx_hash response in
     let! executed :=
       (if negb (String.eqb tx_hash "unknown") then
          let! timeout := fill_timeout E in
          let! fill_result := _wait_for_fill E fuel tx_hash symbol SELL size timeout in
          ret (actual_price fill_result, actual_size fill_result)
        else ret (Some current_price, size)) in
     let order := {| id := tx_hash; symbol := symbol; side := SELL; type := MARKET;
                     size := snd executed; price := fst executed; status := FILLED |} in
     let! _ := _log_trade order in
     ret order)
    (λ e, raise (Exception (FailedTo "close buy position" e))).

Definition close_sell_position (E : env) (fuel : nat)
    (symbol : string) (size : Q) (slippage : option Q) : Py Order :=
  try_except
    (let! _ := require_signer in
     let! market_id := resolve_symbol symbol in
     let! _ := _ensure_market_data E market_id in
     let! price_obj := get_current_price E symbol in
     let current_price := price_value price_obj in
     let slippage := slippage_or_default slippage in
     let! worst_price := finite (worst_buy_price current_price slippage) in
     let! base_amount := _convert_size_to_lighter_format size market_id in
     let! avg_execution_price := _convert_price_to_lighter_format worst_price market_id in
     let! response :=
       submit_market_order E
         {| market_index := market_id; client_order_index := 0;
            base_amount := base_amount; avg_execution_price := avg_execution_price;
            is_ask := false; reduce_only := true |} in
     let tx_hash := extract_tx_hash response in
     let order := {| id := tx_hash; symbol := symbol; side := BUY; type := MARKET;
                     size := size; price := Some current_price; status := FILLED |} in
     let! _ := _log_trade order in
     ret order)
    (λ e, raise (Exception (FailedTo "close sell position" e))).

(** ** Positions *)

(** [response_data['accounts'][0]] under the guard
    ['accounts' in response_data and len(response_data['accounts']) > 0].
    Every shape other than a dict holding a non-empty list raises one
    exception or another; the caller's handler discards which. *)
Definition first_account (response_data : json) : Py json :=
  match response_data with
  | JObj m =>
      match m !! "accounts" with
      | Some (JArr (account_data :: _)) => ret account_data
      | Some (JNull | JBool _ | JNum _) => raise TypeError
      | Some (JStr _ | JObj _ | JArr []) | None => raise (Exception NoAccountData)
      end
  | _ => raise (Exception NoAccountData)
  end.

(** [pos_data['symbol']] as a key of the symbol cache. *)
Definition py_symbol (v : json) : Py string :=
  match v with
  | JStr s => ret s
  | _ => raise TypeError
  end.

(** One iteration of [for pos_data in position_data_list]: the position
    appended, [None] when the entry is skipped. *)
Definition position_of_entry (E : env) (pos_data : json) : Py (option Position) :=
  let! raw_size := py_getitem pos_data "position" in
  let! position_size := py_float E raw_size in
  if Qneb position_size 0 then
    let! raw_symbol := py_getitem pos_data "symbol" in
    let! sign := py_getitem pos_data "sign" in
    let side := if py_eq_num sign 1 then BUY else SELL in
    let! symbol := py_symbol raw_symbol in
    let! current_price_data := get_current_price E symbol in
    let! raw_fraction := py_get pos_data "initial_margin_fraction" (JStr "100.00") in
    let! margin_fraction := py_float E raw_fraction in
    let leverage := (if Qgtb margin_fraction 0 then 100 / margin_fraction else 1)%Q in
    let! raw_entry := py_getitem pos_data "avg_entry_price" in
    let! entry := py_float E raw_entry in
    let! raw_pnl := py_getitem pos_data "unrealized_pnl" in
    let! pnl := py_float E raw_pnl in
    ret (Some {| pos_symbol := symbol; pos_side := side; pos_size := Qabs position_size;
                 entry_price := entry; current_price := price_value current_price_data;
                 unrealized_pnl := pnl; leverage := leverage |})
  else ret None.

Fixpoint positions_loop (E : env) (position_data_list : list json)
    (positions : list Position) : Py (list Position) :=
  match position_data_list with
  | [] => ret positions
  | pos_data :: rest =>
      let! p := position_of_entry E pos_data in
      positions_loop E rest (positions ++ option_list p)%list
  end.

(** [not self.account_index]: unset, or index 0. *)
Definition account_index_missing (c : connector) : bool :=
  match account_index c with
  | None => true
  | Some i => Z.eqb i 0
  end.

Definition get_open_positions (E : env) : Py (list Position) :=
  try_except
    (let! c := get_self in
     if account_index_missing c then ret []
     else
       try_except
         (let! _ := emit EvAccount in
          let! response_data := or_raise (account_by_l1 E) RequestError in
          let! account_data := first_account response_data in
          let! position_data_list := py_get account_data "positions" (JArr []) in
          match position_data_list with
          | JArr l => positions_loop E l []
          | _ => raise TypeError        (* not a list of entries *)
          end)
         (λ _, ret []))
    (λ e, raise (Exception (FailedTo "get open positions" e))).

(** ** Bulk market list, decimals pre-fetch, minimum size, funding rate

    The endpoints these read beyond those of [env]; requests to them leave no
    [event]. *)

Record feeds := {
  order_books : option json;         (* GET /orderBooks, decoded; [None] = raised *)
  funding_rates : option json;       (* GET /funding-rates, decoded; [None] = raised *)
}.

Definition set_symbol_cache (m : gmap string Z) (c : connector) : connector :=
  {| base_endpoint := base_endpoint c; l1_address := l1_address c;
     account_index := account_index c; signer_client := signer_client c;
     _symbol_to_market_id_cache := m;
     _market_size_decimals := _market_size_decimals c;
     _market_price_decimals := _market_price_decimals c;
     _market_min_base_amounts := _market_min_base_amounts c |}.

(** [d.get(first, d.get(second))] *)
Definition get_either (d : gmap string json) (first second : string) : json :=
  default (default JNull (d !! second)) (d !! first).

(** A listed symbol as a key of the symbol cache.  A list or a dict is
    unhashable; a key that is not a string is outside the model. *)
Definition symbol_key (v : json) : Py string :=
  match v with
  | JStr s => ret s
  | JArr _ | JObj _ => raise TypeError
  | _ => stuck
  end.

(** A listed market id as a key of the per-market caches; one that is not an
    integer is outside the model. *)
Definition market_key (v : json) : Py Z :=
  match v with
  | JNum q => if is_integral q then ret (Qfloor q) else stuck
  | JBool b => ret (if b then 1 else 0)
  | _ => stuck
  end.

(** One iteration of [for orderbook in orderbooks]. *)
Definition cache_orderbook (orderbook : json) : Py unit :=
  match orderbook with
  | JObj d =>
      let symbol := default JNull (d !! "symbol") in
      let market_id := get_either d "market_id" "index" in
      if truthy symbol && negb (match market_id with JNull => true | _ => false end) then
        let! s := symbol_key symbol in
        let! i := market_key market_id in
        let! _ := modify_self
                    (λ c, set_symbol_cache (<[s := i]> (_symbol_to_market_id_cache c)) c) in
        let! _ := modify_self
                    (λ c, set_size_decimals
                            (<[i := get_either d "supported_size_decimals" "size_decimals"]>
                               (_market_size_decimals c)) c) in
        let! _ := modify_self
                    (λ c, set_price_decimals
                            (<[i := get_either d "supported_price_decimals" "price_decimals"]>
                               (_market_price_decimals c)) c) in
        modify_self
          (λ c, set_min_base_amounts
                  (<[i := default JNull (d !! "min_base_amount")]>
                     (_market_min_base_amounts c)) c)
      else ret tt
  | _ => ret tt
  end.

Fixpoint cache_orderbooks (orderbooks : list json) : Py unit :=
  match orderbooks with
  | [] => ret tt
  | orderbook :: rest => let! _ := cache_orderbook orderbook in cache_orderbooks rest
  end.

Definition _initialize_market_data (F : feeds) : Py unit :=
  try_except
    (let! c := get_self in
     let! _ := (match base_endpoint c with          (* [self.base_endpoint.rstrip('/')] *)
                | None => raise AttributeError
                | Some _ => ret tt
                end) in
     let! data := or_raise (order_books F) RequestError in
     let orderbooks :=
       match data with
       | JObj d => default (default (JArr []) (d !! "orderbooks")) (d !! "order_books")
       | _ => data
       end in
     match orderbooks with
     | JArr l => cache_orderbooks l
     | JObj _ | JStr _ => ret tt          (* iterates over strings, none of them a dict *)
     | _ => raise TypeError               (* not iterable *)
     end)
    (λ e, raise (Exception (FailedTo "initialize market data" e))).

(** The body of [for market_id in market_ids] of [initialize_market_decimals]. *)
Fixpoint fetch_market_decimals (E : env) (market_ids : list Z) : Py unit :=
  match market_ids with
  | [] => ret tt
  | market_id :: rest =>
      let! c := get_self in
      let! _ :=
        (if has_key (_market_size_decimals c) market_id then ret tt
         else
           let! _ := emit (EvOrderbookMeta market_id) in
           let! orderbook_details := or_raise (orderbook_meta E market_id) RequestError in
           let! sd := py_getitem orderbook_details "size_decimals" in
           let! _ := modify_self
                       (λ c, set_size_decimals
                               (<[market_id := sd]> (_market_size_decimals c)) c) in
           let! pd := py_getitem orderbook_details "price_decimals" in
           let! _ := modify_self
                       (λ c, set_price_decimals
                               (<[market_id := pd]> (_market_price_decimals c)) c) in
           let! mb := py_getitem orderbook_details "min_base_amount" in
           modify_self
             (λ c, set_min_base_amounts
                     (<[market_id := mb]> (_market_min_base_amounts c)) c)) in
      fetch_market_decimals E rest
  end.

Definition initialize_market_decimals (E : env) (market_ids : list Z) : Py unit :=
  try_except
    (let! c := get_self in
     if endpoint_missing c then raise (Exception BaseEndpointNotConfigured)
     else fetch_market_decimals E market_ids)
    (λ e, raise (Exception (FailedTo "initialize market decimals" e))).

Definition get_min_order_size (E : env) (symbol : string) : Py Q :=
  try_except
    (let! market_id := resolve_symbol symbol in
     let! _ := _ensure_market_data E market_id in
     let! c := get_self in
     let! min_base := or_raise (_market_min_base_amounts c !! market_id)
                               (KeyError "market_id") in
     py_float E min_base)
    (λ e, raise (Exception (FailedTo "get min order size" e))).

(** [FundingRate] of [base_connector.py]; [next_funding_time] is always
    [None] here. *)
Record FundingRate := { rate_symbol : string; rate : Q }.

(** [v == s] for a string literal [s]. *)
Definition py_eq_str (v : json) (s : string) : bool :=
  match v with
  | JStr t => String.eqb t s
  | _ => false
  end.

(** The loop over [data['funding_rates']]: [Some r] when it executes
    [return r], [None] when it runs to its end. *)
Fixpoint find_funding_rate (E : env) (symbol : string) (market_id : Z)
    (rates : list json) : Py (option FundingRate) :=
  match rates with
  | [] => ret None
  | funding_rate :: rest =>
      let! listed_id := py_get funding_rate "market_id" JNull in
      let! exchange := py_get funding_rate "exchange" JNull in
      if py_eq_num listed_id (inject_Z market_id) && py_eq_str exchange "lighter" then
        let! raw := py_getitem funding_rate "rate" in
        let! eight_hour_rate := py_float E raw in
        ret (Some {| rate_symbol := symbol; rate := eight_hour_rate / 8 |})
      else find_funding_rate E symbol market_id rest
  end.

(** [no_rate] stands for the text "No funding rate found for symbol {symbol}
    (market_id: {market_id})", for which [msg] has no constructor. *)
Definition get_current_funding_rate (E : env) (F : feeds) (no_rate : string → Z → msg)
    (symbol : string) : Py FundingRate :=
  try_except
    (let! market_id := resolve_symbol symbol in
     let! c := get_self in
     let! _ := (match base_endpoint c with          (* [self.base_endpoint.rstrip('/')] *)
                | None => raise AttributeError
                | Some _ => ret tt
                end) in
     let! data := or_raise (funding_rates F) RequestError in
     let! rates := py_getitem data "funding_rates" in
     let! found :=
       (match rates with
        | JArr l => find_funding_rate E symbol market_id l
        | JObj d => if bool_decide (d = ∅) then ret None else raise AttributeError
        | JStr s => if String.eqb s "" then ret None else raise AttributeError
        | _ => raise TypeError
        end) in
     match found with
     | Some r => ret r
     | None => raise (Exception (no_rate symbol market_id))
     end)
    (λ e, raise (Exception (FailedTo "get current funding rate" e))).

(** ** Binary64

    The same arithmetic on IEEE 754 doubles, as CPython computes it, for
    checking concrete values against the rational model. *)

Module Binary64.

(** [int(x)]: [None] where Python raises (infinities, NaN). *)
Definition py_int (x : float) : option Z :=
  match Prim2SF x with
  | S754_zero _ => Some 0
  | S754_finite s m e =>
      let n := match e with
               | Z0 => Zpos m
               | Zpos k => Zpos m * 2 ^ Zpos k
               | Zneg k => Zpos m / 2 ^ Zpos k
               end in
      Some (if s then - n else n)
  | _ => None
  end.

(** [float(n)] for an integer, rounded to nearest even. *)
Definition of_int (n : Z) : float := SF2Prim (binary_normalize prec emax n 0 false).

(** [int(v * (10 ** d))] for a non-negative integer [d], the body of both
    converters. *)
Definition _convert_to_lighter_format (v : float) (d : Z) : option Z :=
  py_int (v * of_int (10 ^ d)).

(** The rational a double denotes; [None] for the infinities and NaN. *)
Definition to_Q (x : float) : option Q :=
  match Prim2SF x with
  | S754_zero _ => Some 0%Q
  | S754_finite s m e =>
      let n := if s then Zneg m else Zpos m in
      Some (Qred match e with
                 | Zneg k => Qmake n (2 ^ k)
                 | _ => inject_Z (n * 2 ^ e)
                 end)
  | _ => None
  end.

End Binary64.

(** ** A sample venue

    One market, ETH, with id 1, four size decimals and two price decimals;
    a book with best bid 99 and best ask 101; a clock that advances one
    second per reading; a one-second poll interval and a thirty-second
    fill timeout. *)

Module Sample.

Definition connector_with (size_decimals price_decimals min_base : gmap Z json)
  : connector :=
  {| base_endpoint := Some "https://venue.example"; l1_address := "0xabc";
     account_index := Some 7; signer_client := true;
     _symbol_to_market_id_cache := {[ "ETH" := 1 ]};
     _market_size_decimals := size_decimals;
     _market_price_decimals := price_decimals;
     _market_min_base_amounts := min_base |}.

Definition world_with (c : connector) : world :=
  {| self := c; events := []; clock_reads := 0; tx_polls := 0 |}.

(** Fully cached metadata. *)
Definition cached : world :=
  world_with (connector_with {[ 1 := JNum 4 ]} {[ 1 := JNum 2 ]} {[ 1 := JStr "0.001" ]}).

(** Nothing cached yet. *)
Definition fresh : world := world_with (connector_with ∅ ∅ ∅).

(** Zero decimals. *)
Definition units : world :=
  world_with (connector_with {[ 1 := JNum 0 ]} {[ 1 := JNum 0 ]} {[ 1 := JStr "1" ]}).

Definition level (p : string) : json := JObj {[ "price" := JStr p ]}.

Definition book : json :=
  JObj {[ "bids" := JArr [level "99"]; "asks" := JArr [level "101"] ]}.

(** [float] and [int] on the strings the sample uses. *)
Definition parse_float (s : string) : option Q :=
  if String.eqb s "99" then Some 99%Q
  else if String.eqb s "101" then Some 101%Q
  else if String.eqb s "1" then Some 1%Q
  else if String.eqb s "0" then Some 0%Q
  else if String.eqb s "0.5" then Some 0.5%Q
  else if String.eqb s "-2" then Some (-2)%Q
  else if String.eqb s "25" then Some 25%Q
  else if String.eqb s "100.00" then Some 100%Q
  else if String.eqb s "2400" then Some 2400%Q
  else if String.eqb s "12.5" then Some 12.5%Q
  else None.

Definition parse_int (s : string) : option Z :=
  if String.eqb s "30" then Some 30
  else if String.eqb s "3" then Some 3
  else None.

(** Stands for the [event_info] text of a trade at price 250000 (cents)
    and size 10000 (ten-thousandths). *)
Definition settlement : string := "event_info(t.p=250000,t.s=10000)".

Definition decode (s : string) : option json :=
  if String.eqb s settlement
  then Some (JObj {[ "t" := JObj {[ "p" := JNum 250000; "s" := JNum 10000 ]} ]})
  else if String.eqb s "{}" then Some (JObj ∅)
  else None.

Definition environ (timeout : string) (name : string) : option string :=
  if String.eqb name "LIGHTER_POLL_INTERVAL" then Some "1"
  else if String.eqb name "LIGHTER_FILL_TIMEOUT" then Some timeout
  else None.

Definition tx_with_status (st : json) : http_response :=
  {| status_code := 200;
     body := Some (JObj {[ "status" := st; "event_info" := JStr settlement ]}) |}.

Definition not_found : http_response := {| status_code := 404; body := None |}.

(** not-found, processing, processing, settled *)
Definition settles_on_fourth_poll (k : nat) (tx_hash : string) : option http_response :=
  match k with
  | O => Some not_found
  | 1%nat | 2%nat => Some (tx_with_status (JNum 2))
  | _ => Some (tx_with_status (JNum 3))
  end.

Definition always (r : option http_response) (k : nat) (tx_hash : string)
  : option http_response := r.

(** not-found and transport errors in turn, for ever *)
Definition flaky (k : nat) (tx_hash : string) : option http_response :=
  if Nat.even k then Some not_found else None.

Definition venue (timeout : string) (meta : option json)
    (txs : nat → string → option http_response) (reply : signer_reply)
    (account : option json) : env :=
  {| getenv := environ timeout;
     float_of_str := parse_float;
     int_of_str := parse_int;
     json_loads := decode;
     time_time := λ k, inject_Z (Z.of_nat k);
     orderbook_meta := λ _, meta;
     order_book_orders := λ _, Some book;
     tx_by_hash := txs;
     account_by_l1 := account;
     create_market_order := λ _, reply |}.

Definition entry (position sign fraction : json) : json :=
  JObj {[ "position" := position; "symbol" := JStr "ETH"; "sign" := sign;
          "initial_margin_fraction" := fraction;
          "avg_entry_price" := JStr "2400"; "unrealized_pnl" := JStr "12.5" ]}.

(** A long of 0.5 at margin fraction 25, an entry of size zero, and a short
    of 1 with margin fraction 0. *)
Definition positions : list json :=
  [ entry (JStr "0.5") (JNum 1) (JStr "25");
    entry (JStr "0") (JNum 1) (JStr "25");
    entry (JStr "1") (JNum (-1)) (JStr "0") ].

Definition account : gmap string json := {[ "positions" := JArr positions ]}.

Definition accounts : gmap string json := {[ "accounts" := JArr [JObj account] ]}.

Definition accepted : signer_reply := SignerReply (RespObject (Some "0xfeed")) None.
Definition accepted_without_hash : signer_reply := SignerReply (RespObject None) None.
Definition refused : signer_reply := SignerReply RespNone (Some "insufficient margin").

(** A connector that knows no symbol yet, as at the start of the constructor. *)
Definition blank : world :=
  world_with {| base_endpoint := Some "https://venue.example"; l1_address := "0xabc";
                account_index := Some 7; signer_client := true;
                _symbol_to_market_id_cache := ∅;
                _market_size_decimals := ∅; _market_price_decimals := ∅;
                _market_min_base_amounts := ∅ |}.

(** A market list of two entries, the second without decimals, and a
    funding-rate list. *)
Definition listing : json :=
  JObj {[ "order_books" :=
            JArr [ JObj {[ "symbol" := JStr "ETH"; "market_id" := JNum 1;
                           "supported_size_decimals" := JNum 4;
                           "supported_price_decimals" := JNum 2;
                           "min_base_amount" := JStr "0.001" ]};
                   JObj {[ "symbol" := JStr "DOGE"; "index" := JNum 5 ]} ] ]}.

Definition funding (exchange : string) (market_id : Q) (r : string) : json :=
  JObj {[ "exchange" := JStr exchange; "market_id" := JNum market_id; "rate" := JStr r ]}.

Definition rates : json :=
  JObj {[ "funding_rates" :=
            JArr [ funding "binance" 1 "1"; funding "lighter" 2 "1";
                   funding "lighter" 1 "0.5"; funding "lighter" 1 "1" ] ]}.

Definition bulk : feeds := {| order_books := Some listing; funding_rates := Some rates |}.

(** The sample venue with a [json.loads] that decodes every text to [v]. *)
Definition venue_decoding (v : json) (txs : nat → string → option http_response) : env :=
  let E := venue "3" None txs accepted None in
  {| getenv := getenv E; float_of_str := float_of_str E; int_of_str := int_of_str E;
     json_loads := λ _, Some v; time_time := time_time E;
     orderbook_meta := orderbook_meta E; order_book_orders := order_book_orders E;
     tx_by_hash := tx_by_hash E; account_by_l1 := account_by_l1 E;
     create_market_order := create_market_order E |}.

(** The sample venue with another order book. *)
Definition venue_quoting (orders : json) : env :=
  let E := venue "30" None settles_on_fourth_poll accepted None in
  {| getenv := getenv E; float_of_str := float_of_str E; int_of_str := int_of_str E;
     json_loads := json_loads E; time_time := time_time E;
     orderbook_meta := orderbook_meta E;
     order_book_orders := λ _, Some orders;
     tx_by_hash := tx_by_hash E; account_by_l1 := account_by_l1 E;
     create_market_order := create_market_order E |}.

End Sample.

(** ** Observations and specification predicates *)

(** The orders handed to the signing SDK, oldest first. *)
Definition submitted (w : world) : list market_order :=
  omap (λ e, match e with EvCreateMarketOrder o => Some o | _ => None end)
       (rev (events w)).

(** The orders appended to the trade log, oldest first. *)
Definition logged (w : world) : list Order :=
  omap (λ e, match e with EvLogTrade o => Some o | _ => None end)
       (rev (events w)).

(** The sleeps of a run, oldest first. *)
Definition sleeps (w : world) : list Q :=
  omap (λ e, match e with EvSleep s => Some s | _ => None end)
       (rev (events w)).

(** An optional float holding the value [x]. *)
Definition holds (o : option Q) (x : Q) : Prop :=
  match o with Some p => (p == x)%Q | None => False end.

(** Whether a poll of the status endpoint shows the settled status: HTTP 200
    with a JSON object whose ['status'] equals 3. *)
Definition shows_settled (r : option http_response) : bool :=
  match r with
  | Some {| status_code := code; body := Some (JObj tx) |} =>
      Z.eqb code 200 && py_eq_num (default JNull (tx !! "status")) 3
  | _ => false
  end.

(** The world after [polls] more rounds of request-then-sleep and [reads]
    more readings of the clock. *)
Definition after_polls (tx_hash : string) (poll_interval : Q) (polls reads : nat)
    (w : world) : world :=
  {| self := self w;
     events := mjoin (replicate polls [EvSleep poll_interval; EvTx tx_hash]) ++ events w;
     clock_reads := reads + clock_reads w;
     tx_polls := polls + tx_polls w |}.

(** All three metadata fields of a market are cached, respectively none is. *)
Definition all_cached (c : connector) (market_id : Z) : bool :=
  has_key (_market_size_decimals c) market_id
  && has_key (_market_price_decimals c) market_id
  && has_key (_market_min_base_amounts c) market_id.

Definition none_cached (c : connector) (market_id : Z) : bool :=
  negb (has_key (_market_size_decimals c) market_id)
  && negb (has_key (_market_price_decimals c) market_id)
  && negb (has_key (_market_min_base_amounts c) market_id).

(** [float(v)] and [pos_data[key]] as partial functions. *)
Definition to_float (E : env) (v : json) : option Q :=
  match v with
  | JNum q => Some q
  | JBool b => Some (if b then 1 else 0)%Q
  | JStr s => float_of_str E s
  | _ => None
  end.

Definition field (pos_data : json) (key : string) : option json :=
  match pos_data with
  | JObj m => m !! key
  | _ => None
  end.

(** An entry of the account payload whose position size is not zero. *)
Definition is_open (E : env) (pos_data : json) : bool :=
  match field pos_data "position" ≫= to_float E with
  | Some position_size => Qneb position_size 0
  | None => false
  end.

(** [p] is the position the listing derives from the payload entry
    [pos_data]: a non-zero size, the side read off the sign, the leverage
    read off the margin fraction (100.00 when the entry has none). *)
Definition position_derived (E : env) (pos_data : json) (p : Position) : Prop :=
  ∃ (position_size margin_fraction : Q) (sign : json),
    field pos_data "position" ≫= to_float E = Some position_size ∧
    ¬ (position_size == 0)%Q ∧
    pos_size p = Qabs position_size ∧
    field pos_data "sign" = Some sign ∧
    pos_side p = (if py_eq_num sign 1 then BUY else SELL) ∧
    to_float E (default (JStr "100.00") (field pos_data "initial_margin_fraction"))
      = Some margin_fraction ∧
    leverage p = (if Qgtb margin_fraction 0 then 100 / margin_fraction else 1)%Q.

(** The order an operation hands to the SDK, from the encoded size and the
    encoded worst price. *)
Definition order_for (market_id base_amount avg_execution_price : Z)
    (is_ask reduce_only : bool) : market_order :=
  {| market_index := market_id; client_order_index := 0;
     base_amount := base_amount; avg_execution_price := avg_execution_price;
     is_ask := is_ask; reduce_only := reduce_only |}.

(** The record built from the request and the quote alone, under the
    identifier ["unknown"]. *)
Definition estimate (symbol : string) (side : OrderSide) (size current_price : Q)
  : Order :=
  {| id := "unknown"; symbol := symbol; side := side; type := MARKET;
     size := size; price := Some current_price; status := FILLED |}.

(** The world once [o] has been submitted and [e] logged, nothing else. *)
Definition submitted_and_logged (o : market_order) (e : Order) (w : world) : world :=
  {| self := self w;
     events := EvLogTrade e :: EvCreateMarketOrder o :: events w;
     clock_reads := clock_reads w; tx_polls := tx_polls w |}.

(** [n] is [x] with its fractional part dropped: the floor of a
    non-negative [x], the ceiling of a non-positive one. *)
Definition truncated_toward_zero (x : Q) (n : Z) : Prop :=
  ((0 <= x)%Q → n = Qfloor x) ∧ ((x <= 0)%Q → n = Qceiling x).

(** A computation that always returns or raises. *)
Definition never_stuck {A} (c : Py A) : Prop := ∀ w : world, fst (c w) ≠ Stuck.

(** A computation that makes no request to the transaction-status endpoint. *)
Definition keeps_polls {A} (c : Py A) : Prop :=
  ∀ w : world, tx_polls (snd (c w)) = tx_polls w.

(** What a derived position says about size, side and leverage. *)
Definition position_facts (E : env) (entries : list json) (p : Position) : Prop :=
  ∃ pos_data sign margin_fraction,
    pos_data ∈ entries ∧ is_open E pos_data = true ∧
    field pos_data "sign" = Some sign ∧
    (sign = JNum 1 → pos_side p = BUY) ∧
    (sign = JNum (-1) → pos_side p = SELL) ∧
    to_float E (default (JStr "100.00") (field pos_data "initial_margin_fraction"))
      = Some margin_fraction ∧
    ((0 < margin_fraction)%Q → leverage p = (100 / margin_fraction)%Q) ∧
    ((margin_fraction <= 0)%Q → leverage p = 1%Q).

(** A computation that leaves an observation [f] of the world as it was. *)
Definition keeps {T A} (f : world → T) (c : Py A) : Prop :=
  ∀ w : world, f (snd (c w)) = f w.

(** What is fixed when the connector is built: endpoint, address, account
    index, signer and the symbol cache. *)
Definition static (w : world)
  : option string * string * option Z * bool * gmap string Z :=
  (base_endpoint (self w), l1_address (self w), account_index (self w),
   signer_client (self w), _symbol_to_market_id_cache (self w)).

(** The cached metadata of one market. *)
Definition metadata (market_id : Z) (w : world) : option json * option json * option json :=
  (_market_size_decimals (self w) !! market_id,
   _market_price_decimals (self w) !! market_id,
   _market_min_base_amounts (self w) !! market_id).

(** Every symbol of the symbol cache names a market whose three fields are
    all cached. *)
Definition keyed (c : connector) : Prop :=
  ∀ (s : string) (m : Z),
    _symbol_to_market_id_cache c !! s = Some m → all_cached c m = true.

(** An operation that appends the order it returns to the trade log, and
    nothing when it does not return. *)
Definition logs_result (c : Py Order) : Prop :=
  ∀ w : world,
    logged (snd (c w))
    = (logged w ++ match fst (c w) with Return o => [o] | _ => [] end)%list.

(** An operation that hands exactly one order to the SDK, one that satisfies
    [P], or none at all, and then it does not return. *)
Definition submits (P : market_order → Prop) {A} (c : Py A) : Prop :=
  ∀ w : world,
    (submitted (snd (c w)) = submitted w ∧ ∀ a, fst (c w) ≠ Return a) ∨
    (∃ o, P o ∧ submitted (snd (c w)) = (submitted w ++ [o])%list).

(** The flags of a submitted order. *)
Definition flagged (ask reduce : bool) (o : market_order) : Prop :=
  is_ask o = ask ∧ reduce_only o = reduce ∧ client_order_index o = 0.

(** A reply of the signing SDK that is no acceptance: it raised, or it came
    with an error. *)
Definition rejects (r : signer_reply) : Prop :=
  match r with SignerReply _ None => False | _ => True end.

(** A computation whose every exception satisfies [P]. *)
Definition raises_only {A} (P : exn → Prop) (c : Py A) : Prop :=
  ∀ (w : world) (e : exn), fst (c w) = Raise e → P e.

(** The exception an operation's handler builds: "Failed to [what]: cause". *)
Definition wrapped (what : string) (e : exn) : Prop :=
  ∃ cause : exn, e = Exception (FailedTo what cause).

(** The world once one more poll has been answered. *)
Definition polled (tx_hash : string) (w : world) : world :=
  {| self := self w; events := EvTx tx_hash :: events w;
     clock_reads := clock_reads w; tx_polls := S (tx_polls w) |}.

(** An entry of the funding-rate list that is for [market_id] on Lighter. *)
Definition quotes_market (market_id : Z) (funding_rate : json) : bool :=
  py_eq_num (default JNull (field funding_rate "market_id")) (inject_Z market_id)
  && py_eq_str (default JNull (field funding_rate "exchange")) "lighter".

(** The world once [o] has been handed to the SDK, respectively once [e] has
    been appended to the trade log. *)
Definition once_submitted (o : market_order) (w : world) : world :=
  {| self := self w; events := EvCreateMarketOrder o :: events w;
     clock_reads := clock_reads w; tx_polls := tx_polls w |}.

Definition once_logged (e : Order) (w : world) : world :=
  {| self := self w; events := EvLogTrade e :: events w;
     clock_reads := clock_reads w; tx_polls := tx_polls w |}.

(** The record built from a fill result, under the transaction hash. *)
Definition confirmed (tx_hash symbol : string) (side : OrderSide) (r : fill_result)
  : Order :=
  {| id := tx_hash; symbol := symbol; side := side; type := MARKET;
     size := actual_size r; price := actual_price r; status := FILLED |}.

(** What an operation makes of the outcome of its fill wait: a fill is
    recorded and logged, an exception is wrapped. *)
Definition recorded (what tx_hash symbol : string) (side : OrderSide)
    (r : outcome fill_result * world) : outcome Order * world :=
  match r with
  | (Return fill, w) =>
      (Return (confirmed tx_hash symbol side fill),
       once_logged (confirmed tx_hash symbol side fill) w)
  | (Raise e, w) => (Raise (Exception (FailedTo what e)), w)
  | (Stuck, w) => (Stuck, w)
  end.

(** The world once the order book of a market has been requested. *)
Definition once_quoted (market_id : Z) (w : world) : world :=
  {| self := self w; events := EvOrderBookOrders market_id :: events w;
     clock_reads := clock_reads w; tx_polls := tx_polls w |}.

(** A side of the order book that is missing or lists no level. *)
Definition no_levels (book : gmap string json) (side : string) : Prop :=
  book !! side = None ∨ book !! side = Some (JArr []).

(** A computation that keeps an invariant [P] of the world. *)
Definition preserves {A} (P : world → Prop) (c : Py A) : Prop :=
  ∀ w : world, P w → P (snd (c w)).

(** The entries of the market list the bulk endpoint answered with: the list
    itself, or the list under ['order_books'], else under ['orderbooks']. *)
Definition listed (data : json) : list json :=
  match data with
  | JArr l => l
  | JObj d =>
      match default (default (JArr []) (d !! "orderbooks")) (d !! "order_books") with
      | JArr l => l
      | _ => []
      end
  | _ => []
  end.

(** A symbol the symbol cache holds. *)
Definition known (symbol : string) (w : world) : Prop :=
  is_Some (_symbol_to_market_id_cache (self w) !! symbol).

(** A decoded settlement payload the code cannot read a trade from: not an
    object, or an object whose ['t'] is not one. *)
Definition unusable (event_info : json) : Prop :=
  match event_info with
  | JObj ev => match ev !! "t" with
               | Some (JObj _) | None => False
               | Some _ => True
               end
  | _ => True
  end.

(** The order-book requests for a list of markets, first market first, as
    they stand in the trace (newest first). *)
Definition quote_requests (market_ids : list Z) : list event :=
  rev (EvOrderBookOrders <$> market_ids).

(** [market_id] is the market of the symbol of position [p]. *)
Definition priced_on (c : connector) (p : Position) (market_id : Z) : Prop :=
  _symbol_to_market_id_cache c !! pos_symbol p = Some market_id.

(** The world once the events [evs] (newest first) have been added. *)
Definition after_events (evs : list event) (w : world) : world :=
  {| self := self w; events := (evs ++ events w)%list;
     clock_reads := clock_reads w; tx_polls := tx_polls w |}.

(** * Properties *)

(** ** Precision transcoding *)

Lemma py_int_floor (x : Q) : (0 <= x)%Q → py_int x = Qfloor x.
Proof.
  destruct x as [n d]. unfold Qle, py_int, Qfloor. simpl. intros H.
  apply Z.quot_div_nonneg; lia.
Qed.

Lemma py_int_ceiling (x : Q) : (x <= 0)%Q → py_int x = Qceiling x.
Proof.
  destruct x as [n d]. unfold Qle, py_int, Qceiling, Qfloor. simpl. intros H.
  rewrite <- (Z.opp_involutive n) at 1. rewrite Z.quot_opp_l by lia.
  f_equal. apply Z.quot_div_nonneg; lia.
Qed.

Lemma pow10_pos (d : Z) : (0 < 10 ^ d)%Q.
Proof. apply Qpower_0_lt. reflexivity. Qed.

Lemma is_integral_inject_Z (d : Z) : is_integral (inject_Z d) = true.
Proof.
  unfold is_integral. apply Qeq_bool_iff. rewrite Qfloor_Z. reflexivity.
Qed.

Lemma py_pow10_int (d : Z) (w : world) :
  0 <= d → py_pow10 (JNum (inject_Z d)) w = (Return (10 ^ d)%Q, w).
Proof.
  intros Hd. unfold py_pow10. rewrite is_integral_inject_Z, Qfloor_Z.
  apply Z.leb_le in Hd. rewrite Hd. reflexivity.
Qed.

Lemma py_int_of_product_run (x scale product : Q) (w : world) :
  float_mul x scale = Some product →
  py_int_of_product x scale w = (Return (py_int product), w).
Proof.
  unfold float_mul, py_int_of_product.
  destruct (round64 x) as [a|]; [| discriminate]. simpl.
  destruct (round64 scale) as [b|]; [| discriminate]. simpl.
  intros ->. reflexivity.
Qed.

Lemma convert_size_cached (w : world) (v product : Q) (market_id d : Z) :
  _market_size_decimals (self w) !! market_id = Some (JNum (inject_Z d)) →
  0 <= d → float_mul v (10 ^ d) = Some product →
  _convert_size_to_lighter_format v market_id w = (Return (py_int product), w).
Proof.
  intros H Hd Hp. unfold _convert_size_to_lighter_format, bind, get_self.
  rewrite H. unfold or_raise, ret. rewrite py_pow10_int by exact Hd.
  by apply py_int_of_product_run.
Qed.

Lemma convert_price_cached (w : world) (v product : Q) (market_id d : Z) :
  _market_price_decimals (self w) !! market_id = Some (JNum (inject_Z d)) →
  0 <= d → float_mul v (10 ^ d) = Some product →
  _convert_price_to_lighter_format v market_id w = (Return (py_int product), w).
Proof.
  intros H Hd Hp. unfold _convert_price_to_lighter_format, bind, get_self.
  rewrite H. unfold or_raise, ret. rewrite py_pow10_int by exact Hd.
  by apply py_int_of_product_run.
Qed.

Lemma py_int_truncates (x : Q) : truncated_toward_zero x (py_int x).
Proof. split; [apply py_int_floor | apply py_int_ceiling]. Qed.

(** What the converters do for every input: with integer decimals [d >= 0]
    cached, the value encoded is the binary64 product of [v] and [10^d]
    with its fractional part dropped, the floor of a non-negative product.
    The truncation is of the rounded product, not of [v * 10^d]. *)
Lemma convert_truncates_product (w : world) (v xs xp : Q) (market_id ds dp : Z) :
  _market_size_decimals (self w) !! market_id = Some (JNum (inject_Z ds)) →
  _market_price_decimals (self w) !! market_id = Some (JNum (inject_Z dp)) →
  0 <= ds → 0 <= dp →
  float_mul v (10 ^ ds) = Some xs → float_mul v (10 ^ dp) = Some xp →
  ∃ ns np : Z,
    _convert_size_to_lighter_format v market_id w = (Return ns, w) ∧
    _convert_price_to_lighter_format v market_id w = (Return np, w) ∧
    truncated_toward_zero xs ns ∧ truncated_toward_zero xp np.
Proof.
  intros Hs Hp Hds Hdp Hxs Hxp. exists (py_int xs), (py_int xp).
  split; [by apply (convert_size_cached w v xs market_id ds) |].
  split; [by apply (convert_price_cached w v xp market_id dp) |].
  split; apply py_int_truncates.
Qed.

(** C1 on the code.  With two price decimals cached, 0.29 is encoded as 28:
    the product 0.29 * 100 on doubles is 28.999999999999996..., and [int()]
    drops its fractional part, where [floor (0.29 * 10^2)] is 29.  Likewise
    1.13 with four size decimals is encoded as 11299, not 11300.  Nor is the
    result the floor of the product with the double itself: the double
    nearest 0.03 lies below 0.03, its product with 100 rounds up to the
    double 3, and it is encoded as 3, where the floor of the exact product is
    2.  A size of 1e308 raises OverflowError.  The spec's own example,
    1.23456 with four decimals, does give 12345. *)
Lemma convert_truncates_rounded_product :
  fst (_convert_price_to_lighter_format 0.29 1 Sample.cached) = Return 28 ∧
  Qfloor (0.29 * 10 ^ 2) = 29 ∧
  fst (_convert_size_to_lighter_format 1.13 1 Sample.cached) = Return 11299 ∧
  Qfloor (1.13 * 10 ^ 4) = 11300 ∧
  round64 0.03 = Some (1080863910568919 # 36028797018963968) ∧
  fst (_convert_price_to_lighter_format (1080863910568919 # 36028797018963968) 1
         Sample.cached) = Return 3 ∧
  Qfloor ((1080863910568919 # 36028797018963968) * 10 ^ 2) = 2 ∧
  fst (_convert_size_to_lighter_format (10 ^ 308) 1 Sample.cached) = Raise OverflowError ∧
  fst (_convert_size_to_lighter_format 1.23456 1 Sample.cached) = Return 12345.
Proof. vm_compute. repeat split; reflexivity. Qed.

(** ** Slippage *)

Lemma slippage_or_default_zero (s : Q) :
  (s == 0)%Q → slippage_or_default (Some s) = slippage_or_default None.
Proof.
  intros H. unfold slippage_or_default, Qneb.
  apply Qeq_bool_iff in H. rewrite H. reflexivity.
Qed.

Lemma slippage_or_default_nonzero (s : Q) :
  ¬ (s == 0)%Q → slippage_or_default (Some s) = s.
Proof.
  intros H. unfold slippage_or_default, Qneb.
  destruct (Qeq_bool s 0) eqn:Hs; [| reflexivity].
  apply Qeq_bool_iff in Hs. contradiction.
Qed.

(** C2 at a supplied slippage of zero: with the book at 100 and two price
    decimals, a buy is submitted with worst price 101.00 and a sell with
    99.00, where price * (1 + 0) and price * (1 - 0) are both 100.00. *)
Lemma zero_slippage_worst_price :
  let E := Sample.venue "30" None Sample.settles_on_fourth_poll Sample.accepted None in
  map avg_execution_price
      (submitted (snd (place_market_buy_order E 9 "ETH" 1 (Some 0%Q) Sample.cached)))
    = [10100] ∧
  map avg_execution_price
      (submitted (snd (place_market_sell_order E 9 "ETH" 1 (Some 0%Q) Sample.cached)))
    = [9900] ∧
  py_int (100 * (1 + 0) * 10 ^ 2) = 10000 ∧
  py_int (100 * (1 - 0) * 10 ^ 2) = 10000.
Proof. vm_compute. repeat split; reflexivity. Qed.

(** ** Fill confirmation *)

Lemma bind_return {A B} (c : Py A) (k : A → Py B) (w w' : world) (a : A) :
  c w = (Return a, w') → bind c k w = k a w'.
Proof. unfold bind. intros ->. reflexivity. Qed.

Lemma try_except_return {A} (c : Py A) (h : exn → Py A) (w w' : world) (a : A) :
  c w = (Return a, w') → try_except c h w = (Return a, w').
Proof. unfold try_except. intros ->. reflexivity. Qed.

(** A poll that does not show the settled status ends, whatever else it
    shows, with a sleep of the poll interval and the loop going on: not
    found, still processing, a transport error, an undecodable body, and
    also a status beyond 3, whose exception the loop's handler swallows. *)
Lemma poll_unsettled (E : env) (tx_hash url : string) (expected_size poll_interval : Q)
    (w : world) :
  base_endpoint (self w) = Some url →
  shows_settled (tx_by_hash E (tx_polls w) tx_hash) = false →
  try_except (poll_once E tx_hash expected_size poll_interval)
             (λ _, let! _ := sleep poll_interval in ret None) w
  = (Return None, after_polls tx_hash poll_interval 1 0 w).
Proof.
  intros Hurl Hs.
  unfold try_except, poll_once, bind, get_self, requests_get_tx, sleep, emit, ret, raise,
    after_polls.
  rewrite Hurl. simpl.
  destruct (tx_by_hash E (tx_polls w) tx_hash) as [[code bd]|]; simpl in *; [| done].
  destruct (Z.eqb code 200) eqn:Hc; simpl in *.
  - destruct bd as [tx_data|]; simpl; [| done].
    destruct tx_data as [| | | | |tx]; simpl; try done.
    rewrite Hs.
    destruct (py_eq_num (default JNull (tx !! "status")) 2); simpl; [done |].
    destruct (truthy (default JNull (tx !! "status"))); simpl; [| done].
    destruct (default JNull (tx !! "status")) as [|b|q| | |]; simpl; try done.
    + destruct (Qgtb (if b then 1 else 0) 3); done.
    + destruct (Qgtb q 3); done.
  - destruct (Z.eqb code 404); done.
Qed.

Lemma after_polls_compose (tx_hash : string) (poll_interval : Q) (a b a' b' : nat)
    (w : world) :
  after_polls tx_hash poll_interval a b (after_polls tx_hash poll_interval a' b' w)
  = after_polls tx_hash poll_interval (a + a') (b + b') w.
Proof.
  unfold after_polls. simpl. f_equal.
  - rewrite replicate_add, join_app, app_assoc. reflexivity.
  - lia.
  - lia.
Qed.

Lemma Qltb_false (x y : Q) : (y <= x)%Q → Qltb x y = false.
Proof. intros H. unfold Qltb. apply Qle_bool_iff in H. rewrite H. reflexivity. Qed.

(** The first index at which a test fails. *)
Lemma first_false (f : nat → bool) (n : nat) :
  f n = false →
  ∃ m : nat, (m ≤ n)%nat ∧ f m = false ∧ ∀ j : nat, (j < m)%nat → f j = true.
Proof.
  revert f. induction n as [|n IH]; intros f Hn.
  - exists 0%nat. split; [lia |]. split; [exact Hn |]. intros j Hj. lia.
  - destruct (f 0%nat) eqn:H0.
    + destruct (IH (λ j, f (S j)) Hn) as (m & Hm & Hfm & Hlt).
      exists (S m). split; [lia |]. split; [exact Hfm |].
      intros [|j] Hj; [exact H0 | apply Hlt; lia].
    + exists 0%nat. split; [lia |]. split; [exact H0 |]. intros j Hj. lia.
Qed.

Lemma Qltb_lt (x y : Q) : Qltb x y = true ↔ (x < y)%Q.
Proof.
  unfold Qltb. rewrite negb_true_iff, <- not_true_iff_false, Qle_bool_iff.
  split; [apply Qnot_le_lt | apply Qlt_not_le].
Qed.

Lemma Qltb_ge (x y : Q) : Qltb x y = false ↔ (y <= x)%Q.
Proof. unfold Qltb. rewrite negb_false_iff. apply Qle_bool_iff. Qed.

(** The loop on any clock: while the time elapsed since [start_time] is
    below the timeout at the loop's test and the poll that follows does not
    show the settled status, the loop polls, sleeps and tests again; at the
    first test at which the timeout has elapsed it raises.  [m] is the
    number of tests passed, the test at the [j]-th iteration reading the
    clock at index [clock_reads w + j]. *)
Lemma wait_loop_until_timeout (E : env) (tx_hash url : string)
    (expected_size poll_interval start_time : Q) (timeout : Z) (m : nat) :
  ∀ (fuel : nat) (w : world),
    (m < fuel)%nat →
    base_endpoint (self w) = Some url →
    (∀ j : nat, (j < m)%nat →
       Qltb (time_time E (clock_reads w + j) - start_time) (inject_Z timeout) = true) →
    Qltb (time_time E (clock_reads w + m) - start_time) (inject_Z timeout) = false →
    (∀ k : nat, (k < m)%nat →
       shows_settled (tx_by_hash E (tx_polls w + k) tx_hash) = false) →
    wait_loop E fuel tx_hash expected_size timeout start_time poll_interval w
    = (Raise (Exception (TransactionNotConfirmed tx_hash timeout)),
       after_polls tx_hash poll_interval m (S m) w).
Proof.
  induction m as [|m IH]; intros fuel w Hfuel Hurl Hin Hout Hnever;
    (destruct fuel as [|fuel]; [lia |]); simpl; unfold bind at 1, time_now at 1.
  - rewrite Nat.add_0_r in Hout. rewrite Hout. reflexivity.
  - pose proof (Hin 0%nat ltac:(lia)) as H0. rewrite Nat.add_0_r in H0. rewrite H0.
    set (w1 := {| self := self w; events := events w;
                  clock_reads := S (clock_reads w); tx_polls := tx_polls w |}).
    assert (w1 = after_polls tx_hash poll_interval 0 1 w) as Hw1 by reflexivity.
    erewrite bind_return;
      [| apply (poll_unsettled E tx_hash url);
         [exact Hurl | simpl; rewrite <- (Nat.add_0_r (tx_polls w)); apply Hnever; lia]].
    cbv beta iota.
    rewrite (IH fuel (after_polls tx_hash poll_interval 1 0 w1)).
    + rewrite Hw1, !after_polls_compose. repeat f_equal; lia.
    + lia.
    + exact Hurl.
    + intros j Hj. simpl. rewrite <- Nat.add_succ_r. apply Hin. lia.
    + simpl. rewrite <- Nat.add_succ_r. exact Hout.
    + intros k Hk. simpl. rewrite <- Nat.add_succ_r. apply Hnever. lia.
Qed.

Section FillWait.

Context (E : env) (poll_interval : Q) (timeout : Z).

(** [c] is the number of clock readings before the wait starts, so the
    wait reads its start time at index [c] and tests the loop condition at
    indices [c + 1], [c + 2], ... *)
Context (c : nat).

(** Time does not run backwards between the first two readings, and a sleep
    of the poll interval separates each later pair of readings. *)
Hypothesis clock_monotone : (time_time E c <= time_time E (c + 1))%Q.
Hypothesis clock_sleeps :
  ∀ j : nat, (time_time E (c + 1 + j) + poll_interval <= time_time E (c + 1 + S j))%Q.

Lemma elapsed_lower_bound (j : nat) :
  (inject_Z (Z.of_nat j) * poll_interval <= time_time E (c + 1 + j) - time_time E c)%Q.
Proof using clock_monotone clock_sleeps.
  induction j as [|j IH].
  - replace (c + 1 + 0)%nat with (c + 1)%nat by lia.
    change (inject_Z (Z.of_nat 0)) with 0%Q. lra.
  - pose proof (clock_sleeps j) as Hs.
    rewrite Nat2Z.inj_succ, <- Z.add_1_r, inject_Z_plus.
    change (inject_Z 1) with 1%Q. lra.
Qed.

(** [n] poll intervals cover the timeout: the timeout has elapsed at one of
    the first [n + 1] tests of the loop. *)
Context (n : nat).
Hypothesis covers : (inject_Z timeout <= inject_Z (Z.of_nat n) * poll_interval)%Q.

Lemma timeout_elapses :
  ∃ m : nat, (m ≤ n)%nat ∧
    (∀ j : nat, (j < m)%nat →
       Qltb (time_time E (c + 1 + j) - time_time E c) (inject_Z timeout) = true) ∧
    Qltb (time_time E (c + 1 + m) - time_time E c) (inject_Z timeout) = false.
Proof using clock_monotone clock_sleeps covers.
  destruct (first_false
              (λ j, Qltb (time_time E (c + 1 + j) - time_time E c) (inject_Z timeout)) n)
    as (m & Hm & Hout & Hin).
  - apply Qltb_ge. pose proof (elapsed_lower_bound n). lra.
  - exists m. split; [exact Hm |]. split; [exact Hin | exact Hout].
Qed.

End FillWait.

(** C8.  Let the poll interval be configured, let every pair of successive
    clock readings of the loop be a sleep apart, and let [n] poll intervals
    cover the timeout.  If none of the next [n] polls shows the settled
    status (a not-found response and a transport error are such polls, and
    so is anything else), then the wait makes exactly [m] rounds of one poll
    followed by one sleep of the poll interval, where [m], at most [n], is
    the number of the first test of the loop at which the time elapsed
    since the start is no longer below the timeout: while the timeout has not
    elapsed each such poll is followed by the sleep and another test, and
    at the first test past the timeout the wait raises the timeout
    exception, which carries the transaction hash, without another poll.
    [n + 1] iterations of fuel are enough. *)
Theorem fill_wait_times_out
    (E : env) (tx_hash symbol url interval_str : string) (side : OrderSide)
    (expected_size poll_interval : Q) (timeout : Z) (n fuel : nat) (w : world) :
  base_endpoint (self w) = Some url →
  getenv E "LIGHTER_POLL_INTERVAL" = Some interval_str →
  interval_str ≠ "" →
  float_of_str E interval_str = Some poll_interval →
  (time_time E (clock_reads w) <= time_time E (clock_reads w + 1))%Q →
  (∀ j : nat, (time_time E (clock_reads w + 1 + j) + poll_interval
               <= time_time E (clock_reads w + 1 + S j))%Q) →
  (inject_Z timeout <= inject_Z (Z.of_nat n) * poll_interval)%Q →
  (∀ k : nat, (k < n)%nat →
              shows_settled (tx_by_hash E (tx_polls w + k) tx_hash) = false) →
  (n < fuel)%nat →
  let elapsed (j : nat) :=
    (time_time E (clock_reads w + 1 + j) - time_time E (clock_reads w))%Q in
  shows_settled None = false ∧
  (∀ b : option json, shows_settled (Some {| status_code := 404; body := b |}) = false) ∧
  ∃ m : nat, (m ≤ n)%nat ∧
    (∀ j : nat, (j < m)%nat → (elapsed j < inject_Z timeout)%Q) ∧
    (inject_Z timeout <= elapsed m)%Q ∧
    _wait_for_fill E fuel tx_hash symbol side expected_size timeout w
    = (Raise (Exception (TransactionNotConfirmed tx_hash timeout)),
       after_polls tx_hash poll_interval m (S (S m)) w).
Proof.
  intros Hurl Henv Hne Hfloat Hmono Hsleep Hcover Hnever Hfuel elapsed.
  split; [reflexivity |].
  split; [intros [[]|]; reflexivity |].
  destruct (timeout_elapses E poll_interval timeout (clock_reads w) Hmono Hsleep n Hcover)
    as (m & Hm & Hin & Hout).
  exists m. split; [exact Hm |].
  split; [intros j Hj; apply Qltb_lt, Hin, Hj |].
  split; [apply Qltb_ge, Hout |].
  unfold _wait_for_fill, bind at 1, time_now at 1.
  rewrite Henv. apply String.eqb_neq in Hne. rewrite Hne.
  unfold bind at 1. rewrite Hfloat. unfold or_raise, ret.
  set (w1 := {| self := self w; events := events w;
                clock_reads := S (clock_reads w); tx_polls := tx_polls w |}).
  assert (w1 = after_polls tx_hash poll_interval 0 1 w) as Hw1 by reflexivity.
  rewrite (wait_loop_until_timeout E tx_hash url expected_size poll_interval
             (time_time E (clock_reads w)) timeout m fuel w1).
  - rewrite Hw1, after_polls_compose. repeat f_equal; lia.
  - lia.
  - exact Hurl.
  - intros j Hj. simpl. replace (S (clock_reads w + j)) with (clock_reads w + 1 + j)%nat
      by lia. apply Hin, Hj.
  - simpl. replace (S (clock_reads w + m)) with (clock_reads w + 1 + m)%nat by lia.
    exact Hout.
  - intros k Hk. simpl. apply Hnever. lia.
Qed.

(** On the sample venue the clock reads 0, 1, 2, ... and the poll interval
    is 1: with a timeout of 3 and polls that are not found or fail in turn,
    the wait starts at time 0, polls and sleeps after the tests at times 1
    and 2, and raises at the test at time 3. *)
Lemma fill_wait_times_out_witness :
  let E := Sample.venue "3" None Sample.flaky Sample.accepted None in
  getenv E "LIGHTER_POLL_INTERVAL" = Some "1" ∧
  float_of_str E "1" = Some 1%Q ∧
  tx_by_hash E 0 "0xfeed" = Some Sample.not_found ∧
  tx_by_hash E 1 "0xfeed" = None ∧
  _wait_for_fill E 4 "0xfeed" "ETH" BUY 1 3 Sample.cached
  = (Raise (Exception (TransactionNotConfirmed "0xfeed" 3)),
     after_polls "0xfeed" 1 2 4 Sample.cached) ∧
  rev (events (snd (_wait_for_fill E 4 "0xfeed" "ETH" BUY 1 3 Sample.cached)))
  = [EvTx "0xfeed"; EvSleep 1; EvTx "0xfeed"; EvSleep 1].
Proof.
  intros E. split; [reflexivity |]. split; [reflexivity |].
  split; [reflexivity |]. split; [reflexivity |].
  destruct (fill_wait_times_out E "0xfeed" "ETH" "https://venue.example" "1" BUY 1 1 3 3 4
              Sample.cached) as (_ & _ & m & Hm & Hin & Hout & Hrun).
  - reflexivity.
  - reflexivity.
  - discriminate.
  - reflexivity.
  - vm_compute. discriminate.
  - intros j. unfold Qle. simpl. lia.
  - vm_compute. discriminate.
  - intros k _. unfold E, Sample.venue, Sample.flaky. simpl.
    destruct (Nat.even k); reflexivity.
  - lia.
  - assert (m = 2%nat) as ->.
    { destruct m as [|[|[|m]]].
      - vm_compute in Hout. destruct Hout. reflexivity.
      - vm_compute in Hout. destruct Hout. reflexivity.
      - reflexivity.
      - pose proof (Hin 2%nat ltac:(lia)) as H2. vm_compute in H2. discriminate. }
    rewrite Hrun. split; reflexivity.
Defined.

Lemma settled_decoded (E : env) (tx_hash s : string) (expected_size p sz price size : Q)
    (tx ev t : gmap string json) (w : world) :
  tx !! "event_info" = Some (JStr s) →
  json_loads E s = Some (JObj ev) →
  ev !! "t" = Some (JObj t) →
  t !! "p" = Some (JNum p) →
  t !! "s" = Some (JNum sz) →
  round64 (p / 100) = Some price →
  round64 (sz / 10000) = Some size →
  settled E tx_hash expected_size (JObj tx) w
  = (Return {| fill_status := "FILLED"; fill_tx_hash := tx_hash;
               actual_price := if Qgtb price 0 then Some price else None;
               actual_size := if Qgtb size 0 then size else expected_size;
               block_height := Some (default JNull (tx !! "block_height"));
               executed_at := Some (default JNull (tx !! "executed_at"));
               tx_data := JObj tx |}, w).
Proof.
  intros Hinfo Hloads Ht Hp Hs Hprice Hsize.
  unfold settled, try_except, bind, py_get, py_json_loads, py_truediv, true_division,
    or_raise, ret.
  rewrite Hinfo. simpl. rewrite Hloads, Ht. simpl. rewrite Hp, Hs. simpl.
  rewrite Hprice, Hsize. reflexivity.
Qed.

Lemma settled_undecodable (E : env) (tx_hash s : string) (expected_size : Q)
    (tx : gmap string json) (w : world) :
  tx !! "event_info" = Some (JStr s) →
  json_loads E s = None →
  settled E tx_hash expected_size (JObj tx) w
  = (Return {| fill_status := "FILLED"; fill_tx_hash := tx_hash;
               actual_price := None; actual_size := expected_size;
               block_height := None; executed_at := None;
               tx_data := JObj tx |}, w).
Proof.
  intros Hinfo Hloads.
  unfold settled, try_except, bind, py_get, py_json_loads, or_raise, ret, raise.
  rewrite Hinfo. simpl. rewrite Hloads. reflexivity.
Qed.

Lemma Qgtb_pos (x : Q) : (0 < x)%Q → Qgtb x 0 = true.
Proof.
  intros H. unfold Qgtb. destruct (Qle_bool x 0) eqn:Hle; [| reflexivity].
  apply Qle_bool_iff in Hle. lra.
Qed.



(** A price field beyond the doubles: [10^400 / 100] raises OverflowError
    inside the [try] of the settlement branch, whose handler does not catch
    it; the loop's handler does, and the wait polls on until the timeout. *)
Example fill_with_overflowing_price :
  let E := Sample.venue_decoding (JObj {[ "t" := JObj {[ "p" := JNum (10 ^ 400) ]} ]})
             (Sample.always (Some (Sample.tx_with_status (JNum 3)))) in
  fst (_wait_for_fill E 9 "0xfeed" "ETH" BUY 1 3 Sample.cached)
  = Raise (Exception (TransactionNotConfirmed "0xfeed" 3)).
Proof. vm_compute. reflexivity. Qed.

(** The status sequence not-found, processing, processing, settled: four
    polls, three sleeps, and the fill at 2500.00 for size 1.0. *)
Example fill_after_four_polls :
  let E := Sample.venue "30" None Sample.settles_on_fourth_poll Sample.accepted None in
  ∃ (r : fill_result) (w' : world),
    _wait_for_fill E 9 "0xfeed" "ETH" BUY 0.5 30 Sample.cached = (Return r, w') ∧
    fill_status r = "FILLED" ∧ holds (actual_price r) 2500 ∧ (actual_size r == 1)%Q ∧
    tx_polls w' = 4%nat ∧ sleeps w' = [1; 1; 1]%Q.
Proof.
  intros E. eexists. eexists. split; [vm_compute; reflexivity |].
  repeat split; reflexivity.
Qed.

(** An undecodable settlement payload still gives a fill, without a price. *)
Example fill_with_undecodable_payload :
  let E := Sample.venue "30" None
             (Sample.always (Some {| status_code := 200;
                                     body := Some (JObj {[ "status" := JNum 3;
                                                           "event_info" := JStr "{" ]}) |}))
             Sample.accepted None in
  ∃ (r : fill_result) (w' : world),
    _wait_for_fill E 9 "0xfeed" "ETH" BUY 0.5 30 Sample.cached = (Return r, w') ∧
    fill_status r = "FILLED" ∧ actual_price r = None ∧ actual_size r = 0.5%Q.
Proof.
  intros E. eexists. eexists. split; [vm_compute; reflexivity |].
  repeat split; reflexivity.
Qed.

Lemma never_stuck_ret {A} (a : A) : never_stuck (ret a).
Proof. intros w. discriminate. Qed.

Lemma never_stuck_raise {A} (e : exn) : never_stuck (@raise A e).
Proof. intros w. discriminate. Qed.

Lemma never_stuck_bind {A B} (c : Py A) (k : A → Py B) :
  never_stuck c → (∀ a, never_stuck (k a)) → never_stuck (bind c k).
Proof.
  intros Hc Hk w. unfold bind. specialize (Hc w).
  destruct (c w) as [[a|e|] w']; simpl in *; [apply Hk | discriminate | done].
Qed.

Lemma never_stuck_try {A} (c : Py A) (h : exn → Py A) :
  never_stuck c → (∀ e, never_stuck (h e)) → never_stuck (try_except c h).
Proof.
  intros Hc Hh w. unfold try_except. specialize (Hc w).
  destruct (c w) as [[a|e|] w']; simpl in *; [discriminate | apply Hh | done].
Qed.

Lemma never_stuck_or_raise {A} (o : option A) (e : exn) : never_stuck (or_raise o e).
Proof. destruct o; [apply never_stuck_ret | apply never_stuck_raise]. Qed.

Lemma never_stuck_py_get (d : json) (key : string) (dflt : json) :
  never_stuck (py_get d key dflt).
Proof. destruct d; first [apply never_stuck_ret | apply never_stuck_raise]. Qed.

Lemma never_stuck_true_division (q n : Q) : never_stuck (true_division q n).
Proof.
  unfold true_division. destruct (round64 _); [apply never_stuck_ret | apply never_stuck_raise].
Qed.

Lemma never_stuck_py_truediv (v : json) (n : Q) : never_stuck (py_truediv v n).
Proof. destruct v; first [apply never_stuck_true_division | apply never_stuck_raise]. Qed.

Lemma never_stuck_py_gt_num (v : json) (n : Q) : never_stuck (py_gt_num v n).
Proof. destruct v; first [apply never_stuck_ret | apply never_stuck_raise]. Qed.

Lemma never_stuck_py_json_loads (E : env) (v : json) : never_stuck (py_json_loads E v).
Proof. destruct v; first [apply never_stuck_or_raise | apply never_stuck_raise]. Qed.

Lemma never_stuck_emit (e : event) : never_stuck (emit e).
Proof. intros w. discriminate. Qed.

Lemma never_stuck_get_self : never_stuck get_self.
Proof. intros w. discriminate. Qed.

Lemma never_stuck_requests_get_tx (E : env) (tx_hash : string) :
  never_stuck (requests_get_tx E tx_hash).
Proof.
  intros w. unfold requests_get_tx. simpl.
  destruct (tx_by_hash E (tx_polls w) tx_hash); discriminate.
Qed.

Create HintDb never_stuck.

#[local] Hint Resolve never_stuck_ret never_stuck_raise never_stuck_or_raise
  never_stuck_py_get never_stuck_py_truediv never_stuck_py_gt_num
  never_stuck_py_json_loads never_stuck_emit never_stuck_get_self
  never_stuck_requests_get_tx : never_stuck.

Ltac never_stuck_step :=
  first [ solve [auto with never_stuck]
        | apply never_stuck_bind; [| intros ?]
        | apply never_stuck_try; [| intros ?]
        | match goal with
          | |- never_stuck (if ?b then _ else _) => destruct b
          | |- never_stuck (match ?x with _ => _ end) => destruct x
          end ].

Lemma never_stuck_settled (E : env) (tx_hash : string) (expected_size : Q)
    (tx_data : json) :
  never_stuck (settled E tx_hash expected_size tx_data).
Proof. unfold settled. repeat never_stuck_step. Qed.

Lemma never_stuck_poll_once (E : env) (tx_hash : string) (expected_size poll_interval : Q) :
  never_stuck (poll_once E tx_hash expected_size poll_interval).
Proof.
  pose proof (never_stuck_settled E tx_hash expected_size).
  unfold poll_once, sleep. repeat never_stuck_step.
Qed.

(** The handler of the loop catches whatever the poll raises. *)
Lemma poll_caught (E : env) (tx_hash : string) (expected_size poll_interval : Q)
    (w : world) :
  ∃ (r : option fill_result) (w' : world),
    try_except (poll_once E tx_hash expected_size poll_interval)
               (λ _, let! _ := sleep poll_interval in ret None) w
    = (Return r, w').
Proof.
  pose proof (never_stuck_poll_once E tx_hash expected_size poll_interval w) as Hns.
  unfold try_except.
  destruct (poll_once E tx_hash expected_size poll_interval w) as [[r|e|] w']; simpl in *.
  - eauto.
  - eexists. eexists. reflexivity.
  - done.
Qed.

(** The only exception that leaves the loop is the timeout. *)
Lemma wait_loop_raises_only_timeout (E : env) (tx_hash : string)
    (expected_size start_time poll_interval : Q) (timeout : Z) (fuel : nat) :
  ∀ (w w' : world) (e : exn),
    wait_loop E fuel tx_hash expected_size timeout start_time poll_interval w = (Raise e, w') →
    e = Exception (TransactionNotConfirmed tx_hash timeout).
Proof.
  induction fuel as [|fuel IH]; intros w w' e; simpl.
  - unfold stuck. intros [=].
  - unfold bind at 1, time_now at 1.
    destruct (Qltb _ _).
    + destruct (poll_caught E tx_hash expected_size poll_interval
                  {| self := self w; events := events w;
                     clock_reads := S (clock_reads w); tx_polls := tx_polls w |})
        as (r & w1 & Hpoll).
      erewrite bind_return; [| exact Hpoll].
      destruct r as [r|]; [unfold ret; intros [=] | apply IH].
    + unfold raise. intros [=]. congruence.
Qed.

(** C3 on the code.  When every poll answers with status 4, the body of the
    loop does raise the failure that carries the status, but the loop's own
    handler catches it: the wait sleeps, polls again, and when the three
    seconds are over ends with the timeout exception, not with the failure. *)
Lemma rejected_status_polls_until_timeout :
  let E := Sample.venue "3" None
             (Sample.always (Some (Sample.tx_with_status (JNum 4)))) Sample.accepted None in
  fst (poll_once E "0xfeed" 1 1 Sample.cached)
    = Raise (Exception (TransactionFailedStatus "0xfeed" (JNum 4))) ∧
  _wait_for_fill E 9 "0xfeed" "ETH" BUY 1 3 Sample.cached
    = (Raise (Exception (TransactionNotConfirmed "0xfeed" 3)),
       after_polls "0xfeed" 1 2 4 Sample.cached).
Proof. split; reflexivity. Qed.

(** ** Market metadata *)

Lemma has_key_insert (d : gmap Z json) (market_id : Z) (v : json) :
  has_key (<[market_id := v]> d) market_id = true.
Proof.
  unfold has_key. apply bool_decide_eq_true. rewrite lookup_insert_eq. eauto.
Qed.

Lemma ensure_cached (E : env) (market_id : Z) (w : world) :
  all_cached (self w) market_id = true →
  _ensure_market_data E market_id w = (Return tt, w).
Proof.
  intros H. unfold _ensure_market_data, bind, get_self. unfold all_cached in H.
  rewrite H. reflexivity.
Qed.

(** C4 (as amended).  With the endpoint configured and the single-market
    response a JSON object [d]: a market with all three fields cached is left
    alone; otherwise the call returns normally exactly when [d] has all three
    fields, and then all three are cached; when [d] lacks one, the call
    raises, wrapping the KeyError, after having cached the fields that come
    before the first missing one (size decimals, then price decimals), so a
    failed call can leave a partial record. *)
Theorem ensure_market_data_outcome
    (E : env) (market_id : Z) (d : gmap string json) (w : world) :
  endpoint_missing (self w) = false →
  orderbook_meta E market_id = Some (JObj d) →
  let r := _ensure_market_data E market_id w in
  (all_cached (self w) market_id = true → r = (Return tt, w)) ∧
  (all_cached (self w) market_id = false →
     match d !! "size_decimals", d !! "price_decimals", d !! "min_base_amount" with
     | Some _, Some _, Some _ => fst r = Return tt
     | _, _, _ =>
         ∃ key, fst r = Raise (Exception (FailedTo "get market decimals" (KeyError key)))
     end ∧
     _market_size_decimals (self (snd r))
       = match d !! "size_decimals" with
         | Some sd => <[market_id := sd]> (_market_size_decimals (self w))
         | None => _market_size_decimals (self w)
         end ∧
     _market_price_decimals (self (snd r))
       = match d !! "size_decimals", d !! "price_decimals" with
         | Some _, Some pd => <[market_id := pd]> (_market_price_decimals (self w))
         | _, _ => _market_price_decimals (self w)
         end ∧
     _market_min_base_amounts (self (snd r))
       = match d !! "size_decimals", d !! "price_decimals", d !! "min_base_amount" with
         | Some _, Some _, Some mb => <[market_id := mb]> (_market_min_base_amounts (self w))
         | _, _, _ => _market_min_base_amounts (self w)
         end) ∧
  (fst r = Return tt → all_cached (self (snd r)) market_id = true).
Proof.
  intros Hend Hmeta r.
  destruct (all_cached (self w) market_id) eqn:Hall.
  - pose proof (ensure_cached E market_id w Hall) as Hr. subst r. rewrite Hr.
    split; [reflexivity |]. split; [discriminate |]. intros _. exact Hall.
  - split; [discriminate |].
    assert (r = _ensure_market_data E market_id w) as Hr by reflexivity.
    unfold _ensure_market_data, bind at 1, get_self at 1 in Hr.
    unfold all_cached in Hall. rewrite Hall in Hr.
    unfold try_except, bind, emit, modify_self, or_raise, py_getitem, ret, raise in Hr.
    rewrite Hend, Hmeta in Hr. simpl in Hr.
    destruct (d !! "size_decimals") as [sd|]; simpl in Hr;
      [destruct (d !! "price_decimals") as [pd|]; simpl in Hr;
       [destruct (d !! "min_base_amount") as [mb|]; simpl in Hr |] |];
      rewrite Hr; simpl.
    + split; [intros _; repeat split; reflexivity |].
      intros _. unfold all_cached. simpl. rewrite !has_key_insert. reflexivity.
    + split; [intros _; repeat split; eauto |]. discriminate.
    + split; [intros _; repeat split; eauto |]. discriminate.
    + split; [intros _; repeat split; eauto |]. discriminate.
Qed.

Lemma ensure_market_data_outcome_witness :
  let E := Sample.venue "30"
             (Some (JObj {[ "size_decimals" := JNum 4; "price_decimals" := JNum 2;
                            "min_base_amount" := JStr "0.001" ]}))
             Sample.settles_on_fourth_poll Sample.accepted None in
  endpoint_missing (self Sample.fresh) = false ∧
  all_cached (self Sample.fresh) 1 = false ∧
  fst (_ensure_market_data E 1 Sample.fresh) = Return tt ∧
  all_cached (self (snd (_ensure_market_data E 1 Sample.fresh))) 1 = true.
Proof.
  intros E.
  assert (endpoint_missing (self Sample.fresh) = false) as Hend by reflexivity.
  assert (all_cached (self Sample.fresh) 1 = false) as Hnone by reflexivity.
  destruct (ensure_market_data_outcome E 1
              {[ "size_decimals" := JNum 4; "price_decimals" := JNum 2;
                 "min_base_amount" := JStr "0.001" ]}
              Sample.fresh Hend eq_refl) as (_ & Hfetch & Hall).
  destruct (Hfetch Hnone) as (Hret & _).
  split; [exact Hend |]. split; [exact Hnone |].
  split; [exact Hret | exact (Hall Hret)].
Defined.

(** C4, as stated, fails when the response has the size decimals but not the
    price decimals: the call raises, and leaves the size decimals cached
    without the other two fields, neither all three nor none. *)
Lemma ensure_partial_record_counterexample :
  let E := Sample.venue "30" (Some (JObj {[ "size_decimals" := JNum 4 ]}))
             Sample.settles_on_fourth_poll Sample.accepted None in
  let r := _ensure_market_data E 1 Sample.fresh in
  fst r = Raise (Exception (FailedTo "get market decimals" (KeyError "price_decimals"))) ∧
  _market_size_decimals (self (snd r)) !! 1 = Some (JNum 4) ∧
  _market_price_decimals (self (snd r)) !! 1 = None ∧
  _market_min_base_amounts (self (snd r)) !! 1 = None ∧
  all_cached (self (snd r)) 1 = false ∧
  none_cached (self (snd r)) 1 = false.
Proof. repeat split; reflexivity. Qed.

(** ** Positions *)

Lemma bind_inv {A B} (c : Py A) (k : A → Py B) (w w' : world) (b : B) :
  bind c k w = (Return b, w') →
  ∃ (a : A) (w1 : world), c w = (Return a, w1) ∧ k a w1 = (Return b, w').
Proof.
  unfold bind. destruct (c w) as [[a|e|] w1]; [eauto | discriminate | discriminate].
Qed.

Lemma py_getitem_inv (d : json) (key : string) (w w' : world) (v : json) :
  py_getitem d key w = (Return v, w') → field d key = Some v ∧ w' = w.
Proof.
  destruct d; simpl; try discriminate.
  unfold or_raise. destruct (_ !! key); simpl; [| discriminate].
  unfold ret. intros [= -> ->]. done.
Qed.

Lemma py_float_inv (E : env) (v : json) (w w' : world) (q : Q) :
  py_float E v w = (Return q, w') → to_float E v = Some q ∧ w' = w.
Proof.
  destruct v; simpl; try discriminate; unfold ret.
  - intros [= <- ->]. done.
  - intros [= <- ->]. done.
  - unfold or_raise. destruct (float_of_str E s); [| discriminate].
    unfold ret. intros [= <- ->]. done.
Qed.

Lemma py_get_inv (d : json) (key : string) (dflt : json) (w w' : world) (v : json) :
  py_get d key dflt w = (Return v, w') → v = default dflt (field d key) ∧ w' = w.
Proof.
  destruct d; simpl; try discriminate. unfold ret. intros [= <- ->]. done.
Qed.

Lemma Qneb_true (x y : Q) : Qneb x y = true → ¬ (x == y)%Q.
Proof.
  unfold Qneb. intros H Heq. apply Qeq_bool_iff in Heq. rewrite Heq in H. discriminate.
Qed.

Lemma position_of_entry_open (E : env) (pos_data : json) (w w' : world) (p : Position) :
  position_of_entry E pos_data w = (Return (Some p), w') →
  is_open E pos_data = true ∧ position_derived E pos_data p.
Proof.
  unfold position_of_entry. intros H. cbv zeta in H.
  apply bind_inv in H as (raw_size & w1 & Hraw & H).
  apply py_getitem_inv in Hraw as [Hraw ->].
  apply bind_inv in H as (position_size & w1 & Hsize & H).
  apply py_float_inv in Hsize as [Hsize ->].
  destruct (Qneb position_size 0) eqn:Hopen; [| discriminate].
  apply bind_inv in H as (raw_symbol & w1 & Hsym & H).
  apply py_getitem_inv in Hsym as [Hsym ->].
  apply bind_inv in H as (sign & w1 & Hsign & H).
  apply py_getitem_inv in Hsign as [Hsign ->].
  apply bind_inv in H as (symbol & w1 & _ & H).
  apply bind_inv in H as (quote & w2 & _ & H).
  apply bind_inv in H as (raw_fraction & w3 & Hrf & H).
  apply py_get_inv in Hrf as [-> ->].
  apply bind_inv in H as (margin_fraction & w3 & Hmf & H).
  apply py_float_inv in Hmf as [Hmf ->].
  apply bind_inv in H as (raw_entry & w3 & _ & H).
  apply bind_inv in H as (entry & w4 & _ & H).
  apply bind_inv in H as (raw_pnl & w5 & _ & H).
  apply bind_inv in H as (pnl & w6 & _ & H).
  unfold ret in H. injection H as <- <-.
  split.
  - unfold is_open. rewrite Hraw. simpl. rewrite Hsize. exact Hopen.
  - exists position_size, margin_fraction, sign. simpl.
    split; [rewrite Hraw; exact Hsize |].
    split; [apply Qneb_true, Hopen |].
    repeat split; assumption.
Qed.

Lemma position_of_entry_skipped (E : env) (pos_data : json) (w w' : world) :
  position_of_entry E pos_data w = (Return None, w') → is_open E pos_data = false.
Proof.
  unfold position_of_entry. intros H. cbv zeta in H.
  apply bind_inv in H as (raw_size & w1 & Hraw & H).
  apply py_getitem_inv in Hraw as [Hraw ->].
  apply bind_inv in H as (position_size & w1 & Hsize & H).
  apply py_float_inv in Hsize as [Hsize ->].
  unfold is_open. rewrite Hraw. simpl. rewrite Hsize.
  destruct (Qneb position_size 0); [| reflexivity].
  repeat (apply bind_inv in H as (? & ? & _ & H)).
  discriminate.
Qed.

Lemma positions_loop_derived (E : env) (entries : list json) :
  ∀ (acc ps : list Position) (w w' : world),
    positions_loop E entries acc w = (Return ps, w') →
    ∃ new : list Position,
      ps = (acc ++ new)%list ∧
      Forall2 (position_derived E) (List.filter (is_open E) entries) new.
Proof.
  induction entries as [|pos_data entries IH]; intros acc ps w w' H; simpl in H.
  - unfold ret in H. injection H as <- <-. exists []. split; [by rewrite app_nil_r | constructor].
  - apply bind_inv in H as (p & w1 & Hentry & H).
    apply IH in H as (new & -> & Hnew). simpl.
    destruct p as [p|]; simpl.
    + apply position_of_entry_open in Hentry as [-> Hp].
      exists (p :: new). split; [by rewrite <- app_assoc | by constructor].
    + apply position_of_entry_skipped in Hentry as ->.
      exists new. split; [by rewrite app_nil_r | exact Hnew].
Qed.

Lemma never_stuck_py_getitem (d : json) (key : string) : never_stuck (py_getitem d key).
Proof. destruct d; first [apply never_stuck_or_raise | apply never_stuck_raise]. Qed.

Lemma never_stuck_py_float (E : env) (v : json) : never_stuck (py_float E v).
Proof.
  destruct v; first [apply never_stuck_ret | apply never_stuck_or_raise
                    | apply never_stuck_raise].
Qed.

Lemma never_stuck_py_symbol (v : json) : never_stuck (py_symbol v).
Proof. destruct v; first [apply never_stuck_ret | apply never_stuck_raise]. Qed.

#[local] Hint Resolve never_stuck_py_getitem never_stuck_py_float never_stuck_py_symbol
  : never_stuck.

Lemma never_stuck_best_price (levels : json) : never_stuck (best_price levels).
Proof. unfold best_price. repeat never_stuck_step. Qed.

Lemma never_stuck_get_current_price (E : env) (symbol : string) :
  never_stuck (get_current_price E symbol).
Proof.
  pose proof never_stuck_best_price.
  unfold get_current_price, resolve_symbol. repeat never_stuck_step.
Qed.

Lemma never_stuck_position_of_entry (E : env) (pos_data : json) :
  never_stuck (position_of_entry E pos_data).
Proof.
  pose proof (never_stuck_get_current_price E).
  unfold position_of_entry. cbv zeta. repeat never_stuck_step.
Qed.

Lemma never_stuck_positions_loop (E : env) (entries : list json) :
  ∀ acc : list Position, never_stuck (positions_loop E entries acc).
Proof.
  induction entries as [|pos_data entries IH]; intros acc; simpl.
  - apply never_stuck_ret.
  - apply never_stuck_bind; [apply never_stuck_position_of_entry | intros p; apply IH].
Qed.

Lemma never_stuck_first_account (response_data : json) :
  never_stuck (first_account response_data).
Proof. unfold first_account. repeat never_stuck_step. Qed.

Lemma try_except_default {A} (c : Py A) (x : A) (w : world) :
  never_stuck c → ∃ (a : A) (w' : world), try_except c (λ _, ret x) w = (Return a, w').
Proof.
  intros Hns. specialize (Hns w). unfold try_except.
  destruct (c w) as [[a|e|] w']; simpl in *; [eauto | unfold ret; eauto | done].
Qed.

(** The listing never raises and never gets stuck: it returns a list. *)
Lemma get_open_positions_returns (E : env) (w : world) :
  ∃ (ps : list Position) (w' : world), get_open_positions E w = (Return ps, w').
Proof.
  unfold get_open_positions. unfold try_except at 1, bind at 1, get_self at 1.
  destruct (account_index_missing (self w)); [unfold ret; eauto |].
  match goal with
  | |- context [try_except ?c _ w] =>
      destruct (try_except_default c [] w) as (ps & w' & Hr)
  end.
  - pose proof (never_stuck_positions_loop E). pose proof never_stuck_first_account.
    repeat never_stuck_step.
  - rewrite Hr. eauto.
Qed.

Lemma Qgtb_nonpos (x : Q) : (x <= 0)%Q → Qgtb x 0 = false.
Proof. intros H. unfold Qgtb. apply Qle_bool_iff in H. rewrite H. reflexivity. Qed.

Lemma Qabs_nonzero (x : Q) : ¬ (x == 0)%Q → ¬ (Qabs x == 0)%Q.
Proof. intros H. apply Qabs_case; intros; lra. Qed.

Lemma derived_facts (E : env) (entries : list json) (pos_data : json) (p : Position) :
  pos_data ∈ entries → is_open E pos_data = true →
  position_derived E pos_data p →
  ¬ (pos_size p == 0)%Q ∧ position_facts E entries p.
Proof.
  intros Hin Hopen (position_size & margin_fraction & sign & _ & Hnz & Hsize & Hsign
                    & Hside & Hmf & Hlev).
  split; [rewrite Hsize; apply Qabs_nonzero, Hnz |].
  exists pos_data, sign, margin_fraction.
  repeat split; try assumption.
  - intros ->. exact Hside.
  - intros ->. exact Hside.
  - intros Hpos. rewrite Hlev, Qgtb_pos; [reflexivity | exact Hpos].
  - intros Hle. rewrite Hlev, Qgtb_nonpos; [reflexivity | exact Hle].
Qed.

Lemma derived_all_facts (E : env) (entries l : list json) (ps : list Position) :
  Forall2 (position_derived E) l ps →
  (∀ e, e ∈ l → e ∈ entries ∧ is_open E e = true) →
  Forall (λ p, ¬ (pos_size p == 0)%Q) ps ∧ Forall (position_facts E entries) ps.
Proof.
  induction 1 as [|e p l ps Hd _ IH]; intros Hl; [split; constructor |].
  destruct IH as [IH1 IH2]; [intros e' He'; apply Hl; by right |].
  destruct (Hl e) as [Hin Hopen]; [by left |].
  destruct (derived_facts E entries e p Hin Hopen Hd) as [H1 H2].
  split; constructor; assumption.
Qed.

(** C9.  The listing always returns a list.  With an account configured and
    an account payload whose first account lists [entries], that list is
    empty (some request or field failed) or holds, in order, one position
    per entry of non-zero size and none for the others; each position has a
    non-zero size and comes from an entry of non-zero size, with side BUY
    for sign 1 and SELL for sign -1, leverage 100 / margin fraction for a
    positive margin fraction and 1 otherwise. *)
Theorem open_positions_derived
    (E : env) (w : world) (resp acct : gmap string json) (rest entries : list json) :
  account_index_missing (self w) = false →
  account_by_l1 E = Some (JObj resp) →
  resp !! "accounts" = Some (JArr (JObj acct :: rest)) →
  default (JArr []) (acct !! "positions") = JArr entries →
  ∃ (ps : list Position) (w' : world),
    get_open_positions E w = (Return ps, w') ∧
    (ps = [] ∨ Forall2 (position_derived E) (List.filter (is_open E) entries) ps) ∧
    Forall (λ p, ¬ (pos_size p == 0)%Q) ps ∧
    Forall (position_facts E entries) ps.
Proof.
  intros Hacc Hresp Haccounts Hentries.
  destruct (get_open_positions_returns E w) as (ps & w' & Hrun).
  exists ps, w'. split; [exact Hrun |].
  unfold get_open_positions, try_except, bind, get_self, emit, or_raise, first_account,
    py_get, ret in Hrun.
  rewrite Hacc, Hresp in Hrun. simpl in Hrun. rewrite Haccounts in Hrun. simpl in Hrun.
  rewrite Hentries in Hrun.
  match type of Hrun with
  | context [positions_loop E entries [] ?w2] =>
      destruct (positions_loop E entries [] w2) as [[ps0|e|] w3] eqn:Hloop
  end; simpl in Hrun; [| | discriminate].
  - injection Hrun as <- <-.
    apply positions_loop_derived in Hloop as (new & -> & Hnew). simpl.
    split; [right; exact Hnew |].
    apply (derived_all_facts E entries _ _ Hnew).
    intros e He. apply list_elem_of_In, filter_In in He as [He Hopen].
    split; [apply list_elem_of_In, He | exact Hopen].
  - injection Hrun as <- <-. split; [by left |]. split; constructor.
Qed.

Lemma open_positions_derived_witness :
  let E := Sample.venue "30" None Sample.settles_on_fourth_poll Sample.accepted
             (Some (JObj Sample.accounts)) in
  ∃ (ps : list Position) (w' : world),
    get_open_positions E Sample.cached = (Return ps, w') ∧
    map pos_side ps = [BUY; SELL] ∧
    Forall2 Qeq (map leverage ps) [4; 1]%Q ∧
    Forall (λ p, ¬ (pos_size p == 0)%Q) ps.
Proof.
  intros E.
  destruct (open_positions_derived E Sample.cached Sample.accounts Sample.account []
              Sample.positions) as (ps & w' & Hrun & _ & Hsize & _);
    [reflexivity | reflexivity | reflexivity | reflexivity |].
  exists ps, w'. split; [exact Hrun |].
  vm_compute in Hrun. injection Hrun as <- <-.
  split; [reflexivity |]. split; [| exact Hsize].
  repeat constructor.
Defined.

(** ** Order execution *)

Lemma keeps_polls_ret {A} (a : A) : keeps_polls (ret a).
Proof. intros w. reflexivity. Qed.

Lemma keeps_polls_raise {A} (e : exn) : keeps_polls (@raise A e).
Proof. intros w. reflexivity. Qed.

Lemma keeps_polls_stuck {A} : keeps_polls (@stuck A).
Proof. intros w. reflexivity. Qed.

Lemma keeps_polls_bind {A B} (c : Py A) (k : A → Py B) :
  keeps_polls c → (∀ a, keeps_polls (k a)) → keeps_polls (bind c k).
Proof.
  intros Hc Hk w. unfold bind. specialize (Hc w).
  destruct (c w) as [[a|e|] w']; simpl in *; [rewrite Hk | |]; exact Hc.
Qed.

Lemma keeps_polls_try {A} (c : Py A) (h : exn → Py A) :
  keeps_polls c → (∀ e, keeps_polls (h e)) → keeps_polls (try_except c h).
Proof.
  intros Hc Hh w. unfold try_except. specialize (Hc w).
  destruct (c w) as [[a|e|] w']; simpl in *; [| rewrite Hh |]; exact Hc.
Qed.

Lemma keeps_polls_or_raise {A} (o : option A) (e : exn) : keeps_polls (or_raise o e).
Proof. destruct o; [apply keeps_polls_ret | apply keeps_polls_raise]. Qed.

Lemma keeps_polls_emit (e : event) : keeps_polls (emit e).
Proof. intros w. reflexivity. Qed.

Lemma keeps_polls_modify_self (f : connector → connector) : keeps_polls (modify_self f).
Proof. intros w. reflexivity. Qed.

Lemma keeps_polls_get_self : keeps_polls get_self.
Proof. intros w. reflexivity. Qed.

Lemma keeps_polls_py_get (d : json) (key : string) (dflt : json) :
  keeps_polls (py_get d key dflt).
Proof. destruct d; first [apply keeps_polls_ret | apply keeps_polls_raise]. Qed.

Lemma keeps_polls_py_getitem (d : json) (key : string) : keeps_polls (py_getitem d key).
Proof. destruct d; first [apply keeps_polls_or_raise | apply keeps_polls_raise]. Qed.

Lemma keeps_polls_py_float (E : env) (v : json) : keeps_polls (py_float E v).
Proof.
  destruct v; first [apply keeps_polls_ret | apply keeps_polls_or_raise
                    | apply keeps_polls_raise].
Qed.

Lemma keeps_polls_py_pow10 (d : json) : keeps_polls (py_pow10 d).
Proof.
  destruct d; simpl; try apply keeps_polls_raise; [apply keeps_polls_ret |].
  destruct (_ && _); [apply keeps_polls_ret | apply keeps_polls_stuck].
Qed.

Lemma keeps_polls_finite (o : option Q) : keeps_polls (finite o).
Proof. destruct o; [apply keeps_polls_ret | apply keeps_polls_stuck]. Qed.

Lemma keeps_polls_py_int_of_product (x scale : Q) : keeps_polls (py_int_of_product x scale).
Proof.
  unfold py_int_of_product.
  repeat first [ apply keeps_polls_ret | apply keeps_polls_raise | apply keeps_polls_stuck
               | match goal with |- keeps_polls (match ?o with _ => _ end) => destruct o end ].
Qed.

Create HintDb keeps_polls.

#[local] Hint Resolve keeps_polls_ret keeps_polls_raise keeps_polls_stuck
  keeps_polls_or_raise keeps_polls_emit keeps_polls_modify_self keeps_polls_get_self
  keeps_polls_py_get keeps_polls_py_getitem keeps_polls_py_float keeps_polls_py_pow10
  keeps_polls_finite keeps_polls_py_int_of_product
  : keeps_polls.

Ltac keeps_polls_step :=
  first [ solve [auto with keeps_polls]
        | apply keeps_polls_bind; [| intros ?]
        | apply keeps_polls_try; [| intros ?]
        | match goal with
          | |- keeps_polls (if ?b then _ else _) => destruct b
          | |- keeps_polls (match ?x with _ => _ end) => destruct x
          end ].

Lemma keeps_polls_ensure_market_data (E : env) (market_id : Z) :
  keeps_polls (_ensure_market_data E market_id).
Proof. unfold _ensure_market_data. repeat keeps_polls_step. Qed.

Lemma keeps_polls_best_price (levels : json) : keeps_polls (best_price levels).
Proof. unfold best_price. repeat keeps_polls_step. Qed.

Lemma keeps_polls_get_current_price (E : env) (symbol : string) :
  keeps_polls (get_current_price E symbol).
Proof.
  pose proof keeps_polls_best_price.
  unfold get_current_price, resolve_symbol. repeat keeps_polls_step.
Qed.

Lemma keeps_polls_convert_size (size : Q) (market_id : Z) :
  keeps_polls (_convert_size_to_lighter_format size market_id).
Proof. unfold _convert_size_to_lighter_format. repeat keeps_polls_step. Qed.

Lemma keeps_polls_convert_price (price : Q) (market_id : Z) :
  keeps_polls (_convert_price_to_lighter_format price market_id).
Proof. unfold _convert_price_to_lighter_format. repeat keeps_polls_step. Qed.

Lemma keeps_polls_submit (E : env) (o : market_order) :
  keeps_polls (submit_market_order E o).
Proof. unfold submit_market_order. repeat keeps_polls_step. Qed.

#[local] Hint Resolve keeps_polls_ensure_market_data keeps_polls_get_current_price
  keeps_polls_convert_size keeps_polls_convert_price keeps_polls_submit : keeps_polls.

(** Placing a market sell and closing a short never ask the venue for the
    status of the transaction they submitted. *)
Lemma sell_paths_never_poll (E : env) (fuel : nat) (symbol : string) (size : Q)
    (slippage : option Q) :
  keeps_polls (place_market_sell_order E fuel symbol size slippage) ∧
  keeps_polls (close_sell_position E fuel symbol size slippage).
Proof.
  split.
  - unfold place_market_sell_order, require_signer, resolve_symbol, _log_trade.
    cbv zeta. repeat keeps_polls_step.
  - unfold close_sell_position, require_signer, resolve_symbol, _log_trade.
    cbv zeta. repeat keeps_polls_step.
Qed.

Lemma keeps_polls_require_signer : keeps_polls require_signer.
Proof. unfold require_signer. repeat keeps_polls_step. Qed.

Lemma keeps_polls_resolve_symbol (symbol : string) : keeps_polls (resolve_symbol symbol).
Proof. unfold resolve_symbol. repeat keeps_polls_step. Qed.

Lemma keeps_polls_run {A} (c : Py A) (w w' : world) (r : outcome A) :
  keeps_polls c → c w = (r, w') → tx_polls w' = tx_polls w.
Proof. intros Hk Hrun. specialize (Hk w). rewrite Hrun in Hk. exact Hk. Qed.

Lemma try_except_reraise_inv {A} (c : Py A) (f : exn → exn) (w w' : world) (a : A) :
  try_except c (λ e, raise (f e)) w = (Return a, w') → c w = (Return a, w').
Proof.
  unfold try_except, raise. destruct (c w) as [[a'|e|] w1]; [done | discriminate | done].
Qed.

(** Runs backwards through an operation that returned an order, as far as
    the fill wait, collecting that no step before it polled. *)
Ltac invert_tracked H :=
  cbv zeta in H;
  apply try_except_reraise_inv in H;
  apply bind_inv in H as (? & ? & ?Ha & H);
  apply (keeps_polls_run _ _ _ _ keeps_polls_require_signer) in Ha;
  apply bind_inv in H as (? & ? & ?Hb & H);
  apply (keeps_polls_run _ _ _ _ (keeps_polls_resolve_symbol _)) in Hb;
  apply bind_inv in H as (? & ? & ?H1 & H);
  apply (keeps_polls_run _ _ _ _ (keeps_polls_ensure_market_data _ _)) in H1;
  apply bind_inv in H as (? & ? & ?H2 & H);
  apply (keeps_polls_run _ _ _ _ (keeps_polls_get_current_price _ _)) in H2;
  apply bind_inv in H as (? & ? & ?Hw & H);
  apply (keeps_polls_run _ _ _ _ (keeps_polls_finite _)) in Hw;
  apply bind_inv in H as (? & ? & ?Hc & H);
  apply (keeps_polls_run _ _ _ _ (keeps_polls_convert_size _ _)) in Hc;
  apply bind_inv in H as (? & ? & ?Hd & H);
  apply (keeps_polls_run _ _ _ _ (keeps_polls_convert_price _ _)) in Hd;
  apply bind_inv in H as (?response & ? & ?H3 & H);
  apply (keeps_polls_run _ _ _ _ (keeps_polls_submit _ _)) in H3;
  apply bind_inv in H as (? & ? & ?H4 & H);
  apply bind_inv in H as (? & ? & ?H5 & H);
  apply (keeps_polls_run _ _ _ _ (keeps_polls_emit _)) in H5;
  unfold ret in H; injection H as <- <-; simpl.

(** An order that [place_market_buy_order] or [close_buy_position] returns
    after any poll of the transaction status does not carry the identifier
    ["unknown"]. *)
Lemma buy_order_after_polls_has_hash (E : env) (fuel : nat) (symbol : string)
    (size : Q) (slippage : option Q) (w w' : world) (o : Order) :
  place_market_buy_order E fuel symbol size slippage w = (Return o, w') →
  tx_polls w' ≠ tx_polls w → id o ≠ "unknown".
Proof.
  unfold place_market_buy_order. intros H Hpolls. invert_tracked H.
  destruct (String.eqb (extract_tx_hash response) "unknown") eqn:Hhash.
  - simpl in H4. unfold ret in H4. injection H4 as _ <-. congruence.
  - apply String.eqb_neq, Hhash.
Qed.

Lemma close_buy_after_polls_has_hash (E : env) (fuel : nat) (symbol : string)
    (size : Q) (slippage : option Q) (w w' : world) (o : Order) :
  close_buy_position E fuel symbol size slippage w = (Return o, w') →
  tx_polls w' ≠ tx_polls w → id o ≠ "unknown".
Proof.
  unfold close_buy_position. intros H Hpolls. invert_tracked H.
  destruct (String.eqb (extract_tx_hash response) "unknown") eqn:Hhash.
  - simpl in H4. unfold ret in H4. injection H4 as _ <-. congruence.
  - apply String.eqb_neq, Hhash.
Qed.

Lemma require_signer_run (w : world) :
  signer_client (self w) = true → require_signer w = (Return tt, w).
Proof.
  intros H. unfold require_signer, bind, get_self. rewrite H. reflexivity.
Qed.

Lemma resolve_symbol_run (symbol : string) (w : world) (market_id : Z) :
  _symbol_to_market_id_cache (self w) !! symbol = Some market_id →
  resolve_symbol symbol w = (Return market_id, w).
Proof.
  intros H. unfold resolve_symbol, bind, get_self. rewrite H. reflexivity.
Qed.

Lemma submit_run (E : env) (response : sdk_response) :
  (∀ o, create_market_order E o = SignerReply response None) →
  ∀ (o : market_order) (w0 : world),
    submit_market_order E o w0
    = (Return response, {| self := self w0; events := EvCreateMarketOrder o :: events w0;
                           clock_reads := clock_reads w0; tx_polls := tx_polls w0 |}).
Proof.
  intros accepted o w0. unfold submit_market_order, bind, emit. rewrite accepted. reflexivity.
Qed.

(** C5 on the code.  On one and the same venue, whose signer returns a
    transaction hash and whose status endpoint settles on the fourth poll at
    2500.00, the buy and the close of a long poll four times and record the
    executed price, while the sell and the close of a short return at once,
    without a single poll, recording the quoted price 100. *)
Lemma sell_paths_skip_fill_wait :
  let E := Sample.venue "30" None Sample.settles_on_fourth_poll Sample.accepted None in
  let run (op : env → nat → string → Q → option Q → Py Order) :=
    op E 9%nat "ETH" 1%Q None Sample.cached in
  (∃ o w', run place_market_buy_order = (Return o, w') ∧
           id o = "0xfeed" ∧ holds (price o) 2500 ∧ tx_polls w' = 4%nat) ∧
  (∃ o w', run close_buy_position = (Return o, w') ∧
           id o = "0xfeed" ∧ holds (price o) 2500 ∧ tx_polls w' = 4%nat) ∧
  (∃ o w', run place_market_sell_order = (Return o, w') ∧
           id o = "0xfeed" ∧ holds (price o) 100 ∧ tx_polls w' = 0%nat) ∧
  (∃ o w', run close_sell_position = (Return o, w') ∧
           id o = "0xfeed" ∧ holds (price o) 100 ∧ tx_polls w' = 0%nat).
Proof.
  intros E run.
  repeat split; eexists; eexists;
    (split; [vm_compute; reflexivity |]); repeat split; reflexivity.
Qed.

(** ** The examples on binary64 floats *)

#[local] Set Warnings "-inexact-float".

Example binary64_size_truncated :
  Binary64._convert_to_lighter_format 1.23456 4 = Some 12345.
Proof. reflexivity. Qed.

Example binary64_negative_truncated :
  Binary64._convert_to_lighter_format (-1.5) 0 = Some (-1).
Proof. reflexivity. Qed.

(** The product is rounded to a double before it is truncated: 0.29 * 100
    is 28.999999999999996 in binary64. *)
Example binary64_product_rounded_first :
  Binary64._convert_to_lighter_format 0.29 2 = Some 28.
Proof. reflexivity. Qed.

Example binary64_slippage_bounds :
  (100 * (1 + 0.01) = 101)%float ∧ (100 * (1 - 0.01) = 99)%float.
Proof. split; reflexivity. Qed.

Example binary64_settlement_scales :
  (Binary64.of_int 250000 / 100 = 2500)%float ∧
  (Binary64.of_int 10000 / 10000 = 1)%float.
Proof. split; reflexivity. Qed.

Example binary64_leverage : (100 / 25 = 4)%float.
Proof. reflexivity. Qed.

(** [round64] and the operations built on it give the doubles the machine
    gives: on a literal, a product, both worst prices, a quotient that is
    not representable, a subnormal, a tie, and beyond the largest double. *)
Example round64_agrees_with_binary64 :
  round64 0.29 = Binary64.to_Q 0.29 ∧
  float_mul 0.29 (10 ^ 2) = Binary64.to_Q (0.29 * 100) ∧
  float_mul 1.13 (10 ^ 4) = Binary64.to_Q (1.13 * 10000) ∧
  worst_buy_price 100 0.005 = Binary64.to_Q (100 * (1 + 0.005)) ∧
  worst_sell_price 100 0.005 = Binary64.to_Q (100 * (1 - 0.005)) ∧
  worst_buy_price 3456.78 0.01 = Binary64.to_Q (3456.78 * (1 + 0.01)) ∧
  round64 (1 / 3) = Binary64.to_Q (1 / 3) ∧
  round64 (250001 / 100) = Binary64.to_Q (Binary64.of_int 250001 / 100) ∧
  round64 (3 / 2 ^ 1075) = Binary64.to_Q (3 / Binary64.of_int (2 ^ 1000) / Binary64.of_int (2 ^ 75)) ∧
  round64 (inject_Z (2 ^ 53 + 1)) = Binary64.to_Q (Binary64.of_int (2 ^ 53 + 1)) ∧
  round64 (inject_Z (2 ^ 53 + 3)) = Binary64.to_Q (Binary64.of_int (2 ^ 53 + 3)) ∧
  float_mul (10 ^ 308) (10 ^ 4) = Binary64.to_Q (1e308 * 10000) ∧
  float_mul (10 ^ 308) (10 ^ 4) = None.
Proof. vm_compute. repeat split; reflexivity. Qed.

(** * Further properties *)

(** ** Market metadata *)

Lemma ensure_success_caches_all (E : env) (market_id : Z) (w w1 : world) :
  _ensure_market_data E market_id w = (Return tt, w1) →
  all_cached (self w1) market_id = true.
Proof.
  intros H. destruct (all_cached (self w) market_id) eqn:Hall.
  - rewrite (ensure_cached E market_id w Hall) in H. by injection H as <-.
  - unfold _ensure_market_data, bind at 1, get_self at 1 in H.
    unfold all_cached in Hall. rewrite Hall in H.
    apply try_except_reraise_inv in H.
    apply bind_inv in H as (? & ? & _ & H).
    apply bind_inv in H as (? & ? & _ & H).
    apply bind_inv in H as (? & ? & _ & H).
    apply bind_inv in H as (sd & ? & _ & H).
    apply bind_inv in H as (? & wa & Ha & H).
    apply bind_inv in H as (pd & ? & Hpd & H).
    apply py_getitem_inv in Hpd as [_ ->].
    apply bind_inv in H as (? & wb & Hb & H).
    apply bind_inv in H as (mb & ? & Hmb & H).
    apply py_getitem_inv in Hmb as [_ ->].
    unfold modify_self in Ha, Hb, H. simplify_eq.
    unfold all_cached. simpl. rewrite !has_key_insert. reflexivity.
Qed.

(** X1.  A call of [_ensure_market_data] that returned normally makes the next
    call for the same market a no-op: it returns at once, with no request and
    the world unchanged. *)
Theorem ensure_idempotent (E : env) (market_id : Z) (w w1 : world) :
  _ensure_market_data E market_id w = (Return tt, w1) →
  _ensure_market_data E market_id w1 = (Return tt, w1).
Proof. intros H. apply ensure_cached, (ensure_success_caches_all E market_id w w1 H). Qed.

(** ** What the operations leave alone *)

Lemma keeps_ret {T A} (f : world → T) (a : A) : keeps f (ret a).
Proof. intros w. reflexivity. Qed.

Lemma keeps_raise {T A} (f : world → T) (e : exn) : keeps f (@raise A e).
Proof. intros w. reflexivity. Qed.

Lemma keeps_stuck {T A} (f : world → T) : keeps f (@stuck A).
Proof. intros w. reflexivity. Qed.

Lemma keeps_bind {T A B} (f : world → T) (c : Py A) (k : A → Py B) :
  keeps f c → (∀ a, keeps f (k a)) → keeps f (bind c k).
Proof.
  intros Hc Hk w. unfold bind. specialize (Hc w).
  destruct (c w) as [[a|e|] w']; simpl in *; [rewrite Hk | |]; exact Hc.
Qed.

Lemma keeps_try {T A} (f : world → T) (c : Py A) (h : exn → Py A) :
  keeps f c → (∀ e, keeps f (h e)) → keeps f (try_except c h).
Proof.
  intros Hc Hh w. unfold try_except. specialize (Hc w).
  destruct (c w) as [[a|e|] w']; simpl in *; [| rewrite Hh |]; exact Hc.
Qed.

Lemma keeps_or_raise {T A} (f : world → T) (o : option A) (e : exn) :
  keeps f (or_raise o e).
Proof. destruct o; [apply keeps_ret | apply keeps_raise]. Qed.

Lemma keeps_get_self {T} (f : world → T) : keeps f get_self.
Proof. intros w. reflexivity. Qed.

Lemma keeps_py_get {T} (f : world → T) (d : json) (key : string) (dflt : json) :
  keeps f (py_get d key dflt).
Proof. destruct d; first [apply keeps_ret | apply keeps_raise]. Qed.

Lemma keeps_py_getitem {T} (f : world → T) (d : json) (key : string) :
  keeps f (py_getitem d key).
Proof. destruct d; first [apply keeps_or_raise | apply keeps_raise]. Qed.

Lemma keeps_py_float {T} (f : world → T) (E : env) (v : json) : keeps f (py_float E v).
Proof.
  destruct v; first [apply keeps_ret | apply keeps_or_raise | apply keeps_raise].
Qed.

Lemma keeps_py_truediv {T} (f : world → T) (v : json) (n : Q) : keeps f (py_truediv v n).
Proof.
  destruct v; simpl; try apply keeps_raise; unfold true_division;
    (destruct (round64 _); [apply keeps_ret | apply keeps_raise]).
Qed.

Lemma keeps_finite {T} (f : world → T) (o : option Q) : keeps f (finite o).
Proof. destruct o; [apply keeps_ret | apply keeps_stuck]. Qed.

Lemma keeps_py_int_of_product {T} (f : world → T) (x scale : Q) :
  keeps f (py_int_of_product x scale).
Proof.
  unfold py_int_of_product.
  repeat first [ apply keeps_ret | apply keeps_raise | apply keeps_stuck
               | match goal with |- keeps _ (match ?o with _ => _ end) => destruct o end ].
Qed.

Lemma keeps_py_gt_num {T} (f : world → T) (v : json) (n : Q) : keeps f (py_gt_num v n).
Proof. destruct v; first [apply keeps_ret | apply keeps_raise]. Qed.

Lemma keeps_py_json_loads {T} (f : world → T) (E : env) (v : json) :
  keeps f (py_json_loads E v).
Proof. destruct v; first [apply keeps_or_raise | apply keeps_raise]. Qed.

Lemma keeps_py_symbol {T} (f : world → T) (v : json) : keeps f (py_symbol v).
Proof. destruct v; first [apply keeps_ret | apply keeps_raise]. Qed.

Lemma keeps_py_pow10 {T} (f : world → T) (d : json) : keeps f (py_pow10 d).
Proof.
  destruct d; simpl; try apply keeps_raise; [apply keeps_ret |].
  destruct (_ && _); [apply keeps_ret | apply keeps_stuck].
Qed.

Lemma logged_cons (e : event) (w w' : world) :
  events w' = e :: events w →
  logged w' = (logged w ++ match e with EvLogTrade o => [o] | _ => [] end)%list.
Proof. intros H. unfold logged. rewrite H. simpl. rewrite omap_app. by destruct e. Qed.

Lemma submitted_cons (e : event) (w w' : world) :
  events w' = e :: events w →
  submitted w' = (submitted w ++ match e with EvCreateMarketOrder o => [o] | _ => [] end)%list.
Proof. intros H. unfold submitted. rewrite H. simpl. rewrite omap_app. by destruct e. Qed.

Lemma keeps_logged_emit (e : event) :
  match e with EvLogTrade _ => False | _ => True end → keeps logged (emit e).
Proof.
  intros He w. rewrite (logged_cons e w); [| reflexivity].
  destruct e; try apply app_nil_r. done.
Qed.

Lemma keeps_submitted_emit (e : event) :
  match e with EvCreateMarketOrder _ => False | _ => True end → keeps submitted (emit e).
Proof.
  intros He w. rewrite (submitted_cons e w); [| reflexivity].
  destruct e; try apply app_nil_r. done.
Qed.

Lemma keeps_logged_requests_get_tx (E : env) (tx_hash : string) :
  keeps logged (requests_get_tx E tx_hash).
Proof.
  intros w. rewrite (logged_cons (EvTx tx_hash) w); [apply app_nil_r | reflexivity].
Qed.

Lemma keeps_submitted_requests_get_tx (E : env) (tx_hash : string) :
  keeps submitted (requests_get_tx E tx_hash).
Proof.
  intros w. rewrite (submitted_cons (EvTx tx_hash) w); [apply app_nil_r | reflexivity].
Qed.

Create HintDb keeps.

#[local] Hint Resolve keeps_ret keeps_raise keeps_stuck keeps_or_raise keeps_get_self
  keeps_py_get keeps_py_getitem keeps_py_float keeps_py_truediv keeps_py_gt_num
  keeps_py_json_loads keeps_py_symbol keeps_py_pow10 keeps_finite keeps_py_int_of_product
  keeps_logged_requests_get_tx keeps_submitted_requests_get_tx : keeps.

#[local] Hint Extern 2 (keeps _ (emit _)) =>
  first [ apply keeps_logged_emit; exact I
        | apply keeps_submitted_emit; exact I
        | intros ?; reflexivity ] : keeps.
#[local] Hint Extern 2 (keeps _ (sleep _)) =>
  first [ apply keeps_logged_emit; exact I
        | apply keeps_submitted_emit; exact I
        | intros ?; reflexivity ] : keeps.
#[local] Hint Extern 2 (keeps _ (_log_trade _)) =>
  first [ apply keeps_submitted_emit; exact I | intros ?; reflexivity ] : keeps.
#[local] Hint Extern 2 (keeps _ (modify_self _)) => intros ?; reflexivity : keeps.
#[local] Hint Extern 2 (keeps _ (time_now _)) => intros ?; reflexivity : keeps.
#[local] Hint Extern 3 (keeps _ (requests_get_tx _ _)) =>
  let w := fresh in
  intros w; unfold requests_get_tx; simpl; reflexivity : keeps.

Ltac keeps_step :=
  first [ solve [auto with keeps]
        | apply keeps_bind; [| intros ?]
        | apply keeps_try; [| intros ?]
        | match goal with
          | |- keeps _ (if ?b then _ else _) => destruct b
          | |- keeps _ (match ?x with _ => _ end) => destruct x
          end ].

Section Kept.

Context {T : Type} (f : world → T).

(** [f] looks at nothing that a clock reading, a cache write or an event
    other than a submission or a log entry changes. *)
Hypothesis f_clock : ∀ E, keeps f (time_now E).
Hypothesis f_request : ∀ E h, keeps f (requests_get_tx E h).
Hypothesis f_event :
  ∀ e, match e with EvCreateMarketOrder _ | EvLogTrade _ => False | _ => True end →
       keeps f (emit e).

Lemma kept_by_best_price (levels : json) : keeps f (best_price levels).
Proof using Type. unfold best_price. repeat keeps_step. Qed.

Lemma kept_by_settled (E : env) (tx_hash : string) (expected_size : Q) (tx_data : json) :
  keeps f (settled E tx_hash expected_size tx_data).
Proof using Type. unfold settled. repeat keeps_step. Qed.

Lemma kept_by_poll_once (E : env) (tx_hash : string) (expected_size poll_interval : Q) :
  keeps f (poll_once E tx_hash expected_size poll_interval).
Proof using f_request f_event.
  pose proof (kept_by_settled E tx_hash expected_size).
  assert (keeps f (sleep poll_interval)) by (apply f_event; exact I).
  unfold poll_once. repeat keeps_step.
Qed.

Lemma kept_by_wait_loop (E : env) (tx_hash : string)
    (expected_size start_time poll_interval : Q) (timeout : Z) (fuel : nat) :
  keeps f (wait_loop E fuel tx_hash expected_size timeout start_time poll_interval).
Proof using f_clock f_request f_event.
  pose proof (kept_by_poll_once E tx_hash expected_size poll_interval).
  assert (keeps f (sleep poll_interval)) by (apply f_event; exact I).
  induction fuel as [|fuel IH]; simpl; [apply keeps_stuck |].
  repeat keeps_step.
Qed.

Lemma kept_by_wait_for_fill (E : env) (fuel : nat) (tx_hash symbol : string)
    (side : OrderSide) (expected_size : Q) (timeout : Z) :
  keeps f (_wait_for_fill E fuel tx_hash symbol side expected_size timeout).
Proof using f_clock f_request f_event.
  pose proof (λ st pi, kept_by_wait_loop E tx_hash expected_size st pi timeout fuel).
  unfold _wait_for_fill. repeat keeps_step.
Qed.

End Kept.

Lemma static_clock (E : env) : keeps static (time_now E).
Proof. intros w. reflexivity. Qed.

Lemma static_request (E : env) (h : string) : keeps static (requests_get_tx E h).
Proof. intros w. reflexivity. Qed.

Lemma static_event (e : event) :
  match e with EvCreateMarketOrder _ | EvLogTrade _ => False | _ => True end →
  keeps static (emit e).
Proof. intros _ w. reflexivity. Qed.

Lemma logged_clock (E : env) : keeps logged (time_now E).
Proof. intros w. reflexivity. Qed.

Lemma logged_event (e : event) :
  match e with EvCreateMarketOrder _ | EvLogTrade _ => False | _ => True end →
  keeps logged (emit e).
Proof. intros He. apply keeps_logged_emit. by destruct e. Qed.

Lemma submitted_clock (E : env) : keeps submitted (time_now E).
Proof. intros w. reflexivity. Qed.

Lemma submitted_event (e : event) :
  match e with EvCreateMarketOrder _ | EvLogTrade _ => False | _ => True end →
  keeps submitted (emit e).
Proof. intros He. apply keeps_submitted_emit. by destruct e. Qed.

Lemma static_wait_for_fill (E : env) (fuel : nat) (tx_hash symbol : string)
    (side : OrderSide) (expected_size : Q) (timeout : Z) :
  keeps static (_wait_for_fill E fuel tx_hash symbol side expected_size timeout).
Proof. apply (kept_by_wait_for_fill static static_clock static_request static_event). Qed.

Lemma logged_wait_for_fill (E : env) (fuel : nat) (tx_hash symbol : string)
    (side : OrderSide) (expected_size : Q) (timeout : Z) :
  keeps logged (_wait_for_fill E fuel tx_hash symbol side expected_size timeout).
Proof. apply (kept_by_wait_for_fill logged logged_clock keeps_logged_requests_get_tx logged_event). Qed.

Lemma submitted_wait_for_fill (E : env) (fuel : nat) (tx_hash symbol : string)
    (side : OrderSide) (expected_size : Q) (timeout : Z) :
  keeps submitted (_wait_for_fill E fuel tx_hash symbol side expected_size timeout).
Proof. apply (kept_by_wait_for_fill submitted submitted_clock keeps_submitted_requests_get_tx submitted_event). Qed.

(** Unfolds an operation down to the primitives of the monad, the fill wait
    apart. *)
Ltac open_operation :=
  unfold place_market_buy_order, place_market_sell_order, close_buy_position,
    close_sell_position, get_min_order_size, require_signer, _ensure_market_data,
    get_current_price, resolve_symbol, best_price, _convert_size_to_lighter_format,
    _convert_price_to_lighter_format, submit_market_order, fill_timeout;
  cbv zeta.

Lemma static_positions_loop (E : env) (entries : list json) :
  ∀ acc : list Position, keeps static (positions_loop E entries acc).
Proof.
  induction entries as [|pos_data entries IH]; intros acc; simpl; [apply keeps_ret |].
  apply keeps_bind; [| intros p; apply IH].
  unfold position_of_entry. open_operation. repeat keeps_step.
Qed.

Lemma static_fetch_market_decimals (E : env) (market_ids : list Z) :
  keeps static (fetch_market_decimals E market_ids).
Proof.
  induction market_ids as [|market_id rest IH]; simpl; repeat keeps_step.
Qed.

Lemma static_find_funding_rate (E : env) (symbol : string) (market_id : Z)
    (rates : list json) :
  keeps static (find_funding_rate E symbol market_id rates).
Proof. induction rates as [|r rest IH]; simpl; repeat keeps_step. Qed.

(** X2.  Once the connector is built, no operation changes its endpoint,
    address, account index, signer flag or symbol cache: not the metadata
    fetches, the price and funding-rate lookups, the fill wait, the four
    order operations, nor the position listing. *)
Theorem operations_keep_static
    (E : env) (F : feeds) (no_rate : string → Z → msg) (fuel : nat)
    (symbol tx_hash : string) (side : OrderSide) (size : Q) (slippage : option Q)
    (market_id timeout : Z) (market_ids : list Z) :
  keeps static (_ensure_market_data E market_id) ∧
  keeps static (initialize_market_decimals E market_ids) ∧
  keeps static (get_min_order_size E symbol) ∧
  keeps static (get_current_price E symbol) ∧
  keeps static (get_current_funding_rate E F no_rate symbol) ∧
  keeps static (_wait_for_fill E fuel tx_hash symbol side size timeout) ∧
  keeps static (place_market_buy_order E fuel symbol size slippage) ∧
  keeps static (place_market_sell_order E fuel symbol size slippage) ∧
  keeps static (close_buy_position E fuel symbol size slippage) ∧
  keeps static (close_sell_position E fuel symbol size slippage) ∧
  keeps static (get_open_positions E).
Proof.
  pose proof (static_wait_for_fill E fuel) as Hwait.
  pose proof (static_positions_loop E) as Hloop.
  pose proof (static_fetch_market_decimals E) as Hfetch.
  pose proof (static_find_funding_rate E) as Hfind.
  repeat split.
  - open_operation. repeat keeps_step.
  - unfold initialize_market_decimals. repeat keeps_step.
  - open_operation. repeat keeps_step.
  - open_operation. repeat keeps_step.
  - unfold get_current_funding_rate, resolve_symbol. repeat keeps_step.
  - apply Hwait.
  - open_operation. repeat keeps_step.
  - open_operation. repeat keeps_step.
  - open_operation. repeat keeps_step.
  - open_operation. repeat keeps_step.
  - unfold get_open_positions, first_account. repeat keeps_step.
Qed.

Lemma bind_raises {A B} (c : Py A) (k : A → Py B) (w w' : world) (e : exn) :
  c w = (Raise e, w') → bind c k w = (Raise e, w').
Proof. unfold bind. intros ->. reflexivity. Qed.

Lemma try_except_reraise {A} (c : Py A) (f : exn → exn) (w w' : world) (e : exn) :
  c w = (Raise e, w') → try_except c (λ e, raise (f e)) w = (Raise (f e), w').
Proof. unfold try_except. intros ->. reflexivity. Qed.

Lemma try_except_reraise_world {A} (c : Py A) (f : exn → exn) (w : world) :
  snd (try_except c (λ e, raise (f e)) w) = snd (c w).
Proof. unfold try_except. by destruct (c w) as [[a|e|] w']. Qed.

(** X3.  [_ensure_market_data] touches the cached metadata of no market but
    its own, whether it returns or raises. *)
Theorem ensure_keeps_other_markets (E : env) (market_id other : Z) :
  other ≠ market_id →
  keeps (metadata other) (_ensure_market_data E market_id).
Proof.
  intros Hne.
  assert (∀ v, keeps (metadata other)
                 (modify_self (λ c, set_size_decimals
                                      (<[market_id := v]> (_market_size_decimals c)) c)))
    as Hsize.
  { intros v w. unfold metadata. simpl. by rewrite lookup_insert_ne. }
  assert (∀ v, keeps (metadata other)
                 (modify_self (λ c, set_price_decimals
                                      (<[market_id := v]> (_market_price_decimals c)) c)))
    as Hprice.
  { intros v w. unfold metadata. simpl. by rewrite lookup_insert_ne. }
  assert (∀ v, keeps (metadata other)
                 (modify_self (λ c, set_min_base_amounts
                                      (<[market_id := v]> (_market_min_base_amounts c)) c)))
    as Hmin.
  { intros v w. unfold metadata. simpl. by rewrite lookup_insert_ne. }
  unfold _ensure_market_data.
  repeat first [ apply Hsize | apply Hprice | apply Hmin | keeps_step ].
Qed.

Lemma ensure_keeps_other_markets_witness :
  let E := Sample.venue "30" (Some (JObj {[ "size_decimals" := JNum 6 ]}))
             Sample.settles_on_fourth_poll Sample.accepted None in
  (1 : Z) ≠ 2 ∧
  fst (_ensure_market_data E 2 Sample.cached)
    = Raise (Exception (FailedTo "get market decimals" (KeyError "price_decimals"))) ∧
  metadata 2 (snd (_ensure_market_data E 2 Sample.cached)) = (Some (JNum 6), None, None) ∧
  metadata 1 (snd (_ensure_market_data E 2 Sample.cached))
    = (Some (JNum 4), Some (JNum 2), Some (JStr "0.001")).
Proof.
  intros E. assert ((1 : Z) ≠ 2) as Hne by discriminate.
  split; [exact Hne |]. split; [reflexivity |]. split; [reflexivity |].
  rewrite (ensure_keeps_other_markets E 2 1 Hne Sample.cached). reflexivity.
Defined.

Lemma ensure_idempotent_witness :
  let E := Sample.venue "30"
             (Some (JObj {[ "size_decimals" := JNum 4; "price_decimals" := JNum 2;
                            "min_base_amount" := JStr "0.001" ]}))
             Sample.settles_on_fourth_poll Sample.accepted None in
  let w1 := snd (_ensure_market_data E 1 Sample.fresh) in
  _ensure_market_data E 1 Sample.fresh = (Return tt, w1) ∧
  events w1 = [EvOrderbookMeta 1] ∧
  _ensure_market_data E 1 w1 = (Return tt, w1).
Proof.
  intros E w1.
  assert (_ensure_market_data E 1 Sample.fresh = (Return tt, w1)) as H by reflexivity.
  split; [exact H |]. split; [reflexivity |].
  exact (ensure_idempotent E 1 Sample.fresh w1 H).
Defined.

Lemma kept_at_bind {T A B} (f : world → T) (c : Py A) (k : A → Py B) (w : world) :
  f (snd (c w)) = f w →
  (∀ a w', c w = (Return a, w') → f (snd (k a w')) = f w') →
  f (snd (bind c k w)) = f w.
Proof.
  intros Hc Hk. unfold bind. destruct (c w) as [[a|e|] w'] eqn:Hrun; simpl in *;
    [rewrite (Hk a w' eq_refl) | |]; exact Hc.
Qed.

Lemma resolve_symbol_inv (symbol : string) (w w' : world) (market_id : Z) :
  resolve_symbol symbol w = (Return market_id, w') →
  _symbol_to_market_id_cache (self w) !! symbol = Some market_id ∧ w' = w.
Proof.
  unfold resolve_symbol, bind, get_self, or_raise.
  destruct (_ !! symbol); [| discriminate]. unfold ret. intros [= -> ->]. done.
Qed.

Lemma require_signer_inv (w w' : world) (u : unit) :
  require_signer w = (Return u, w') → signer_client (self w) = true ∧ w' = w.
Proof.
  unfold require_signer, bind, get_self.
  destruct (signer_client (self w)); [| discriminate]. unfold ret. intros [= _ ->]. done.
Qed.

Lemma self_clock (E : env) : keeps self (time_now E).
Proof. intros w. reflexivity. Qed.

Lemma self_request (E : env) (h : string) : keeps self (requests_get_tx E h).
Proof. intros w. reflexivity. Qed.

Lemma self_event (e : event) :
  match e with EvCreateMarketOrder _ | EvLogTrade _ => False | _ => True end →
  keeps self (emit e).
Proof. intros _ w. reflexivity. Qed.

Lemma self_wait_for_fill (E : env) (fuel : nat) (tx_hash symbol : string)
    (side : OrderSide) (expected_size : Q) (timeout : Z) :
  keeps self (_wait_for_fill E fuel tx_hash symbol side expected_size timeout).
Proof. apply (kept_by_wait_for_fill self self_clock self_request self_event). Qed.

Lemma self_require_signer : keeps self require_signer.
Proof. unfold require_signer. repeat keeps_step. Qed.

Lemma self_resolve_symbol (symbol : string) : keeps self (resolve_symbol symbol).
Proof. unfold resolve_symbol. repeat keeps_step. Qed.

(** Through the first three steps of an order operation, for a symbol whose
    market is fully cached; what follows never writes to the connector. *)
Ltac keep_self_through_prefix Hcached Hwait :=
  rewrite try_except_reraise_world;
  apply kept_at_bind; [apply self_require_signer |];
  intros ? ? [_ ->]%require_signer_inv;
  apply kept_at_bind; [apply self_resolve_symbol |];
  intros ? ? [Hsym ->]%resolve_symbol_inv;
  rewrite bind_return with (1 := ensure_cached _ _ _ (Hcached _ Hsym));
  match goal with
  | |- self (snd (?c ?w)) = self ?w =>
      let Hk := fresh in
      assert (keeps self c) as Hk;
      [ open_operation; pose proof Hwait; repeat keeps_step | exact (Hk w) ]
  end.

(** X4.  An order operation on a symbol whose market has all three fields
    cached leaves the connector object exactly as it was, cached metadata
    included, whether it returns an order or raises. *)
Theorem orders_keep_cached_metadata
    (E : env) (fuel : nat) (symbol : string) (size : Q) (slippage : option Q)
    (w : world) :
  (∀ m, _symbol_to_market_id_cache (self w) !! symbol = Some m →
        all_cached (self w) m = true) →
  self (snd (place_market_buy_order E fuel symbol size slippage w)) = self w ∧
  self (snd (place_market_sell_order E fuel symbol size slippage w)) = self w ∧
  self (snd (close_buy_position E fuel symbol size slippage w)) = self w ∧
  self (snd (close_sell_position E fuel symbol size slippage w)) = self w.
Proof.
  intros Hcached. pose proof (self_wait_for_fill E fuel) as Hwait.
  repeat split.
  - unfold place_market_buy_order. keep_self_through_prefix Hcached Hwait.
  - unfold place_market_sell_order. keep_self_through_prefix Hcached Hwait.
  - unfold close_buy_position. keep_self_through_prefix Hcached Hwait.
  - unfold close_sell_position. keep_self_through_prefix Hcached Hwait.
Qed.

Lemma orders_keep_cached_metadata_witness :
  let E := Sample.venue "3" None
             (Sample.always (Some (Sample.tx_with_status (JNum 4)))) Sample.accepted None in
  fst (place_market_buy_order E 9 "ETH" 1 None Sample.cached)
    = Raise (Exception (FailedTo "place market buy order"
                          (Exception (TransactionNotConfirmed "0xfeed" 3)))) ∧
  self (snd (place_market_buy_order E 9 "ETH" 1 None Sample.cached)) = self Sample.cached.
Proof.
  intros E. split; [reflexivity |].
  apply (orders_keep_cached_metadata E 9 "ETH" 1 None Sample.cached).
  intros m Hm. vm_compute in Hm. injection Hm as <-. reflexivity.
Defined.

(** ** The trade log and the submissions *)

Lemma logs_result_bind {A} (c : Py A) (k : A → Py Order) :
  keeps logged c → (∀ a, logs_result (k a)) → logs_result (bind c k).
Proof.
  intros Hc Hk w. unfold bind. specialize (Hc w).
  destruct (c w) as [[a|e|] w'] eqn:Hrun; simpl in *.
  - rewrite Hk, Hc. reflexivity.
  - rewrite Hc. symmetry. apply app_nil_r.
  - rewrite Hc. symmetry. apply app_nil_r.
Qed.

Lemma logs_result_log (o : Order) : logs_result (bind (_log_trade o) (λ _, ret o)).
Proof. intros w. apply (logged_cons (EvLogTrade o) w). reflexivity. Qed.

Lemma logs_result_try (c : Py Order) (f : exn → exn) :
  logs_result c → logs_result (try_except c (λ e, raise (f e))).
Proof.
  intros Hc w. specialize (Hc w). unfold try_except.
  by destruct (c w) as [[a|e|] w'].
Qed.

Ltac logs_result_step Hwait :=
  first [ apply logs_result_try
        | apply logs_result_log
        | apply logs_result_bind;
          [ solve [pose proof Hwait; repeat keeps_step] | intros ? ] ].

(** X5.  Each of the four order operations appends exactly the order it
    returns to the trade log, as its last step, and appends nothing when it
    raises: a logged trade is always a returned one. *)
Theorem trade_logged_iff_returned
    (E : env) (fuel : nat) (symbol : string) (size : Q) (slippage : option Q) :
  logs_result (place_market_buy_order E fuel symbol size slippage) ∧
  logs_result (place_market_sell_order E fuel symbol size slippage) ∧
  logs_result (close_buy_position E fuel symbol size slippage) ∧
  logs_result (close_sell_position E fuel symbol size slippage).
Proof.
  pose proof (logged_wait_for_fill E fuel) as Hwait.
  repeat split; open_operation; repeat logs_result_step Hwait.
Qed.

Lemma submits_bind_before (P : market_order → Prop) {A B} (c : Py A) (k : A → Py B) :
  keeps submitted c → (∀ a, submits P (k a)) → submits P (bind c k).
Proof.
  intros Hc Hk w. unfold bind. specialize (Hc w).
  destruct (c w) as [[a|e|] w'] eqn:Hrun; simpl in *.
  - specialize (Hk a w'). rewrite Hc in Hk. exact Hk.
  - left. split; [exact Hc | discriminate].
  - left. split; [exact Hc | discriminate].
Qed.

Lemma submits_bind_after (P : market_order → Prop) {B} (E : env) (o : market_order)
    (k : sdk_response → Py B) :
  P o → (∀ a, keeps submitted (k a)) → submits P (bind (submit_market_order E o) k).
Proof.
  intros Ho Hk w. right. exists o. split; [exact Ho |].
  unfold bind, submit_market_order at 1, bind, emit.
  set (w1 := {| self := self w; events := EvCreateMarketOrder o :: events w;
                clock_reads := clock_reads w; tx_polls := tx_polls w |}).
  assert (submitted w1 = (submitted w ++ [o])%list) as Hw1
    by (apply (submitted_cons (EvCreateMarketOrder o) w); reflexivity).
  destruct (create_market_order E o) as [|response [err|]]; simpl; try exact Hw1.
  rewrite (Hk response w1). exact Hw1.
Qed.

Lemma submits_try (P : market_order → Prop) {A} (c : Py A) (f : exn → exn) :
  submits P c → submits P (try_except c (λ e, raise (f e))).
Proof.
  intros Hc w. specialize (Hc w). unfold try_except.
  destruct (c w) as [[a|e|] w']; simpl in *; try exact Hc.
  destruct Hc as [[Hc _]|Hc]; [left | right; exact Hc].
  split; [exact Hc | discriminate].
Qed.

Ltac submits_step Hwait :=
  first [ apply submits_try
        | apply submits_bind_after;
          [ repeat split
          | intros ?; solve [unfold _log_trade; pose proof Hwait; repeat keeps_step] ]
        | apply submits_bind_before;
          [ solve [repeat keeps_step] | intros ? ] ].

(** X6.  Each order operation hands at most one order to the signing SDK, and
    exactly one whenever it returns.  That order has client index 0; it is a
    bid without the reduce-only flag for a market buy, an ask without it for
    a market sell, an ask with it for closing a long and a bid with it for
    closing a short. *)
Theorem one_order_per_operation
    (E : env) (fuel : nat) (symbol : string) (size : Q) (slippage : option Q) :
  submits (flagged false false) (place_market_buy_order E fuel symbol size slippage) ∧
  submits (flagged true false) (place_market_sell_order E fuel symbol size slippage) ∧
  submits (flagged true true) (close_buy_position E fuel symbol size slippage) ∧
  submits (flagged false true) (close_sell_position E fuel symbol size slippage).
Proof.
  pose proof (submitted_wait_for_fill E fuel) as Hwait.
  repeat split.
  - unfold place_market_buy_order, require_signer, _ensure_market_data,
      get_current_price, resolve_symbol, best_price, _convert_size_to_lighter_format,
      _convert_price_to_lighter_format, fill_timeout; cbv zeta.
    repeat submits_step Hwait.
  - unfold place_market_sell_order, require_signer, _ensure_market_data,
      get_current_price, resolve_symbol, best_price, _convert_size_to_lighter_format,
      _convert_price_to_lighter_format, fill_timeout; cbv zeta.
    repeat submits_step Hwait.
  - unfold close_buy_position, require_signer, _ensure_market_data,
      get_current_price, resolve_symbol, best_price, _convert_size_to_lighter_format,
      _convert_price_to_lighter_format, fill_timeout; cbv zeta.
    repeat submits_step Hwait.
  - unfold close_sell_position, require_signer, _ensure_market_data,
      get_current_price, resolve_symbol, best_price, _convert_size_to_lighter_format,
      _convert_price_to_lighter_format, fill_timeout; cbv zeta.
    repeat submits_step Hwait.
Qed.

(** ** What an order operation returns and when it refuses *)

(** Runs backwards through an operation that returned an order, keeping one
    hypothesis per step. *)
Ltac invert_operation H :=
  cbv zeta in H;
  apply try_except_reraise_inv in H;
  repeat (let a := fresh "a" in
          let w := fresh "w" in
          let Hstep := fresh "Hstep" in
          apply bind_inv in H as (a & w & Hstep & H));
  unfold ret in H; injection H as <- <-.

(** X7.  Whatever an order operation returns is a market order for the
    requested symbol with status FILLED; its side is BUY for a market buy and
    for the close of a short, SELL for a market sell and for the close of a
    long.  A market sell and the close of a short always record the requested
    size and a price; a market buy and the close of a long record the
    requested size and a price whenever the order carries the identifier
    ["unknown"]. *)
Theorem returned_order_shape
    (E : env) (fuel : nat) (requested : string) (amount : Q) (slippage : option Q)
    (w w' : world) (o : Order) :
  (place_market_buy_order E fuel requested amount slippage w = (Return o, w') →
   symbol o = requested ∧ side o = BUY ∧ type o = MARKET ∧ status o = FILLED ∧
   (id o = "unknown" → size o = amount ∧ is_Some (price o))) ∧
  (place_market_sell_order E fuel requested amount slippage w = (Return o, w') →
   symbol o = requested ∧ side o = SELL ∧ type o = MARKET ∧ status o = FILLED ∧
   size o = amount ∧ is_Some (price o)) ∧
  (close_buy_position E fuel requested amount slippage w = (Return o, w') →
   symbol o = requested ∧ side o = SELL ∧ type o = MARKET ∧ status o = FILLED ∧
   (id o = "unknown" → size o = amount ∧ is_Some (price o))) ∧
  (close_sell_position E fuel requested amount slippage w = (Return o, w') →
   symbol o = requested ∧ side o = BUY ∧ type o = MARKET ∧ status o = FILLED ∧
   size o = amount ∧ is_Some (price o)).
Proof.
  split; [| split; [| split]]; intros H.
  - unfold place_market_buy_order in H. invert_operation H. simpl.
    repeat (split; [reflexivity |]). intros Hid.
    match goal with
    | Hx : (if negb (String.eqb _ "unknown") then _ else _) _ = _ |- _ =>
        rewrite Hid in Hx; simpl in Hx; unfold ret in Hx; injection Hx as <- _
    end.
    simpl. eauto.
  - unfold place_market_sell_order in H. invert_operation H. simpl. eauto 10.
  - unfold close_buy_position in H. invert_operation H. simpl.
    repeat (split; [reflexivity |]). intros Hid.
    match goal with
    | Hx : (if negb (String.eqb _ "unknown") then _ else _) _ = _ |- _ =>
        rewrite Hid in Hx; simpl in Hx; unfold ret in Hx; injection Hx as <- _
    end.
    simpl. eauto.
  - unfold close_sell_position in H. invert_operation H. simpl. eauto 10.
Qed.

Lemma returned_order_shape_witness :
  let E := Sample.venue "30" None Sample.settles_on_fourth_poll Sample.accepted None in
  ∃ o : Order,
    fst (close_buy_position E 9 "ETH" 1 None Sample.cached) = Return o ∧
    symbol o = "ETH" ∧ side o = SELL ∧ type o = MARKET ∧ status o = FILLED.
Proof.
  intros E.
  destruct (close_buy_position E 9 "ETH" 1 None Sample.cached) as [[o|e|] w'] eqn:Hrun;
    [| vm_compute in Hrun; discriminate ..].
  exists o. split; [reflexivity |].
  destruct (returned_order_shape E 9 "ETH" 1 None Sample.cached w' o) as (_ & _ & H & _).
  destruct (H Hrun) as (H1 & H2 & H3 & H4 & _). auto.
Defined.

(** X8.  Without a signer, or for a symbol the symbol cache does not hold,
    each order operation raises at once: no request is made, nothing is
    submitted or logged, the world is as before.  The signer is checked
    first. *)
Theorem orders_refused_before_any_request
    (E : env) (fuel : nat) (symbol : string) (size : Q) (slippage : option Q) (w : world) :
  signer_client (self w) = false ∨ _symbol_to_market_id_cache (self w) !! symbol = None →
  let cause :=
    Exception (if signer_client (self w) then UnknownSymbol symbol else TradingNotEnabled) in
  place_market_buy_order E fuel symbol size slippage w
    = (Raise (Exception (FailedTo "place market buy order" cause)), w) ∧
  place_market_sell_order E fuel symbol size slippage w
    = (Raise (Exception (FailedTo "place market sell order" cause)), w) ∧
  close_buy_position E fuel symbol size slippage w
    = (Raise (Exception (FailedTo "close buy position" cause)), w) ∧
  close_sell_position E fuel symbol size slippage w
    = (Raise (Exception (FailedTo "close sell position" cause)), w).
Proof.
  intros Hrefused cause.
  assert (∀ k : unit → Z → Py Order,
            bind require_signer (λ u, bind (resolve_symbol symbol) (k u)) w
            = (Raise cause, w)) as Hrun.
  { intros k. subst cause. unfold require_signer, resolve_symbol, bind, get_self.
    destruct (signer_client (self w)); [| reflexivity].
    destruct Hrefused as [Hs|Hs]; [discriminate |]. cbn. rewrite Hs. reflexivity. }
  unfold place_market_buy_order, place_market_sell_order, close_buy_position,
    close_sell_position.
  repeat split;
    apply (try_except_reraise _ (λ e, Exception (FailedTo _ e)) w w cause),
          (Hrun (λ _ market_id, _)).
Qed.

Lemma orders_refused_before_any_request_witness :
  let E := Sample.venue "30" None Sample.settles_on_fourth_poll Sample.accepted None in
  place_market_sell_order E 9 "BTC" 1 None Sample.cached
  = (Raise (Exception (FailedTo "place market sell order" (Exception (UnknownSymbol "BTC")))),
     Sample.cached).
Proof.
  intros E.
  apply (orders_refused_before_any_request E 9 "BTC" 1 None Sample.cached).
  right. reflexivity.
Defined.

(** ** Rejected orders *)

Lemma submit_rejected (E : env) (o : market_order) (w : world) (response : sdk_response) :
  rejects (create_market_order E o) → fst (submit_market_order E o w) ≠ Return response.
Proof.
  unfold submit_market_order, bind, emit, rejects.
  destruct (create_market_order E o) as [|r [err|]]; simpl; [discriminate .. | done].
Qed.

Lemma keeps_bind_halt {T A B} (f : world → T) (c : Py A) (k : A → Py B) :
  keeps f c → (∀ w a, fst (c w) ≠ Return a) → keeps f (bind c k).
Proof.
  intros Hc Hhalt w. specialize (Hc w). specialize (Hhalt w). unfold bind.
  destruct (c w) as [[a|e|] w']; simpl in *; [by destruct (Hhalt a) | done | done].
Qed.

(** An order operation with a signer that rejects: what the steps up to the
    submission leave alone, the operation leaves alone. *)
Ltac halt_at_submission Hrej :=
  open_operation;
  repeat first
    [ apply keeps_try; [| intros ?; apply keeps_raise]
    | apply keeps_bind_halt;
      [ unfold submit_market_order; solve [repeat keeps_step]
      | intros ? ?; apply submit_rejected, Hrej ]
    | apply keeps_bind; [solve [repeat keeps_step] | intros ?] ].

Ltac never_returns_rejected Hrej H :=
  invert_operation H;
  match goal with
  | Hs : submit_market_order ?E ?o ?w0 = (Return ?r, _) |- _ =>
      apply (submit_rejected E o w0 r (Hrej o)); rewrite Hs; reflexivity
  end.

(** X9.  When the signing SDK rejects every order (it raises, or replies with
    an error), no order operation returns an order, and none starts a fill
    wait: the status endpoint is not polled and the clock is not read. *)
Theorem rejected_order_is_not_awaited
    (E : env) (fuel : nat) (symbol : string) (size : Q) (slippage : option Q) (w : world) :
  (∀ o, rejects (create_market_order E o)) →
  let untouched (r : outcome Order * world) :=
    (∀ o, fst r ≠ Return o) ∧
    tx_polls (snd r) = tx_polls w ∧ clock_reads (snd r) = clock_reads w in
  untouched (place_market_buy_order E fuel symbol size slippage w) ∧
  untouched (place_market_sell_order E fuel symbol size slippage w) ∧
  untouched (close_buy_position E fuel symbol size slippage w) ∧
  untouched (close_sell_position E fuel symbol size slippage w).
Proof.
  intros Hrej untouched. subst untouched. cbv beta.
  assert (∀ c : Py Order, (∀ w' o, c w = (Return o, w') → False) →
                          ∀ o, fst (c w) ≠ Return o) as Hfst.
  { intros c Hc o Ho. destruct (c w) as [r w'] eqn:Hrun. simpl in Ho. subst r. eauto. }
  repeat split.
  - apply Hfst. unfold place_market_buy_order. intros w' o H.
    never_returns_rejected Hrej H.
  - enough (keeps tx_polls (place_market_buy_order E fuel symbol size slippage)) as Hk by exact (Hk w).
    halt_at_submission Hrej.
  - enough (keeps clock_reads (place_market_buy_order E fuel symbol size slippage)) as Hk by exact (Hk w).
    halt_at_submission Hrej.
  - apply Hfst. unfold place_market_sell_order. intros w' o H.
    never_returns_rejected Hrej H.
  - enough (keeps tx_polls (place_market_sell_order E fuel symbol size slippage)) as Hk by exact (Hk w).
    halt_at_submission Hrej.
  - enough (keeps clock_reads (place_market_sell_order E fuel symbol size slippage)) as Hk by exact (Hk w).
    halt_at_submission Hrej.
  - apply Hfst. unfold close_buy_position. intros w' o H.
    never_returns_rejected Hrej H.
  - enough (keeps tx_polls (close_buy_position E fuel symbol size slippage)) as Hk by exact (Hk w).
    halt_at_submission Hrej.
  - enough (keeps clock_reads (close_buy_position E fuel symbol size slippage)) as Hk by exact (Hk w).
    halt_at_submission Hrej.
  - apply Hfst. unfold close_sell_position. intros w' o H.
    never_returns_rejected Hrej H.
  - enough (keeps tx_polls (close_sell_position E fuel symbol size slippage)) as Hk by exact (Hk w).
    halt_at_submission Hrej.
  - enough (keeps clock_reads (close_sell_position E fuel symbol size slippage)) as Hk by exact (Hk w).
    halt_at_submission Hrej.
Qed.

Lemma rejected_order_is_not_awaited_witness :
  let E := Sample.venue "30" None Sample.settles_on_fourth_poll Sample.refused None in
  fst (place_market_buy_order E 9 "ETH" 1 None Sample.cached)
    = Raise (Exception (FailedTo "place market buy order"
                          (Exception (OrderFailed "insufficient margin")))) ∧
  length (submitted (snd (place_market_buy_order E 9 "ETH" 1 None Sample.cached))) = 1%nat ∧
  tx_polls (snd (place_market_buy_order E 9 "ETH" 1 None Sample.cached)) = 0%nat ∧
  clock_reads (snd (place_market_buy_order E 9 "ETH" 1 None Sample.cached)) = 0%nat.
Proof.
  intros E. split; [reflexivity |]. split; [reflexivity |].
  destruct (rejected_order_is_not_awaited E 9 "ETH" 1 None Sample.cached)
    as ((_ & Hpolls & Hclock) & _); [intros o; exact I |].
  split; [exact Hpolls | exact Hclock].
Defined.

(** ** Exceptions *)

Lemma raises_only_try {A} (what : string) (c : Py A) :
  raises_only (wrapped what) (try_except c (λ e, raise (Exception (FailedTo what e)))).
Proof.
  intros w e. unfold try_except, raise.
  destruct (c w) as [[a|e'|] w']; simpl; [discriminate | | discriminate].
  intros [= <-]. by exists e'.
Qed.

(** X10.  No raw exception escapes an operation: whatever goes wrong inside,
    what is raised is the operation's own "Failed to ..." exception around
    the cause.  The position listing raises nothing at all. *)
Theorem failures_are_wrapped
    (E : env) (F : feeds) (no_rate : string → Z → msg) (fuel : nat)
    (symbol : string) (size : Q) (slippage : option Q)
    (market_id : Z) (market_ids : list Z) :
  raises_only (wrapped "initialize market data") (_initialize_market_data F) ∧
  raises_only (wrapped "initialize market decimals")
    (initialize_market_decimals E market_ids) ∧
  raises_only (wrapped "get market decimals") (_ensure_market_data E market_id) ∧
  raises_only (wrapped "get min order size") (get_min_order_size E symbol) ∧
  raises_only (wrapped "get current price") (get_current_price E symbol) ∧
  raises_only (wrapped "get current funding rate")
    (get_current_funding_rate E F no_rate symbol) ∧
  raises_only (wrapped "place market buy order")
    (place_market_buy_order E fuel symbol size slippage) ∧
  raises_only (wrapped "place market sell order")
    (place_market_sell_order E fuel symbol size slippage) ∧
  raises_only (wrapped "close buy position")
    (close_buy_position E fuel symbol size slippage) ∧
  raises_only (wrapped "close sell position")
    (close_sell_position E fuel symbol size slippage) ∧
  raises_only (λ _, False) (get_open_positions E).
Proof.
  repeat split; try apply raises_only_try.
  - intros w e. unfold _ensure_market_data, bind at 1, get_self at 1.
    destruct (_ && _); [discriminate | apply raises_only_try].
  - intros w e. destruct (get_open_positions_returns E w) as (ps & w' & ->). discriminate.
Qed.

(** ** What a fill wait that returns has seen *)

Lemma Qgtb_true (x : Q) : Qgtb x 0 = true → (0 < x)%Q.
Proof.
  unfold Qgtb. intros H. apply Qnot_le_lt. intros Hle.
  apply Qle_bool_iff in Hle. rewrite Hle in H. discriminate.
Qed.

Lemma settled_pure (E : env) (tx_hash : string) (expected_size : Q) (tx_data : json)
    (w : world) :
  snd (settled E tx_hash expected_size tx_data w) = w.
Proof. apply (kept_by_settled (λ w, w)). Qed.

Lemma settled_result (E : env) (tx_hash : string) (expected_size : Q) (tx_data : json)
    (w w' : world) (r : fill_result) :
  settled E tx_hash expected_size tx_data w = (Return r, w') →
  fill_status r = "FILLED" ∧ fill_tx_hash r = tx_hash ∧
  (∀ p, actual_price r = Some p → (0 < p)%Q) ∧
  ((0 < actual_size r)%Q ∨ actual_size r = expected_size).
Proof.
  unfold settled. intros H.
  apply bind_inv in H as (info & w1 & _ & H).
  unfold try_except in H.
  match type of H with
  | match ?c w1 with _ => _ end = _ => destruct (c w1) as [[r0|e|] w2] eqn:Hin
  end.
  - injection H as -> ->.
    repeat (apply bind_inv in Hin as (? & ? & _ & Hin)).
    unfold ret in Hin. injection Hin as <- _. simpl.
    repeat split.
    + intros p. destruct (Qgtb _ 0) eqn:Hp; [| discriminate].
      intros [= <-]. apply Qgtb_true, Hp.
    + destruct (Qgtb _ 0) eqn:Hs; [left; apply Qgtb_true, Hs | right; reflexivity].
  - destruct e; try discriminate; unfold ret in H; injection H as <- _; simpl;
      (repeat split; [discriminate | right; reflexivity]).
  - discriminate.
Qed.

(** One round of the loop: it ends with a sleep and goes on, or the poll
    showed the settled status and the round returns what [settled] made of
    it, with no sleep. *)
Lemma poll_round (E : env) (tx_hash url : string) (expected_size poll_interval : Q)
    (w : world) :
  base_endpoint (self w) = Some url →
  try_except (poll_once E tx_hash expected_size poll_interval)
             (λ _, let! _ := sleep poll_interval in ret None) w
  = (Return None, after_polls tx_hash poll_interval 1 0 w)
  ∨ ∃ (r : fill_result) (tx_data : json),
      try_except (poll_once E tx_hash expected_size poll_interval)
                 (λ _, let! _ := sleep poll_interval in ret None) w
      = (Return (Some r), polled tx_hash w) ∧
      shows_settled (tx_by_hash E (tx_polls w) tx_hash) = true ∧
      settled E tx_hash expected_size tx_data (polled tx_hash w)
      = (Return r, polled tx_hash w).
Proof.
  intros Hurl.
  destruct (shows_settled (tx_by_hash E (tx_polls w) tx_hash)) eqn:Hs;
    [| left; by apply (poll_unsettled E tx_hash url)].
  unfold shows_settled in Hs.
  destruct (tx_by_hash E (tx_polls w) tx_hash) as [[code [[| | | | |tx]|]]|] eqn:Hresp;
    try discriminate.
  apply andb_prop in Hs as [Hcode Hstatus].
  pose proof (settled_pure E tx_hash expected_size (JObj tx) (polled tx_hash w)) as Hpure.
  pose proof (never_stuck_settled E tx_hash expected_size (JObj tx) (polled tx_hash w))
    as Hns.
  destruct (settled E tx_hash expected_size (JObj tx) (polled tx_hash w))
    as [[r|e|] w2] eqn:Hset; simpl in Hpure, Hns; subst w2; [| | done].
  - right. exists r, (JObj tx). split; [| done].
    unfold try_except, poll_once, bind, get_self, requests_get_tx, or_raise, ret, py_get.
    simpl. rewrite Hurl. simpl. rewrite Hresp. simpl. rewrite Hcode. simpl.
    rewrite Hstatus. fold (polled tx_hash w). rewrite Hset. reflexivity.
  - left.
    unfold try_except, poll_once, bind, get_self, requests_get_tx, or_raise, ret, py_get.
    simpl. rewrite Hurl. simpl. rewrite Hresp. simpl. rewrite Hcode. simpl.
    rewrite Hstatus. fold (polled tx_hash w). rewrite Hset. reflexivity.
Qed.

Lemma poll_round_without_endpoint (E : env) (tx_hash : string)
    (expected_size poll_interval : Q) (w : world) :
  base_endpoint (self w) = None →
  ∃ w1 : world,
    try_except (poll_once E tx_hash expected_size poll_interval)
               (λ _, let! _ := sleep poll_interval in ret None) w
    = (Return None, w1) ∧ self w1 = self w.
Proof.
  intros Hurl. eexists.
  unfold try_except, poll_once, bind, get_self. rewrite Hurl. simpl. split; reflexivity.
Qed.

Lemma wait_loop_needs_endpoint (E : env) (tx_hash : string)
    (expected_size start_time poll_interval : Q) (timeout : Z) (fuel : nat) :
  ∀ (w w' : world) (r : fill_result),
    base_endpoint (self w) = None →
    wait_loop E fuel tx_hash expected_size timeout start_time poll_interval w
    ≠ (Return r, w').
Proof.
  induction fuel as [|fuel IH]; intros w w' r Hurl; simpl; [discriminate |].
  unfold bind at 1, time_now at 1.
  destruct (Qltb _ _); [| discriminate].
  match goal with
  | |- bind _ _ ?w0 ≠ _ =>
      destruct (poll_round_without_endpoint E tx_hash expected_size poll_interval w0 Hurl)
        as (w1 & Hround & Hself)
  end.
  erewrite bind_return; [| exact Hround].
  apply IH. rewrite Hself. exact Hurl.
Qed.

Lemma wait_loop_returns (E : env) (tx_hash url : string)
    (expected_size start_time poll_interval : Q) (timeout : Z) (fuel : nat) :
  ∀ (w w' : world) (r : fill_result),
    base_endpoint (self w) = Some url →
    wait_loop E fuel tx_hash expected_size timeout start_time poll_interval w
    = (Return r, w') →
    ∃ (n : nat) (tx_data : json),
      w' = polled tx_hash (after_polls tx_hash poll_interval n (S n) w) ∧
      shows_settled (tx_by_hash E (tx_polls w + n) tx_hash) = true ∧
      settled E tx_hash expected_size tx_data w' = (Return r, w').
Proof.
  induction fuel as [|fuel IH]; intros w w' r Hurl; simpl; [discriminate |].
  unfold bind at 1, time_now at 1.
  destruct (Qltb _ _); [| discriminate].
  set (w0 := {| self := self w; events := events w;
                clock_reads := S (clock_reads w); tx_polls := tx_polls w |}).
  assert (w0 = after_polls tx_hash poll_interval 0 1 w) as Hw0 by reflexivity.
  destruct (poll_round E tx_hash url expected_size poll_interval w0 Hurl)
    as [Hround|(r0 & tx_data & Hround & Hs & Hset)];
    (erewrite bind_return; [| exact Hround]).
  - intros Hrun. apply IH in Hrun as (n & tx_data & -> & Hs & Hset); [| exact Hurl].
    exists (S n), tx_data. split; [| split; [| exact Hset]].
    + rewrite Hw0, !after_polls_compose. do 2 f_equal; lia.
    + simpl in Hs. replace (tx_polls w + S n)%nat with (S (tx_polls w + n)) by lia.
      exact Hs.
  - unfold ret. intros [= <- <-]. exists 0%nat, tx_data.
    split; [by rewrite Hw0 | split; [| exact Hset]].
    replace (tx_polls w + 0)%nat with (tx_polls w) by lia. exact Hs.
Qed.

(** X13.  A fill wait returns only after a poll that showed the settled
    status, and what it returns is what [settled] made of that poll.  The
    endpoint is then configured and the poll interval is a number; the wait
    has made [n] rounds of one poll followed by one sleep of the poll
    interval, then the poll that settled it, with no sleep after it, and has
    read the clock [n + 2] times.  The result says ['FILLED'] for the hash
    asked for; its price, when there is one, is positive, and its size is
    positive or else the expected size. *)
Theorem fill_wait_returns_after_settled_poll
    (E : env) (fuel : nat) (tx_hash symbol : string) (side : OrderSide)
    (expected_size : Q) (timeout : Z) (w w' : world) (r : fill_result) :
  _wait_for_fill E fuel tx_hash symbol side expected_size timeout w = (Return r, w') →
  ∃ (n : nat) (poll_interval : Q),
    is_Some (base_endpoint (self w)) ∧
    getenv E "LIGHTER_POLL_INTERVAL" ≫= float_of_str E = Some poll_interval ∧
    w' = polled tx_hash (after_polls tx_hash poll_interval n (S (S n)) w) ∧
    shows_settled (tx_by_hash E (tx_polls w + n) tx_hash) = true ∧
    fill_status r = "FILLED" ∧ fill_tx_hash r = tx_hash ∧
    (∀ p, actual_price r = Some p → (0 < p)%Q) ∧
    ((0 < actual_size r)%Q ∨ actual_size r = expected_size).
Proof.
  unfold _wait_for_fill, bind at 1, time_now at 1.
  destruct (getenv E "LIGHTER_POLL_INTERVAL") as [interval_str|] eqn:Henv; [| discriminate].
  destruct (String.eqb interval_str ""); [discriminate |].
  unfold bind at 1, or_raise.
  destruct (float_of_str E interval_str) as [poll_interval|] eqn:Hfloat; [| discriminate].
  unfold ret at 1.
  set (w0 := {| self := self w; events := events w;
                clock_reads := S (clock_reads w); tx_polls := tx_polls w |}).
  assert (w0 = after_polls tx_hash poll_interval 0 1 w) as Hw0 by reflexivity.
  intros Hrun.
  destruct (base_endpoint (self w)) as [url|] eqn:Hurl.
  - apply (wait_loop_returns E tx_hash url) in Hrun as (n & tx_data & Hw' & Hs & Hset);
      [| exact Hurl].
    exists n, poll_interval. split; [eauto |]. split; [exact Hfloat |].
    split; [| split; [exact Hs | by apply settled_result in Hset]].
    rewrite Hw', Hw0, after_polls_compose. do 2 f_equal; lia.
  - by apply wait_loop_needs_endpoint in Hrun.
Qed.

Lemma fill_wait_returns_after_settled_poll_witness :
  let E := Sample.venue "30" None Sample.settles_on_fourth_poll Sample.accepted None in
  ∃ (r : fill_result) (n : nat),
    fst (_wait_for_fill E 9 "0xfeed" "ETH" BUY 0.5 30 Sample.cached) = Return r ∧
    snd (_wait_for_fill E 9 "0xfeed" "ETH" BUY 0.5 30 Sample.cached)
      = polled "0xfeed" (after_polls "0xfeed" 1 n (S (S n)) Sample.cached) ∧
    (∀ p, actual_price r = Some p → (0 < p)%Q).
Proof.
  intros E.
  destruct (_wait_for_fill E 9 "0xfeed" "ETH" BUY 0.5 30 Sample.cached)
    as [[r|e|] w'] eqn:Hrun; [| vm_compute in Hrun; discriminate ..].
  destruct (fill_wait_returns_after_settled_poll E 9 "0xfeed" "ETH" BUY 0.5 30
              Sample.cached w' r Hrun)
    as (n & poll_interval & _ & Hpi & Hw' & _ & _ & _ & Hprice & _).
  vm_compute in Hpi. injection Hpi as <-.
  exists r, n. split; [reflexivity |]. split; [| exact Hprice].
  simpl. rewrite Hw'. unfold after_polls, polled. simpl. reflexivity.
Defined.

(** ** From the quote to the record *)

Lemma wait_for_fill_polls (E : env) (fuel : nat) (tx_hash symbol : string)
    (side : OrderSide) (expected_size : Q) (timeout : Z) (w w' : world) (r : fill_result) :
  _wait_for_fill E fuel tx_hash symbol side expected_size timeout w = (Return r, w') →
  tx_polls w' ≠ tx_polls w.
Proof.
  unfold _wait_for_fill, bind at 1, time_now at 1.
  destruct (getenv E "LIGHTER_POLL_INTERVAL") as [interval_str|]; [| discriminate].
  destruct (String.eqb interval_str ""); [discriminate |].
  unfold bind at 1, or_raise.
  destruct (float_of_str E interval_str) as [poll_interval|]; [| discriminate].
  unfold ret at 1. intros Hrun.
  destruct (base_endpoint (self w)) as [url|] eqn:Hurl.
  - apply (wait_loop_returns E tx_hash url) in Hrun as (n & tx_data & -> & _);
      [| exact Hurl].
    simpl. lia.
  - by apply wait_loop_needs_endpoint in Hrun.
Qed.

(** An order that [place_market_buy_order] or [close_buy_position] returns
    with another identifier than ["unknown"] has been polled for. *)
Lemma buy_order_with_hash_was_polled (E : env) (fuel : nat) (symbol : string)
    (size : Q) (slippage : option Q) (w w' : world) (o : Order) :
  place_market_buy_order E fuel symbol size slippage w = (Return o, w') →
  id o ≠ "unknown" → tx_polls w' ≠ tx_polls w.
Proof.
  unfold place_market_buy_order. intros H Hid. invert_tracked H. simpl in Hid.
  apply String.eqb_neq in Hid. rewrite Hid in H4. simpl in H4.
  apply bind_inv in H4 as (timeout & wt & Ht & H4).
  apply bind_inv in H4 as (fill & wf & Hfill & H4).
  unfold ret in H4. injection H4 as _ <-.
  apply wait_for_fill_polls in Hfill.
  assert (tx_polls wt = tx_polls w) as Hwt.
  { assert (keeps_polls (fill_timeout E)) as Hk
      by (unfold fill_timeout; repeat keeps_polls_step).
    rewrite (keeps_polls_run _ _ _ _ Hk Ht). congruence. }
  congruence.
Qed.

Lemma close_buy_with_hash_was_polled (E : env) (fuel : nat) (symbol : string)
    (size : Q) (slippage : option Q) (w w' : world) (o : Order) :
  close_buy_position E fuel symbol size slippage w = (Return o, w') →
  id o ≠ "unknown" → tx_polls w' ≠ tx_polls w.
Proof.
  unfold close_buy_position. intros H Hid. invert_tracked H. simpl in Hid.
  apply String.eqb_neq in Hid. rewrite Hid in H4. simpl in H4.
  apply bind_inv in H4 as (timeout & wt & Ht & H4).
  apply bind_inv in H4 as (fill & wf & Hfill & H4).
  unfold ret in H4. injection H4 as _ <-.
  apply wait_for_fill_polls in Hfill.
  assert (tx_polls wt = tx_polls w) as Hwt.
  { assert (keeps_polls (fill_timeout E)) as Hk
      by (unfold fill_timeout; repeat keeps_polls_step).
    rewrite (keeps_polls_run _ _ _ _ Hk Ht). congruence. }
  congruence.
Qed.

Lemma submitted_after_submit {B} (E : env) (o : market_order) (k : sdk_response → Py B)
    (w : world) :
  (∀ a, keeps submitted (k a)) →
  submitted (snd (bind (submit_market_order E o) k w)) = (submitted w ++ [o])%list.
Proof.
  intros Hk. unfold bind, submit_market_order at 1, bind, emit.
  set (w1 := {| self := self w; events := EvCreateMarketOrder o :: events w;
                clock_reads := clock_reads w; tx_polls := tx_polls w |}).
  assert (submitted w1 = (submitted w ++ [o])%list) as Hw1
    by (apply (submitted_cons (EvCreateMarketOrder o) w); reflexivity).
  destruct (create_market_order E o) as [|response [err|]]; simpl; try exact Hw1.
  rewrite (Hk response w1). exact Hw1.
Qed.

Section Submission.

Context (E : env) (fuel : nat) (symbol : string) (size : Q) (slippage : option Q).
Context (w w1 w2 : world) (market_id : Z) (quote : Price).
Context (up down : Q) (base above below : Z).

(** The steps up to the submission succeed: trading is enabled, the symbol
    resolves, the metadata is ensured, a quote is fetched, the worst prices
    above and below it are finite, and the size and the two worst prices are
    encoded as [base], [above] and [below]. *)
Hypothesis trading_enabled : signer_client (self w) = true.
Hypothesis resolves : _symbol_to_market_id_cache (self w) !! symbol = Some market_id.
Hypothesis ensured : _ensure_market_data E market_id w = (Return tt, w1).
Hypothesis quoted : get_current_price E symbol w1 = (Return quote, w2).
Hypothesis size_encoded :
  _convert_size_to_lighter_format size market_id w2 = (Return base, w2).
Hypothesis priced_up :
  worst_buy_price (price_value quote) (slippage_or_default slippage) = Some up.
Hypothesis priced_down :
  worst_sell_price (price_value quote) (slippage_or_default slippage) = Some down.
Hypothesis up_encoded :
  _convert_price_to_lighter_format up market_id w2 = (Return above, w2).
Hypothesis down_encoded :
  _convert_price_to_lighter_format down market_id w2 = (Return below, w2).

(** Runs forward through an operation as far as the submission. *)
Ltac run_to_submission priced encoded :=
  cbv zeta;
  erewrite bind_return; [| apply require_signer_run, trading_enabled];
  erewrite bind_return; [| apply resolve_symbol_run, resolves];
  erewrite bind_return; [| apply ensured];
  erewrite bind_return; [| apply quoted];
  rewrite priced;
  erewrite bind_return; [| reflexivity];
  erewrite bind_return; [| apply size_encoded];
  erewrite bind_return; [| apply encoded].

(** Whatever the SDK replies, the one order an operation submits is the one
    built from the encoded size and the encoded worst price. *)
Ltac submitted_order priced encoded :=
  rewrite try_except_reraise_world; run_to_submission priced encoded;
  apply submitted_after_submit; intros ?;
  pose proof (submitted_wait_for_fill E fuel);
  unfold _log_trade, fill_timeout; repeat keeps_step.

Lemma buy_submits :
  submitted (snd (place_market_buy_order E fuel symbol size slippage w))
  = (submitted w2 ++ [order_for market_id base above false false])%list.
Proof using trading_enabled resolves ensured quoted size_encoded priced_up up_encoded.
  unfold place_market_buy_order. submitted_order priced_up up_encoded.
Qed.

Lemma sell_submits :
  submitted (snd (place_market_sell_order E fuel symbol size slippage w))
  = (submitted w2 ++ [order_for market_id base below true false])%list.
Proof using trading_enabled resolves ensured quoted size_encoded priced_down down_encoded.
  unfold place_market_sell_order. submitted_order priced_down down_encoded.
Qed.

Lemma close_buy_submits :
  submitted (snd (close_buy_position E fuel symbol size slippage w))
  = (submitted w2 ++ [order_for market_id base below true true])%list.
Proof using trading_enabled resolves ensured quoted size_encoded priced_down down_encoded.
  unfold close_buy_position. submitted_order priced_down down_encoded.
Qed.

Lemma close_sell_submits :
  submitted (snd (close_sell_position E fuel symbol size slippage w))
  = (submitted w2 ++ [order_for market_id base above false true])%list.
Proof using trading_enabled resolves ensured quoted size_encoded priced_up up_encoded.
  unfold close_sell_position. submitted_order priced_up up_encoded.
Qed.

Context (response : sdk_response).

(** The SDK accepts the order and answers with [response]. *)
Hypothesis accepted : ∀ o, create_market_order E o = SignerReply response None.

Section NoHash.

(** The response carries no transaction hash. *)
Hypothesis no_hash : extract_tx_hash response = "unknown".

Let current_price : Q := price_value quote.

Lemma buy_estimate :
  place_market_buy_order E fuel symbol size slippage w
  = (Return (estimate symbol BUY size current_price),
     submitted_and_logged (order_for market_id base above false false)
       (estimate symbol BUY size current_price) w2).
Proof using trading_enabled resolves ensured quoted size_encoded priced_up up_encoded
  accepted no_hash.
  unfold place_market_buy_order. apply try_except_return.
  run_to_submission priced_up up_encoded.
  erewrite bind_return; [| apply submit_run, accepted].
  rewrite no_hash. reflexivity.
Qed.

Lemma sell_estimate :
  place_market_sell_order E fuel symbol size slippage w
  = (Return (estimate symbol SELL size current_price),
     submitted_and_logged (order_for market_id base below true false)
       (estimate symbol SELL size current_price) w2).
Proof using trading_enabled resolves ensured quoted size_encoded priced_down down_encoded
  accepted no_hash.
  unfold place_market_sell_order. apply try_except_return.
  run_to_submission priced_down down_encoded.
  erewrite bind_return; [| apply submit_run, accepted].
  rewrite no_hash. reflexivity.
Qed.

Lemma close_buy_estimate :
  close_buy_position E fuel symbol size slippage w
  = (Return (estimate symbol SELL size current_price),
     submitted_and_logged (order_for market_id base below true true)
       (estimate symbol SELL size current_price) w2).
Proof using trading_enabled resolves ensured quoted size_encoded priced_down down_encoded
  accepted no_hash.
  unfold close_buy_position. apply try_except_return.
  run_to_submission priced_down down_encoded.
  erewrite bind_return; [| apply submit_run, accepted].
  rewrite no_hash. reflexivity.
Qed.

Lemma close_sell_estimate :
  close_sell_position E fuel symbol size slippage w
  = (Return (estimate symbol BUY size current_price),
     submitted_and_logged (order_for market_id base above false true)
       (estimate symbol BUY size current_price) w2).
Proof using trading_enabled resolves ensured quoted size_encoded priced_up up_encoded
  accepted no_hash.
  unfold close_sell_position. apply try_except_return.
  run_to_submission priced_up up_encoded.
  erewrite bind_return; [| apply submit_run, accepted].
  rewrite no_hash. reflexivity.
Qed.

End NoHash.

Section WithHash.

(** The response carries a transaction hash. *)
Hypothesis has_hash : extract_tx_hash response ≠ "unknown".

Let tx_hash : string := extract_tx_hash response.

(** Runs forward through an operation, the submission included. *)
Ltac run_past_submission priced encoded :=
  unfold try_except; run_to_submission priced encoded;
  erewrite bind_return; [| apply submit_run, accepted];
  rewrite (proj2 (String.eqb_neq _ _) has_hash); simpl negb; cbv iota.

Section TimeoutSet.

Context (timeout_str : string) (timeout : Z).
Hypothesis timeout_set : getenv E "LIGHTER_FILL_TIMEOUT" = Some timeout_str.
Hypothesis timeout_int : int_of_str E timeout_str = Some timeout.

Lemma buy_awaits_fill :
  place_market_buy_order E fuel symbol size slippage w
  = recorded "place market buy order" tx_hash symbol BUY
      (_wait_for_fill E fuel tx_hash symbol BUY size timeout
         (once_submitted (order_for market_id base above false false) w2)).
Proof using trading_enabled resolves ensured quoted size_encoded priced_up up_encoded
  accepted has_hash timeout_set timeout_int.
  unfold place_market_buy_order. run_past_submission priced_up up_encoded.
  unfold bind at 1, bind at 1, fill_timeout. rewrite timeout_set, timeout_int.
  unfold or_raise, ret at 1, bind at 1. fold tx_hash.
  change (_wait_for_fill E fuel tx_hash symbol BUY size timeout _)
    with (_wait_for_fill E fuel tx_hash symbol BUY size timeout
            (once_submitted (order_for market_id base above false false) w2)).
  by destruct (_wait_for_fill E fuel tx_hash symbol BUY size timeout _) as [[fill|e|] w4].
Qed.

Lemma close_buy_awaits_fill :
  close_buy_position E fuel symbol size slippage w
  = recorded "close buy position" tx_hash symbol SELL
      (_wait_for_fill E fuel tx_hash symbol SELL size timeout
         (once_submitted (order_for market_id base below true true) w2)).
Proof using trading_enabled resolves ensured quoted size_encoded priced_down down_encoded
  accepted has_hash timeout_set timeout_int.
  unfold close_buy_position. run_past_submission priced_down down_encoded.
  unfold bind at 1, bind at 1, fill_timeout. rewrite timeout_set, timeout_int.
  unfold or_raise, ret at 1, bind at 1. fold tx_hash.
  change (_wait_for_fill E fuel tx_hash symbol SELL size timeout _)
    with (_wait_for_fill E fuel tx_hash symbol SELL size timeout
            (once_submitted (order_for market_id base below true true) w2)).
  by destruct (_wait_for_fill E fuel tx_hash symbol SELL size timeout _) as [[fill|e|] w4].
Qed.

End TimeoutSet.

Section TimeoutUnset.

(** [LIGHTER_FILL_TIMEOUT] is unset, or is no integer. *)
Hypothesis timeout_unset : getenv E "LIGHTER_FILL_TIMEOUT" ≫= int_of_str E = None.

Let cause : exn :=
  match getenv E "LIGHTER_FILL_TIMEOUT" with None => TypeError | Some _ => ValueError end.

Lemma fill_timeout_raises (w0 : world) : fill_timeout E w0 = (Raise cause, w0).
Proof using timeout_unset.
  unfold fill_timeout, cause.
  destruct (getenv E "LIGHTER_FILL_TIMEOUT") as [s|]; simpl in *; [| reflexivity].
  rewrite timeout_unset. reflexivity.
Qed.

Lemma buy_abandoned :
  place_market_buy_order E fuel symbol size slippage w
  = (Raise (Exception (FailedTo "place market buy order" cause)),
     once_submitted (order_for market_id base above false false) w2).
Proof using trading_enabled resolves ensured quoted size_encoded priced_up up_encoded
  accepted has_hash timeout_unset.
  unfold place_market_buy_order. run_past_submission priced_up up_encoded.
  unfold bind at 1, bind at 1. rewrite fill_timeout_raises. reflexivity.
Qed.

Lemma close_buy_abandoned :
  close_buy_position E fuel symbol size slippage w
  = (Raise (Exception (FailedTo "close buy position" cause)),
     once_submitted (order_for market_id base below true true) w2).
Proof using trading_enabled resolves ensured quoted size_encoded priced_down down_encoded
  accepted has_hash timeout_unset.
  unfold close_buy_position. run_past_submission priced_down down_encoded.
  unfold bind at 1, bind at 1. rewrite fill_timeout_raises. reflexivity.
Qed.

End TimeoutUnset.

End WithHash.

End Submission.



(** C10.  In all four order operations a supplied slippage of zero is the
    same call as one with no slippage, and the worst price it submits is the
    one computed with the default 0.01, never with zero: when the steps up
    to the submission succeed, with [up] and [down] the worst prices at
    slippage 0.01 and [above] and [below] their encodings, the one order
    submitted carries [above] (a buy, the close of a short) or [below] (a
    sell, the close of a long). *)
Theorem zero_slippage_is_unspecified
    (E : env) (fuel : nat) (symbol : string) (size s : Q)
    (w w1 w2 : world) (market_id : Z) (quote : Price) (up down : Q)
    (base above below : Z) :
  (s == 0)%Q →
  signer_client (self w) = true →
  _symbol_to_market_id_cache (self w) !! symbol = Some market_id →
  _ensure_market_data E market_id w = (Return tt, w1) →
  get_current_price E symbol w1 = (Return quote, w2) →
  _convert_size_to_lighter_format size market_id w2 = (Return base, w2) →
  worst_buy_price (price_value quote) 0.01 = Some up →
  worst_sell_price (price_value quote) 0.01 = Some down →
  _convert_price_to_lighter_format up market_id w2 = (Return above, w2) →
  _convert_price_to_lighter_format down market_id w2 = (Return below, w2) →
  slippage_or_default (Some s) = 0.01%Q ∧
  submitted (snd (place_market_buy_order E fuel symbol size (Some s) w))
    = (submitted w2 ++ [order_for market_id base above false false])%list ∧
  submitted (snd (place_market_sell_order E fuel symbol size (Some s) w))
    = (submitted w2 ++ [order_for market_id base below true false])%list ∧
  submitted (snd (close_buy_position E fuel symbol size (Some s) w))
    = (submitted w2 ++ [order_for market_id base below true true])%list ∧
  submitted (snd (close_sell_position E fuel symbol size (Some s) w))
    = (submitted w2 ++ [order_for market_id base above false true])%list ∧
  place_market_buy_order E fuel symbol size (Some s)
    = place_market_buy_order E fuel symbol size None ∧
  place_market_sell_order E fuel symbol size (Some s)
    = place_market_sell_order E fuel symbol size None ∧
  close_buy_position E fuel symbol size (Some s)
    = close_buy_position E fuel symbol size None ∧
  close_sell_position E fuel symbol size (Some s)
    = close_sell_position E fuel symbol size None.
Proof.
  intros Hs Hsigner Hsym Hensure Hquote Hbase Hup Hdown Habove Hbelow.
  pose proof (slippage_or_default_zero s Hs) as Heq.
  assert (slippage_or_default (Some s) = 0.01%Q) as Hdefault by (rewrite Heq; reflexivity).
  split; [exact Hdefault |].
  rewrite <- Hdefault in Hup, Hdown.
  split; [by eapply buy_submits |].
  split; [by eapply sell_submits |].
  split; [by eapply close_buy_submits |].
  split; [by eapply close_sell_submits |].
  unfold place_market_buy_order, place_market_sell_order,
    close_buy_position, close_sell_position.
  rewrite Heq. repeat split; reflexivity.
Qed.

(** With the book at 100 and two price decimals, a buy at a supplied
    slippage of zero is submitted with worst price 101.00, encoded 10100,
    where a zero bound would be 100.00, encoded 10000. *)
Lemma zero_slippage_is_unspecified_witness :
  let E := Sample.venue "30" None Sample.settles_on_fourth_poll Sample.accepted None in
  (0 == 0)%Q ∧
  submitted (snd (place_market_buy_order E 9 "ETH" 1 (Some 0%Q) Sample.cached))
    = [order_for 1 10000 10100 false false] ∧
  submitted (snd (place_market_sell_order E 9 "ETH" 1 (Some 0%Q) Sample.cached))
    = [order_for 1 10000 9900 true false] ∧
  fst (_convert_price_to_lighter_format 100 1 Sample.cached) = Return 10000.
Proof.
  intros E.
  assert (0 == 0)%Q as H0 by reflexivity.
  destruct (zero_slippage_is_unspecified E 9 "ETH" 1 0
              Sample.cached Sample.cached
              {| self := self Sample.cached; events := [EvOrderBookOrders 1];
                 clock_reads := 0; tx_polls := 0 |}
              1 {| price_symbol := "ETH"; price_value := (99 + 101) / 2 |}
              101 99 10000 10100 9900 H0) as (_ & Hbuy & Hsell & _).
  - reflexivity.
  - reflexivity.
  - reflexivity.
  - reflexivity.
  - vm_compute. reflexivity.
  - vm_compute. reflexivity.
  - vm_compute. reflexivity.
  - vm_compute. reflexivity.
  - vm_compute. reflexivity.
  - split; [exact H0 |]. rewrite Hbuy, Hsell. repeat split; reflexivity.
Defined.

(** X11.  Let the steps up to the submission succeed, let the SDK accept the
    order with a response that carries a transaction hash, and let
    [LIGHTER_FILL_TIMEOUT] hold an integer.  Then a market buy and the close
    of a long are exactly: the submission of the encoded size and worst
    price, the fill wait for that hash with the requested size and that
    timeout, and what [recorded] makes of its outcome.  A fill is returned
    and logged under the hash with the price and size of the fill result
    (the price may be absent); an exception of the wait is raised again
    inside the operation's own, with the order submitted and nothing
    logged. *)
Theorem order_with_hash_awaits_fill
    (E : env) (fuel : nat) (symbol timeout_str : string) (size : Q) (slippage : option Q)
    (w w1 w2 : world) (market_id timeout : Z) (quote : Price) (up down : Q)
    (base above below : Z) (response : sdk_response) :
  signer_client (self w) = true →
  _symbol_to_market_id_cache (self w) !! symbol = Some market_id →
  _ensure_market_data E market_id w = (Return tt, w1) →
  get_current_price E symbol w1 = (Return quote, w2) →
  _convert_size_to_lighter_format size market_id w2 = (Return base, w2) →
  worst_buy_price (price_value quote) (slippage_or_default slippage) = Some up →
  worst_sell_price (price_value quote) (slippage_or_default slippage) = Some down →
  _convert_price_to_lighter_format up market_id w2 = (Return above, w2) →
  _convert_price_to_lighter_format down market_id w2 = (Return below, w2) →
  (∀ o, create_market_order E o = SignerReply response None) →
  extract_tx_hash response ≠ "unknown" →
  getenv E "LIGHTER_FILL_TIMEOUT" = Some timeout_str →
  int_of_str E timeout_str = Some timeout →
  let tx_hash := extract_tx_hash response in
  place_market_buy_order E fuel symbol size slippage w
    = recorded "place market buy order" tx_hash symbol BUY
        (_wait_for_fill E fuel tx_hash symbol BUY size timeout
           (once_submitted (order_for market_id base above false false) w2)) ∧
  close_buy_position E fuel symbol size slippage w
    = recorded "close buy position" tx_hash symbol SELL
        (_wait_for_fill E fuel tx_hash symbol SELL size timeout
           (once_submitted (order_for market_id base below true true) w2)).
Proof.
  intros Hsigner Hsym Hensure Hquote Hbase Hup Hdown Habove Hbelow Hreply Hhash Henv Hint.
  cbv zeta. split.
  - by eapply buy_awaits_fill.
  - by eapply close_buy_awaits_fill.
Qed.

Lemma order_with_hash_awaits_fill_witness :
  let E := Sample.venue "30" None Sample.settles_on_fourth_poll Sample.accepted None in
  ∃ w' : world,
    place_market_buy_order E 9 "ETH" 1 None Sample.cached
    = (Return {| id := "0xfeed"; symbol := "ETH"; side := BUY; type := MARKET;
                 size := 1; price := Some 2500%Q; status := FILLED |}, w') ∧
    tx_polls w' = 4%nat ∧ length (logged w') = 1%nat.
Proof.
  intros E.
  destruct (order_with_hash_awaits_fill E 9 "ETH" "30" 1 None
              Sample.cached Sample.cached
              {| self := self Sample.cached; events := [EvOrderBookOrders 1];
                 clock_reads := 0; tx_polls := 0 |}
              1 30 {| price_symbol := "ETH"; price_value := (99 + 101) / 2 |}
              101 99 10000 10100 9900 (RespObject (Some "0xfeed"))) as (Hbuy & _).
  - reflexivity.
  - reflexivity.
  - reflexivity.
  - reflexivity.
  - vm_compute. reflexivity.
  - vm_compute. reflexivity.
  - vm_compute. reflexivity.
  - vm_compute. reflexivity.
  - vm_compute. reflexivity.
  - intros o. reflexivity.
  - discriminate.
  - reflexivity.
  - reflexivity.
  - rewrite Hbuy. eexists. split; [vm_compute; reflexivity |]. split; reflexivity.
Defined.

(** X12.  [LIGHTER_FILL_TIMEOUT] is read only once the order has been
    submitted.  When it is unset or holds no integer, a market buy and the
    close of a long whose order the SDK accepted with a transaction hash
    raise (a TypeError, respectively a ValueError, inside the operation's
    own exception) with the order submitted, no poll made and nothing
    logged. *)
Theorem order_abandoned_without_timeout
    (E : env) (fuel : nat) (symbol : string) (size : Q) (slippage : option Q)
    (w w1 w2 : world) (market_id : Z) (quote : Price) (up down : Q)
    (base above below : Z) (response : sdk_response) :
  signer_client (self w) = true →
  _symbol_to_market_id_cache (self w) !! symbol = Some market_id →
  _ensure_market_data E market_id w = (Return tt, w1) →
  get_current_price E symbol w1 = (Return quote, w2) →
  _convert_size_to_lighter_format size market_id w2 = (Return base, w2) →
  worst_buy_price (price_value quote) (slippage_or_default slippage) = Some up →
  worst_sell_price (price_value quote) (slippage_or_default slippage) = Some down →
  _convert_price_to_lighter_format up market_id w2 = (Return above, w2) →
  _convert_price_to_lighter_format down market_id w2 = (Return below, w2) →
  (∀ o, create_market_order E o = SignerReply response None) →
  extract_tx_hash response ≠ "unknown" →
  getenv E "LIGHTER_FILL_TIMEOUT" ≫= int_of_str E = None →
  let cause :=
    match getenv E "LIGHTER_FILL_TIMEOUT" with None => TypeError | Some _ => ValueError end in
  place_market_buy_order E fuel symbol size slippage w
    = (Raise (Exception (FailedTo "place market buy order" cause)),
       once_submitted (order_for market_id base above false false) w2) ∧
  close_buy_position E fuel symbol size slippage w
    = (Raise (Exception (FailedTo "close buy position" cause)),
       once_submitted (order_for market_id base below true true) w2).
Proof.
  intros Hsigner Hsym Hensure Hquote Hbase Hup Hdown Habove Hbelow Hreply Hhash Henv.
  cbv zeta. split.
  - by eapply buy_abandoned.
  - by eapply close_buy_abandoned.
Qed.

Lemma order_abandoned_without_timeout_witness :
  let E := Sample.venue "soon" None Sample.settles_on_fourth_poll Sample.accepted None in
  ∃ w' : world,
    close_buy_position E 9 "ETH" 1 None Sample.cached
    = (Raise (Exception (FailedTo "close buy position" ValueError)), w') ∧
    submitted w' = [order_for 1 10000 9900 true true] ∧
    tx_polls w' = 0%nat ∧ logged w' = [].
Proof.
  intros E.
  destruct (order_abandoned_without_timeout E 9 "ETH" 1 None
              Sample.cached Sample.cached
              {| self := self Sample.cached; events := [EvOrderBookOrders 1];
                 clock_reads := 0; tx_polls := 0 |}
              1 {| price_symbol := "ETH"; price_value := (99 + 101) / 2 |}
              101 99 10000 10100 9900 (RespObject (Some "0xfeed"))) as (_ & Hclose).
  - reflexivity.
  - reflexivity.
  - reflexivity.
  - reflexivity.
  - vm_compute. reflexivity.
  - vm_compute. reflexivity.
  - vm_compute. reflexivity.
  - vm_compute. reflexivity.
  - vm_compute. reflexivity.
  - intros o. reflexivity.
  - discriminate.
  - reflexivity.
  - rewrite Hclose. eexists. split; [vm_compute; reflexivity |]. repeat split; reflexivity.
Defined.

(** ** The quoted price *)

Lemma py_float_run (E : env) (v : json) (q : Q) (w : world) :
  to_float E v = Some q → py_float E v w = (Return q, w).
Proof.
  destruct v; simpl; try discriminate.
  - intros [= <-]. reflexivity.
  - intros [= <-]. reflexivity.
  - intros ->. reflexivity.
Qed.

Lemma best_price_top (level : gmap string json) (rest : list json) (v : json) (w : world) :
  level !! "price" = Some v →
  best_price (JArr (JObj level :: rest)) w = (Return v, w).
Proof. intros H. unfold best_price, py_get. simpl. rewrite H. reflexivity. Qed.

Lemma best_price_none (book : gmap string json) (side : string) (w : world) :
  no_levels book side →
  best_price (default (JArr []) (book !! side)) w = (Return JNull, w).
Proof. intros [-> | ->]; reflexivity. Qed.

Section PriceDiscovery.

Context (E : env) (symbol url : string) (market_id : Z) (book : gmap string json).
Context (w : world).

Hypothesis resolves : _symbol_to_market_id_cache (self w) !! symbol = Some market_id.
Hypothesis endpoint : base_endpoint (self w) = Some url.
Hypothesis answered : order_book_orders E market_id = Some (JObj book).

(** Runs forward to the two sides of the book. *)
Ltac fetch_book :=
  unfold get_current_price, try_except;
  erewrite bind_return; [| apply resolve_symbol_run, resolves];
  erewrite bind_return; [| reflexivity];
  rewrite endpoint;
  erewrite bind_return; [| reflexivity];
  erewrite bind_return; [| reflexivity];
  rewrite answered;
  erewrite bind_return; [| reflexivity];
  erewrite bind_return; [| reflexivity];
  erewrite bind_return; [| reflexivity];
  fold (once_quoted market_id w).

Lemma quote_two_sided (bid ask : gmap string json) (rest_bids rest_asks : list json)
    (vb va : json) (b a : Q) :
  book !! "bids" = Some (JArr (JObj bid :: rest_bids)) →
  book !! "asks" = Some (JArr (JObj ask :: rest_asks)) →
  bid !! "price" = Some vb → ask !! "price" = Some va →
  truthy vb = true → truthy va = true →
  to_float E vb = Some b → to_float E va = Some a →
  get_current_price E symbol w
  = (Return {| price_symbol := symbol; price_value := (b + a) / 2 |},
     once_quoted market_id w).
Proof using All.
  intros Hbids Hasks Hvb Hva Htb Hta Hb Ha. fetch_book.
  rewrite Hbids, Hasks. simpl default.
  erewrite bind_return; [| apply best_price_top, Hvb].
  erewrite bind_return; [| apply best_price_top, Hva].
  rewrite Htb, Hta. simpl andb. cbv iota.
  erewrite bind_return; [| erewrite bind_return; [| apply py_float_run, Hb];
                           erewrite bind_return; [| apply py_float_run, Ha];
                           reflexivity].
  reflexivity.
Qed.

Lemma quote_one_sided (present absent : string) (level : gmap string json)
    (rest : list json) (v : json) (q : Q) :
  (present = "bids" ∧ absent = "asks") ∨ (present = "asks" ∧ absent = "bids") →
  book !! present = Some (JArr (JObj level :: rest)) →
  no_levels book absent →
  level !! "price" = Some v → truthy v = true → to_float E v = Some q →
  get_current_price E symbol w
  = (Return {| price_symbol := symbol; price_value := q |}, once_quoted market_id w).
Proof using All.
  intros Hsides Hpresent Habsent Hv Ht Hq. fetch_book.
  destruct Hsides as [[-> ->]|[-> ->]].
  - rewrite Hpresent. simpl default.
    erewrite bind_return; [| apply best_price_top, Hv].
    erewrite bind_return; [| apply best_price_none, Habsent].
    rewrite Ht. simpl.
    erewrite bind_return; [| apply py_float_run, Hq]. reflexivity.
  - rewrite Hpresent. simpl default.
    erewrite bind_return; [| apply best_price_none, Habsent].
    erewrite bind_return; [| apply best_price_top, Hv].
    rewrite Ht. simpl.
    erewrite bind_return; [| apply py_float_run, Hq]. reflexivity.
Qed.

Lemma quote_empty :
  no_levels book "bids" → no_levels book "asks" →
  get_current_price E symbol w
  = (Raise (Exception (FailedTo "get current price" (Exception (NoPriceData symbol)))),
     once_quoted market_id w).
Proof using All.
  intros Hbids Hasks. fetch_book.
  erewrite bind_return; [| apply best_price_none, Hbids].
  erewrite bind_return; [| apply best_price_none, Hasks].
  reflexivity.
Qed.

End PriceDiscovery.

(** X14.  When both sides of the order book list a level with a price, the
    quoted price is the mean of the best bid and the best ask (the first level
    of each side), after exactly one request for the order book of the
    symbol's market; it lies between the two whenever the bid does not exceed
    the ask. *)
Theorem price_is_mid_of_best_levels
    (E : env) (symbol url : string) (market_id : Z) (book bid ask : gmap string json)
    (rest_bids rest_asks : list json) (vb va : json) (b a : Q) (w : world) :
  _symbol_to_market_id_cache (self w) !! symbol = Some market_id →
  base_endpoint (self w) = Some url →
  order_book_orders E market_id = Some (JObj book) →
  book !! "bids" = Some (JArr (JObj bid :: rest_bids)) →
  book !! "asks" = Some (JArr (JObj ask :: rest_asks)) →
  bid !! "price" = Some vb → ask !! "price" = Some va →
  truthy vb = true → truthy va = true →
  to_float E vb = Some b → to_float E va = Some a →
  ∃ quote : Price,
    get_current_price E symbol w = (Return quote, once_quoted market_id w) ∧
    price_symbol quote = symbol ∧ price_value quote = ((b + a) / 2)%Q ∧
    ((b <= a)%Q → (b <= price_value quote)%Q ∧ (price_value quote <= a)%Q).
Proof.
  intros Hsym Hurl Hbook Hbids Hasks Hvb Hva Htb Hta Hb Ha.
  eexists. split; [by eapply quote_two_sided |]. simpl.
  split; [reflexivity |]. split; [reflexivity |].
  intros Hle. split.
  - apply Qle_shift_div_l; [reflexivity | lra].
  - apply Qle_shift_div_r; [reflexivity | lra].
Qed.

Lemma price_is_mid_of_best_levels_witness :
  let E := Sample.venue "30" None Sample.settles_on_fourth_poll Sample.accepted None in
  ∃ quote : Price,
    get_current_price E "ETH" Sample.cached = (Return quote, once_quoted 1 Sample.cached) ∧
    (price_value quote == 100)%Q.
Proof.
  intros E.
  destruct (price_is_mid_of_best_levels E "ETH" "https://venue.example" 1
              {[ "bids" := JArr [Sample.level "99"]; "asks" := JArr [Sample.level "101"] ]}
              {[ "price" := JStr "99" ]} {[ "price" := JStr "101" ]} [] []
              (JStr "99") (JStr "101") 99 101 Sample.cached)
    as (quote & Hrun & _ & Hvalue & _); try reflexivity.
  exists quote. split; [exact Hrun |]. rewrite Hvalue. reflexivity.
Defined.

(** X15.  When only one side of the order book lists a level, the other
    being missing or empty, the quoted price is the best price of that side:
    the best bid alone, or the best ask alone. *)
Theorem price_of_one_sided_book
    (E : env) (symbol url present absent : string) (market_id : Z)
    (book level : gmap string json) (rest : list json) (v : json) (q : Q) (w : world) :
  _symbol_to_market_id_cache (self w) !! symbol = Some market_id →
  base_endpoint (self w) = Some url →
  order_book_orders E market_id = Some (JObj book) →
  (present = "bids" ∧ absent = "asks") ∨ (present = "asks" ∧ absent = "bids") →
  book !! present = Some (JArr (JObj level :: rest)) →
  no_levels book absent →
  level !! "price" = Some v → truthy v = true → to_float E v = Some q →
  get_current_price E symbol w
  = (Return {| price_symbol := symbol; price_value := q |}, once_quoted market_id w).
Proof.
  intros Hsym Hurl Hbook Hsides Hpresent Habsent Hv Ht Hq.
  by eapply quote_one_sided.
Qed.

Lemma price_of_one_sided_book_witness :
  let E := Sample.venue_quoting (JObj {[ "asks" := JArr [Sample.level "101"] ]}) in
  get_current_price E "ETH" Sample.cached
  = (Return {| price_symbol := "ETH"; price_value := 101 |}, once_quoted 1 Sample.cached).
Proof.
  intros E.
  apply (price_of_one_sided_book E "ETH" "https://venue.example" "asks" "bids" 1
           {[ "asks" := JArr [Sample.level "101"] ]} {[ "price" := JStr "101" ]} []
           (JStr "101") 101 Sample.cached); try reflexivity.
  - right. split; reflexivity.
  - left. reflexivity.
Defined.

(** X16.  When neither side of the order book lists a level, there is no
    price: the lookup raises "No price data available" inside its own
    exception, after the one request. *)
Theorem price_of_empty_book
    (E : env) (symbol url : string) (market_id : Z) (book : gmap string json) (w : world) :
  _symbol_to_market_id_cache (self w) !! symbol = Some market_id →
  base_endpoint (self w) = Some url →
  order_book_orders E market_id = Some (JObj book) →
  no_levels book "bids" → no_levels book "asks" →
  get_current_price E symbol w
  = (Raise (Exception (FailedTo "get current price" (Exception (NoPriceData symbol)))),
     once_quoted market_id w).
Proof.
  intros Hsym Hurl Hbook Hbids Hasks. by eapply quote_empty.
Qed.

Lemma price_of_empty_book_witness :
  let E := Sample.venue_quoting (JObj {[ "bids" := JArr [] ]}) in
  get_current_price E "ETH" Sample.cached
  = (Raise (Exception (FailedTo "get current price" (Exception (NoPriceData "ETH")))),
     once_quoted 1 Sample.cached).
Proof.
  intros E.
  apply (price_of_empty_book E "ETH" "https://venue.example" 1 {[ "bids" := JArr [] ]}
           Sample.cached); try reflexivity.
  - right. reflexivity.
  - left. reflexivity.
Defined.

(** ** The position listing *)

(** X17.  Without an account index, and also with account index 0, the
    listing returns the empty list at once: no request is made and the world
    is as before. *)
Theorem open_positions_without_account (E : env) (w : world) :
  account_index (self w) = None ∨ account_index (self w) = Some 0 →
  get_open_positions E w = (Return [], w).
Proof.
  intros Hacc. unfold get_open_positions, try_except, bind, get_self, account_index_missing.
  by destruct Hacc as [-> | ->].
Qed.

Lemma open_positions_without_account_witness :
  let E := Sample.venue "30" None Sample.settles_on_fourth_poll Sample.accepted
             (Some (JObj Sample.accounts)) in
  let c := self Sample.cached in
  let w := Sample.world_with
             {| base_endpoint := base_endpoint c; l1_address := l1_address c;
                account_index := Some 0; signer_client := signer_client c;
                _symbol_to_market_id_cache := _symbol_to_market_id_cache c;
                _market_size_decimals := _market_size_decimals c;
                _market_price_decimals := _market_price_decimals c;
                _market_min_base_amounts := _market_min_base_amounts c |} in
  length (Sample.positions) = 3%nat ∧ get_open_positions E w = (Return [], w).
Proof.
  intros E c w. split; [reflexivity |].
  apply (open_positions_without_account E w). right. reflexivity.
Defined.

Lemma py_float_raises (E : env) (v : json) (w : world) :
  to_float E v = None → ∃ e : exn, py_float E v w = (Raise e, w).
Proof.
  destruct v; simpl; try discriminate; try (intros _; eexists; reflexivity).
  intros ->. eexists. reflexivity.
Qed.

Lemma position_of_entry_malformed (E : env) (pos_data : json) (w : world) :
  field pos_data "position" ≫= to_float E = None →
  ∃ e : exn, position_of_entry E pos_data w = (Raise e, w).
Proof.
  intros Hbad. unfold position_of_entry.
  destruct pos_data as [| | | | |d]; try (eexists; reflexivity).
  simpl in Hbad. destruct (d !! "position") as [v|] eqn:Hv; simpl in Hbad.
  - destruct (py_float_raises E v w Hbad) as (e & He). exists e.
    erewrite bind_return; [| unfold py_getitem, or_raise; rewrite Hv; reflexivity].
    by apply bind_raises.
  - eexists. apply bind_raises. unfold py_getitem, or_raise. rewrite Hv. reflexivity.
Qed.

Lemma positions_loop_malformed (E : env) (pos_data : json) (entries : list json) :
  pos_data ∈ entries →
  field pos_data "position" ≫= to_float E = None →
  ∀ (acc : list Position) (w : world),
    ∃ (e : exn) (w' : world), positions_loop E entries acc w = (Raise e, w').
Proof.
  intros Hin Hbad.
  induction entries as [|head entries IH]; intros acc w; [by apply elem_of_nil in Hin |].
  simpl. apply elem_of_cons in Hin as [<- | Hin].
  - destruct (position_of_entry_malformed E pos_data w Hbad) as (e & He).
    exists e, w. by apply bind_raises.
  - pose proof (never_stuck_position_of_entry E head w) as Hns.
    destruct (position_of_entry E head w) as [[p|e|] w1] eqn:Hhead; simpl in Hns.
    + erewrite bind_return; [| exact Hhead]. by apply IH.
    + exists e, w1. by apply bind_raises.
    + done.
Qed.

(** X18.  One entry of the account payload whose ['position'] field is
    missing or is no number empties the whole listing: the positions derived
    from the entries before it are discarded with it. *)
Theorem malformed_entry_hides_all_positions
    (E : env) (w : world) (resp acct : gmap string json) (rest entries : list json)
    (pos_data : json) :
  account_index_missing (self w) = false →
  account_by_l1 E = Some (JObj resp) →
  resp !! "accounts" = Some (JArr (JObj acct :: rest)) →
  acct !! "positions" = Some (JArr entries) →
  pos_data ∈ entries →
  field pos_data "position" ≫= to_float E = None →
  fst (get_open_positions E w) = Return [].
Proof.
  intros Hacc Hresp Haccounts Hentries Hin Hbad.
  unfold get_open_positions, try_except, bind, get_self, emit, or_raise, first_account,
    py_get, ret.
  rewrite Hacc, Hresp. simpl. rewrite Haccounts. simpl. rewrite Hentries. simpl.
  match goal with
  | |- context [positions_loop E entries [] ?w2] =>
      destruct (positions_loop_malformed E pos_data entries Hin Hbad [] w2)
        as (e & w' & ->)
  end.
  reflexivity.
Qed.

Lemma malformed_entry_hides_all_positions_witness :
  let payload (entries : list json) : option json :=
    Some (JObj {[ "accounts" := JArr [JObj {[ "positions" := JArr entries ]}] ]}) in
  let venue (entries : list json) :=
    Sample.venue "30" None Sample.settles_on_fourth_poll Sample.accepted (payload entries) in
  (∃ p q, fst (get_open_positions (venue Sample.positions) Sample.cached) = Return [p; q]) ∧
  fst (get_open_positions (venue (Sample.positions ++ [JObj ∅])%list) Sample.cached) = Return [].
Proof.
  intros payload venue. split; [eexists; eexists; vm_compute; reflexivity |].
  apply (malformed_entry_hides_all_positions (venue (Sample.positions ++ [JObj ∅])%list)
           Sample.cached
           {[ "accounts" := JArr [JObj {[ "positions" := JArr (Sample.positions ++ [JObj ∅])%list ]}] ]}
           {[ "positions" := JArr (Sample.positions ++ [JObj ∅])%list ]} []
           (Sample.positions ++ [JObj ∅])%list (JObj ∅)).
  - reflexivity.
  - reflexivity.
  - reflexivity.
  - reflexivity.
  - apply elem_of_app. right. constructor.
  - reflexivity.
Defined.

(** ** The bulk market list *)

Lemma preserves_ret {A} (P : world → Prop) (a : A) : preserves P (ret a).
Proof. intros w H. exact H. Qed.

Lemma preserves_raise {A} (P : world → Prop) (e : exn) : preserves P (@raise A e).
Proof. intros w H. exact H. Qed.

Lemma preserves_stuck {A} (P : world → Prop) : preserves P (@stuck A).
Proof. intros w H. exact H. Qed.

Lemma preserves_bind {A B} (P : world → Prop) (c : Py A) (k : A → Py B) :
  preserves P c → (∀ a, preserves P (k a)) → preserves P (bind c k).
Proof.
  intros Hc Hk w H. specialize (Hc w H). unfold bind.
  destruct (c w) as [[a|e|] w']; simpl in *; [by apply Hk | done | done].
Qed.

Lemma preserves_try {A} (P : world → Prop) (c : Py A) (h : exn → Py A) :
  preserves P c → (∀ e, preserves P (h e)) → preserves P (try_except c h).
Proof.
  intros Hc Hh w H. specialize (Hc w H). unfold try_except.
  destruct (c w) as [[a|e|] w']; simpl in *; [done | by apply Hh | done].
Qed.

Lemma preserves_symbol_key (P : world → Prop) (v : json) : preserves P (symbol_key v).
Proof. intros w H. by destruct v. Qed.

Lemma preserves_market_key (P : world → Prop) (v : json) : preserves P (market_key v).
Proof. intros w H. destruct v as [|b|q| | |]; try done. simpl. by destruct (is_integral q). Qed.

(** The four writes of one iteration, as one update of the connector. *)
Lemma cache_orderbook_writes (d : gmap string json) (s : string) (i : Z) (w : world) :
  let after :=
    let! _ := modify_self
                (λ c, set_symbol_cache (<[s := i]> (_symbol_to_market_id_cache c)) c) in
    let! _ := modify_self
                (λ c, set_size_decimals
                        (<[i := get_either d "supported_size_decimals" "size_decimals"]>
                           (_market_size_decimals c)) c) in
    let! _ := modify_self
                (λ c, set_price_decimals
                        (<[i := get_either d "supported_price_decimals" "price_decimals"]>
                           (_market_price_decimals c)) c) in
    modify_self
      (λ c, set_min_base_amounts
              (<[i := default JNull (d !! "min_base_amount")]>
                 (_market_min_base_amounts c)) c) in
  fst (after w) = Return tt ∧
  _symbol_to_market_id_cache (self (snd (after w)))
    = <[s := i]> (_symbol_to_market_id_cache (self w)) ∧
  (∀ m, all_cached (self (snd (after w))) m
        = (bool_decide (m = i) || all_cached (self w) m)).
Proof.
  intros after. subst after. unfold bind, modify_self. simpl.
  split; [reflexivity |]. split; [reflexivity |].
  intros m. unfold all_cached, has_key. simpl.
  destruct (decide (m = i)) as [-> | Hne].
  - rewrite !lookup_insert_eq, bool_decide_eq_true_2 by done.
    rewrite !bool_decide_eq_true_2 by eauto. reflexivity.
  - rewrite !lookup_insert_ne by done. rewrite (bool_decide_eq_false_2 (m = i)) by done.
    reflexivity.
Qed.

Lemma keyed_cache_orderbook (orderbook : json) :
  preserves (λ w, keyed (self w)) (cache_orderbook orderbook).
Proof.
  unfold cache_orderbook. destruct orderbook as [| | | | |d]; try apply preserves_ret.
  cbv zeta. destruct (_ && _); [| apply preserves_ret].
  apply preserves_bind; [apply preserves_symbol_key | intros s].
  apply preserves_bind; [apply preserves_market_key | intros i].
  intros w Hkeyed.
  destruct (cache_orderbook_writes d s i w) as (_ & Hsym & Hall).
  intros s' m. cbv zeta in Hsym, Hall. rewrite Hsym, Hall.
  destruct (decide (m = i)) as [-> | Hne]; [by rewrite bool_decide_eq_true_2 |].
  rewrite bool_decide_eq_false_2 by done. simpl.
  destruct (decide (s = s')) as [-> | Hs].
  - rewrite lookup_insert_eq. congruence.
  - rewrite lookup_insert_ne by done. apply Hkeyed.
Qed.

Lemma known_cache_orderbook (symbol : string) (orderbook : json) :
  preserves (known symbol) (cache_orderbook orderbook).
Proof.
  unfold cache_orderbook. destruct orderbook as [| | | | |d]; try apply preserves_ret.
  cbv zeta. destruct (_ && _); [| apply preserves_ret].
  apply preserves_bind; [apply preserves_symbol_key | intros s].
  apply preserves_bind; [apply preserves_market_key | intros i].
  intros w Hknown.
  destruct (cache_orderbook_writes d s i w) as (_ & Hsym & _).
  unfold known. cbv zeta in Hsym. rewrite Hsym.
  destruct (decide (s = symbol)) as [-> | Hs].
  - rewrite lookup_insert_eq. eauto.
  - rewrite lookup_insert_ne by done. exact Hknown.
Qed.

Lemma preserves_cache_orderbooks (P : world → Prop) (orderbooks : list json) :
  (∀ orderbook, preserves P (cache_orderbook orderbook)) →
  preserves P (cache_orderbooks orderbooks).
Proof.
  intros Hone. induction orderbooks as [|orderbook rest IH]; simpl.
  - apply preserves_ret.
  - apply preserves_bind; [apply Hone | intros _; exact IH].
Qed.

(** A listing that returned has made its symbol known. *)
Lemma cache_orderbook_known (d : gmap string json) (s : string) (w w' : world) :
  d !! "symbol" = Some (JStr s) → s ≠ "" →
  get_either d "market_id" "index" ≠ JNull →
  cache_orderbook (JObj d) w = (Return tt, w') → known s w'.
Proof.
  intros Hsym Hs Hid. unfold cache_orderbook. cbv zeta. rewrite Hsym. simpl.
  apply String.eqb_neq in Hs. rewrite Hs. simpl.
  destruct (get_either d "market_id" "index") as [|b|q| | |] eqn:Hm; try done; simpl.
  - unfold bind at 1, symbol_key, ret at 1, bind at 1, market_key, ret at 1.
    intros Hrun.
    destruct (cache_orderbook_writes d s (if b then 1 else 0) w) as (_ & Hcache & _).
    cbv zeta in Hcache. rewrite Hrun in Hcache. simpl in Hcache.
    unfold known. rewrite Hcache, lookup_insert_eq. eauto.
  - unfold bind at 1, symbol_key, ret at 1, bind at 1, market_key.
    destruct (is_integral q); [| discriminate]. unfold ret at 1.
    intros Hrun.
    destruct (cache_orderbook_writes d s (Qfloor q) w) as (_ & Hcache & _).
    cbv zeta in Hcache. rewrite Hrun in Hcache. simpl in Hcache.
    unfold known. rewrite Hcache, lookup_insert_eq. eauto.
Qed.

Lemma cache_orderbooks_known (orderbooks : list json) (d : gmap string json) (s : string) :
  JObj d ∈ orderbooks →
  d !! "symbol" = Some (JStr s) → s ≠ "" →
  get_either d "market_id" "index" ≠ JNull →
  ∀ w w', cache_orderbooks orderbooks w = (Return tt, w') → known s w'.
Proof.
  intros Hin Hsym Hs Hid.
  induction orderbooks as [|orderbook rest IH]; intros w w' Hrun;
    [by apply elem_of_nil in Hin |].
  simpl in Hrun. apply bind_inv in Hrun as ([] & w1 & Hhead & Hrest).
  apply elem_of_cons in Hin as [<- | Hin].
  - pose proof (cache_orderbook_known d s w w1 Hsym Hs Hid Hhead) as Hknown.
    pose proof (preserves_cache_orderbooks (known s) rest (known_cache_orderbook s) w1 Hknown)
      as Hkept.
    by rewrite Hrest in Hkept.
  - by eapply IH.
Qed.

Lemma initialize_market_data_inv (F : feeds) (w w' : world) :
  _initialize_market_data F w = (Return tt, w') →
  ∃ data : json,
    order_books F = Some data ∧ cache_orderbooks (listed data) w = (Return tt, w').
Proof.
  unfold _initialize_market_data. intros H.
  apply try_except_reraise_inv in H.
  apply bind_inv in H as (c & w1 & Hc & H). unfold get_self in Hc. simpl in Hc.
  injection Hc as <- <-.
  apply bind_inv in H as ([] & w1 & Hurl & H).
  destruct (base_endpoint (self w)); [| discriminate].
  unfold ret in Hurl. injection Hurl as <-.
  apply bind_inv in H as (data & w1 & Hdata & H).
  destruct (order_books F) as [data'|]; [| discriminate].
  unfold or_raise, ret in Hdata. injection Hdata as <- <-.
  exists data'. split; [reflexivity |].
  cbv zeta in H. unfold listed.
  destruct data' as [| | |t|l|d]; try discriminate; try exact H.
  destruct (default _ (d !! "order_books")) as [| | |t|l|d']; try discriminate; exact H.
Qed.

(** X19.  When [_initialize_market_data] returns, every entry of the market
    list that is a dict with a non-empty symbol and a market id has made its
    symbol known, and every known symbol names a market whose three metadata
    fields are all cached (if they were so before), so that
    [_ensure_market_data] for a known symbol returns at once, without a
    request. *)
Theorem market_list_is_cached (F : feeds) (w w' : world) :
  keyed (self w) →
  _initialize_market_data F w = (Return tt, w') →
  keyed (self w') ∧
  (∀ (E : env) (s : string) (m : Z),
     _symbol_to_market_id_cache (self w') !! s = Some m →
     _ensure_market_data E m w' = (Return tt, w')) ∧
  (∀ (data : json) (d : gmap string json) (s : string),
     order_books F = Some data → JObj d ∈ listed data →
     d !! "symbol" = Some (JStr s) → s ≠ "" →
     get_either d "market_id" "index" ≠ JNull →
     known s w').
Proof.
  intros Hkeyed Hrun.
  apply initialize_market_data_inv in Hrun as (data & Hdata & Hloop).
  assert (keyed (self w')) as Hkeyed'.
  { pose proof (preserves_cache_orderbooks (λ w, keyed (self w)) (listed data)
                  keyed_cache_orderbook w Hkeyed) as H.
    by rewrite Hloop in H. }
  split; [exact Hkeyed' |]. split.
  - intros E s m Hs. apply ensure_cached, (Hkeyed' s m Hs).
  - intros data' d s Hdata' Hin Hsym Hs Hid.
    rewrite Hdata in Hdata'. injection Hdata' as <-.
    by eapply cache_orderbooks_known.
Qed.

Lemma market_list_is_cached_witness :
  let w' := snd (_initialize_market_data Sample.bulk Sample.blank) in
  _symbol_to_market_id_cache (self w') = {[ "ETH" := 1; "DOGE" := 5 ]} ∧
  metadata 5 w' = (Some JNull, Some JNull, Some JNull) ∧
  keyed (self w') ∧
  ∀ E : env, _ensure_market_data E 5 w' = (Return tt, w').
Proof.
  intros w'.
  assert (_initialize_market_data Sample.bulk Sample.blank = (Return tt, w')) as Hrun
    by (vm_compute; reflexivity).
  destruct (market_list_is_cached Sample.bulk Sample.blank w') as (Hkeyed & Hensure & _).
  - intros s m Hs. vm_compute in Hs. discriminate.
  - exact Hrun.
  - split; [| split; [reflexivity | split; [exact Hkeyed |]]].
    + apply map_eq. intros s. vm_compute. reflexivity.
    + intros E. apply (Hensure E "DOGE"). reflexivity.
Defined.

(** ** Markets listed without decimals *)

Lemma convert_size_pure (size : Q) (market_id : Z) (w : world) :
  snd (_convert_size_to_lighter_format size market_id w) = w.
Proof.
  enough (keeps (λ w, w) (_convert_size_to_lighter_format size market_id)) as H by apply H.
  unfold _convert_size_to_lighter_format. repeat keeps_step.
Qed.

Lemma convert_size_null (size : Q) (market_id : Z) (w : world) :
  _market_size_decimals (self w) !! market_id = Some JNull →
  _convert_size_to_lighter_format size market_id w = (Raise TypeError, w).
Proof.
  intros H. unfold _convert_size_to_lighter_format, bind, get_self. rewrite H. reflexivity.
Qed.

Lemma convert_price_null (price : Q) (market_id : Z) (w : world) :
  _market_price_decimals (self w) !! market_id = Some JNull →
  _convert_price_to_lighter_format price market_id w = (Raise TypeError, w).
Proof.
  intros H. unfold _convert_price_to_lighter_format, bind, get_self. rewrite H. reflexivity.
Qed.

Lemma self_get_current_price (E : env) (symbol : string) :
  keeps self (get_current_price E symbol).
Proof. open_operation. repeat keeps_step. Qed.

Lemma submitted_get_current_price (E : env) (symbol : string) :
  keeps submitted (get_current_price E symbol).
Proof. open_operation. repeat keeps_step. Qed.

(** The steps of an order operation up to the two conversions, for a market
    whose cached size or price decimals are [None]: they end before [rest]. *)
Lemma halts_at_conversion (E : env) (symbol what : string) (size : Q)
    (worst : Price → option Q) (market_id : Z) (rest : Z → Price → Q → Z → Z → Py Order)
    (w : world) :
  _symbol_to_market_id_cache (self w) !! symbol = Some market_id →
  all_cached (self w) market_id = true →
  _market_size_decimals (self w) !! market_id = Some JNull
  ∨ _market_price_decimals (self w) !! market_id = Some JNull →
  let run :=
    try_except
      (let! _ := require_signer in
       let! market_id := resolve_symbol symbol in
       let! _ := _ensure_market_data E market_id in
       let! price_obj := get_current_price E symbol in
       let! worst_price := finite (worst price_obj) in
       let! base_amount := _convert_size_to_lighter_format size market_id in
       let! avg_execution_price :=
         _convert_price_to_lighter_format worst_price market_id in
       rest market_id price_obj worst_price base_amount avg_execution_price)
      (λ e, raise (Exception (FailedTo what e))) w in
  (∀ o, fst run ≠ Return o) ∧ submitted (snd run) = submitted w.
Proof.
  intros Hsym Hall Hnull run. subst run.
  enough (∀ c : Py Order,
            (∀ o, fst (c w) ≠ Return o) ∧ submitted (snd (c w)) = submitted w →
            (∀ o, fst (try_except c (λ e, raise (Exception (FailedTo what e))) w) ≠ Return o)
            ∧ submitted (snd (try_except c (λ e, raise (Exception (FailedTo what e))) w))
              = submitted w) as Htry.
  { apply Htry. clear Htry.
    match goal with
    | |- (∀ o, fst (?c w) ≠ _) ∧ _ =>
        enough (∃ r w1, c w = (r, w1) ∧ (∀ o, r ≠ Return o) ∧ submitted w1 = submitted w)
          as (r & w1 & -> & ? & ?) by done
    end.
    destruct (signer_client (self w)) eqn:Hsigner.
    - erewrite bind_return; [| apply require_signer_run, Hsigner].
      erewrite bind_return; [| apply resolve_symbol_run, Hsym].
      erewrite bind_return; [| apply ensure_cached, Hall].
      pose proof (self_get_current_price E symbol w) as Hself.
      pose proof (submitted_get_current_price E symbol w) as Hsub.
      unfold bind at 1.
      destruct (get_current_price E symbol w) as [[quote|e|] w2]; simpl in Hself, Hsub;
        [| eexists _, _; split; [reflexivity | split; [discriminate | exact Hsub]] ..].
      rewrite <- Hself in Hnull. rewrite <- Hsub.
      destruct (worst quote) as [worst_price|];
        [| eexists _, _; split; [reflexivity | split; [discriminate | reflexivity]]].
      erewrite bind_return; [| reflexivity].
      destruct Hnull as [Hnull|Hnull].
      + erewrite bind_raises; [| apply convert_size_null, Hnull].
        eexists _, _. split; [reflexivity | split; [discriminate | reflexivity]].
      + pose proof (convert_size_pure size market_id w2) as Hpure. unfold bind at 1.
        destruct (_convert_size_to_lighter_format size market_id w2) as [[n|e|] w3];
          simpl in Hpure; subst w3;
          [| eexists _, _; split; [reflexivity | split; [discriminate | reflexivity]] ..].
        erewrite bind_raises; [| apply convert_price_null, Hnull].
        eexists _, _. split; [reflexivity | split; [discriminate | reflexivity]].
    - erewrite bind_raises;
        [| unfold require_signer, bind, get_self; rewrite Hsigner; reflexivity].
      eexists _, _. split; [reflexivity | split; [discriminate | reflexivity]]. }
  intros c [Hfst Hsnd]. unfold try_except.
  destruct (c w) as [[o|e|] w1]; simpl in *; [by destruct (Hfst o) | | done].
  split; [discriminate | exact Hsnd].
Qed.

(** X20.  A market whose cached size decimals or price decimals are [None],
    as the bulk market list leaves them for an entry without these fields,
    cannot be traded: [_ensure_market_data] sees the keys and does not fetch,
    and each order operation ends before it submits anything, without
    returning an order. *)
Theorem market_without_decimals_is_not_traded
    (E : env) (fuel : nat) (symbol : string) (size : Q) (slippage : option Q)
    (market_id : Z) (w : world) :
  _symbol_to_market_id_cache (self w) !! symbol = Some market_id →
  all_cached (self w) market_id = true →
  _market_size_decimals (self w) !! market_id = Some JNull
  ∨ _market_price_decimals (self w) !! market_id = Some JNull →
  let halts (r : outcome Order * world) :=
    (∀ o, fst r ≠ Return o) ∧ submitted (snd r) = submitted w in
  halts (place_market_buy_order E fuel symbol size slippage w) ∧
  halts (place_market_sell_order E fuel symbol size slippage w) ∧
  halts (close_buy_position E fuel symbol size slippage w) ∧
  halts (close_sell_position E fuel symbol size slippage w).
Proof.
  intros Hsym Hall Hnull halts. subst halts. cbv beta.
  split; [| split; [| split]].
  - apply (halts_at_conversion E symbol "place market buy order" size
             (λ q, worst_buy_price (price_value q) (slippage_or_default slippage)) market_id
             (λ m q p b a, _) w Hsym Hall Hnull).
  - apply (halts_at_conversion E symbol "place market sell order" size
             (λ q, worst_sell_price (price_value q) (slippage_or_default slippage)) market_id
             (λ m q p b a, _) w Hsym Hall Hnull).
  - apply (halts_at_conversion E symbol "close buy position" size
             (λ q, worst_sell_price (price_value q) (slippage_or_default slippage)) market_id
             (λ m q p b a, _) w Hsym Hall Hnull).
  - apply (halts_at_conversion E symbol "close sell position" size
             (λ q, worst_buy_price (price_value q) (slippage_or_default slippage)) market_id
             (λ m q p b a, _) w Hsym Hall Hnull).
Qed.

Lemma market_without_decimals_is_not_traded_witness :
  let E := Sample.venue "30" None Sample.settles_on_fourth_poll Sample.accepted None in
  let w := snd (_initialize_market_data Sample.bulk Sample.blank) in
  fst (place_market_buy_order E 9 "DOGE" 1 None w)
    = Raise (Exception (FailedTo "place market buy order" TypeError)) ∧
  submitted (snd (place_market_buy_order E 9 "DOGE" 1 None w)) = submitted w.
Proof.
  intros E w. split; [vm_compute; reflexivity |].
  destruct (market_without_decimals_is_not_traded E 9 "DOGE" 1 None 5 w)
    as ((_ & Hsub) & _).
  - vm_compute. reflexivity.
  - vm_compute. reflexivity.
  - left. vm_compute. reflexivity.
  - exact Hsub.
Defined.

(** ** The decimals pre-fetch *)

Lemma preserves_get_self {B} (P : world → Prop) (k : connector → Py B) :
  (∀ w, P w → P (snd (k (self w) w))) → preserves P (bind get_self k).
Proof. intros Hk w H. unfold bind, get_self. by apply Hk. Qed.

Lemma preserves_or_raise {A} (P : world → Prop) (o : option A) (e : exn) :
  preserves P (or_raise o e).
Proof. intros w H. by destruct o. Qed.

Lemma preserves_py_getitem (P : world → Prop) (d : json) (key : string) :
  preserves P (py_getitem d key).
Proof. destruct d; simpl; first [apply preserves_or_raise | apply preserves_raise]. Qed.

Lemma has_key_insert_mono (d : gmap Z json) (market_id other : Z) (v : json) :
  has_key d other = true → has_key (<[market_id := v]> d) other = true.
Proof.
  unfold has_key. rewrite !bool_decide_eq_true. intros H.
  destruct (decide (market_id = other)) as [-> | Hne].
  - rewrite lookup_insert_eq. eauto.
  - by rewrite lookup_insert_ne.
Qed.

(** The fetch of one market in the loop of [initialize_market_decimals]. *)
Lemma preserves_fetch_one (E : env) (P : world → Prop) (market_id : Z) :
  preserves P (emit (EvOrderbookMeta market_id)) →
  (∀ v, preserves P (modify_self (λ c, set_size_decimals
                                        (<[market_id := v]> (_market_size_decimals c)) c))) →
  (∀ v, preserves P (modify_self (λ c, set_price_decimals
                                        (<[market_id := v]> (_market_price_decimals c)) c))) →
  (∀ v, preserves P (modify_self (λ c, set_min_base_amounts
                                        (<[market_id := v]> (_market_min_base_amounts c)) c))) →
  preserves P
    (let! _ := emit (EvOrderbookMeta market_id) in
     let! orderbook_details := or_raise (orderbook_meta E market_id) RequestError in
     let! sd := py_getitem orderbook_details "size_decimals" in
     let! _ := modify_self
                 (λ c, set_size_decimals (<[market_id := sd]> (_market_size_decimals c)) c) in
     let! pd := py_getitem orderbook_details "price_decimals" in
     let! _ := modify_self
                 (λ c, set_price_decimals (<[market_id := pd]> (_market_price_decimals c)) c) in
     let! mb := py_getitem orderbook_details "min_base_amount" in
     modify_self
       (λ c, set_min_base_amounts (<[market_id := mb]> (_market_min_base_amounts c)) c)).
Proof.
  intros Hevent Hsize Hprice Hmin.
  repeat first [ apply Hmin
               | apply preserves_bind;
                 [ first [ exact Hevent | apply Hsize | apply Hprice
                         | apply preserves_or_raise | apply preserves_py_getitem ]
                 | intros ? ] ].
Qed.

(** Size decimals, once cached, stay cached through the loop. *)
Lemma fetch_keeps_size_key (E : env) (other : Z) (market_ids : list Z) :
  preserves (λ w, has_key (_market_size_decimals (self w)) other = true)
    (fetch_market_decimals E market_ids).
Proof.
  induction market_ids as [|market_id rest IH]; simpl; [apply preserves_ret |].
  apply preserves_bind; [intros w H; exact H | intros c].
  apply preserves_bind; [| intros _; exact IH].
  destruct (has_key (_market_size_decimals c) market_id); [apply preserves_ret |].
  apply preserves_fetch_one.
  - intros w H. exact H.
  - intros v w H. simpl. by apply has_key_insert_mono.
  - intros v w H. exact H.
  - intros v w H. exact H.
Qed.

(** A market whose size decimals are cached is skipped: its record stays. *)
Lemma fetch_skips_cached (E : env) (other : Z) (m : option json * option json * option json)
    (market_ids : list Z) :
  preserves (λ w, has_key (_market_size_decimals (self w)) other = true ∧ metadata other w = m)
    (fetch_market_decimals E market_ids).
Proof.
  set (P := λ w, has_key (_market_size_decimals (self w)) other = true
                 ∧ metadata other w = m).
  induction market_ids as [|market_id rest IH]; simpl; [apply preserves_ret |].
  apply preserves_get_self. intros w HP. pose proof (proj1 HP) as Hkey.
  destruct (has_key (_market_size_decimals (self w)) market_id) eqn:Hthis.
  - erewrite bind_return; [| reflexivity]. exact (IH w HP).
  - assert (market_id ≠ other) as Hne by congruence.
    refine (preserves_bind P _ _ _ (λ _, IH) w HP).
    apply preserves_fetch_one.
    + intros w0 H. exact H.
    + intros v w0 [H1 H2]. split; [by apply has_key_insert_mono |].
      unfold metadata in *. simpl. by rewrite lookup_insert_ne.
    + intros v w0 [H1 H2]. split; [exact H1 |].
      unfold metadata in *. simpl. by rewrite lookup_insert_ne.
    + intros v w0 [H1 H2]. split; [exact H1 |].
      unfold metadata in *. simpl. by rewrite lookup_insert_ne.
Qed.

(** X21.  [initialize_market_decimals] looks at the size decimals only: a
    market whose size decimals are cached is never fetched, so that its
    cached record stays exactly as it is, also when its price decimals or its
    minimum amount are missing.  It does not complete the partial record a
    failed [_ensure_market_data] leaves behind. *)
Theorem prefetch_skips_cached_size_decimals
    (E : env) (market_ids : list Z) (market_id : Z) (w : world) :
  has_key (_market_size_decimals (self w)) market_id = true →
  metadata market_id (snd (initialize_market_decimals E market_ids w))
  = metadata market_id w.
Proof.
  intros Hkey. unfold initialize_market_decimals.
  rewrite try_except_reraise_world. unfold bind at 1, get_self at 1.
  destruct (endpoint_missing (self w)); [reflexivity |].
  by apply (fetch_skips_cached E market_id (metadata market_id w) market_ids w).
Qed.

Lemma prefetch_skips_cached_size_decimals_witness :
  let meta := JObj {[ "size_decimals" := JNum 6; "price_decimals" := JNum 3;
                      "min_base_amount" := JStr "1" ]} in
  let E := Sample.venue "30" (Some meta) Sample.settles_on_fourth_poll Sample.accepted None in
  let partial :=
    Sample.world_with (Sample.connector_with {[ 1 := JNum 4; 2 := JNum 6 ]}
                         {[ 1 := JNum 2 ]} {[ 1 := JStr "0.001" ]}) in
  fst (initialize_market_decimals E [1; 2; 3] partial) = Return tt ∧
  metadata 3 (snd (initialize_market_decimals E [1; 2; 3] partial))
    = (Some (JNum 6), Some (JNum 3), Some (JStr "1")) ∧
  metadata 2 (snd (initialize_market_decimals E [1; 2; 3] partial))
    = (Some (JNum 6), None, None).
Proof.
  intros meta E partial. split; [reflexivity |]. split; [reflexivity |].
  rewrite (prefetch_skips_cached_size_decimals E [1; 2; 3] 2 partial); reflexivity.
Defined.

Lemma fetch_returns (E : env) (market_ids : list Z) :
  ∀ w w' : world,
    fetch_market_decimals E market_ids w = (Return tt, w') →
    ∀ market_id, market_id ∈ market_ids →
                 has_key (_market_size_decimals (self w')) market_id = true.
Proof.
  induction market_ids as [|head rest IH]; intros w w' Hrun market_id Hin;
    [by apply elem_of_nil in Hin |].
  simpl in Hrun.
  apply bind_inv in Hrun as (c & w0 & Hc & Hrun).
  unfold get_self in Hc. simpl in Hc. injection Hc as <- <-.
  apply bind_inv in Hrun as ([] & w1 & Hhead & Hrest).
  apply elem_of_cons in Hin as [-> | Hin]; [| by eapply IH].
  assert (has_key (_market_size_decimals (self w1)) head = true) as Hkey.
  { destruct (has_key (_market_size_decimals (self w)) head) eqn:Hthis.
    - unfold ret in Hhead. by injection Hhead as <-.
    - apply bind_inv in Hhead as (? & ? & _ & Hhead).
      apply bind_inv in Hhead as (? & ? & _ & Hhead).
      apply bind_inv in Hhead as (sd & ? & _ & Hhead).
      apply bind_inv in Hhead as (? & wa & Ha & Hhead).
      apply bind_inv in Hhead as (pd & ? & Hpd & Hhead).
      apply py_getitem_inv in Hpd as [_ ->].
      apply bind_inv in Hhead as (? & wb & Hb & Hhead).
      apply bind_inv in Hhead as (mb & ? & Hmb & Hhead).
      apply py_getitem_inv in Hmb as [_ ->].
      unfold modify_self in Ha, Hb, Hhead. simplify_eq. simpl. apply has_key_insert. }
  pose proof (fetch_keeps_size_key E head rest w1 Hkey) as Hkept.
  by rewrite Hrest in Hkept.
Qed.

Lemma fetch_nothing (E : env) (market_ids : list Z) (w : world) :
  (∀ market_id, market_id ∈ market_ids →
                has_key (_market_size_decimals (self w)) market_id = true) →
  fetch_market_decimals E market_ids w = (Return tt, w).
Proof.
  induction market_ids as [|head rest IH]; intros Hall; [reflexivity |].
  simpl. erewrite bind_return; [| reflexivity].
  rewrite Hall by apply list_elem_of_here.
  erewrite bind_return; [| reflexivity].
  apply IH. intros market_id Hin. apply Hall. by apply list_elem_of_further.
Qed.

(** X22.  When [initialize_market_decimals] returns, the size decimals of
    every market it was asked for are cached, and a second call for the same
    markets returns at once: it makes no request and changes nothing. *)
Theorem prefetch_caches_size_decimals
    (E : env) (market_ids : list Z) (w w' : world) :
  initialize_market_decimals E market_ids w = (Return tt, w') →
  (∀ market_id, market_id ∈ market_ids →
                has_key (_market_size_decimals (self w')) market_id = true) ∧
  initialize_market_decimals E market_ids w' = (Return tt, w').
Proof.
  intros Hrun. pose proof Hrun as Hfetch. unfold initialize_market_decimals in Hfetch.
  apply try_except_reraise_inv in Hfetch.
  apply bind_inv in Hfetch as (c & w0 & Hc & Hfetch).
  unfold get_self in Hc. simpl in Hc. injection Hc as <- <-.
  destruct (endpoint_missing (self w)) eqn:Hurl; [discriminate |].
  pose proof (fetch_returns E market_ids w w' Hfetch) as Hkeys.
  split; [exact Hkeys |].
  pose proof (static_fetch_market_decimals E market_ids w) as Hstatic.
  rewrite Hfetch in Hstatic. simpl in Hstatic. unfold static in Hstatic.
  assert (endpoint_missing (self w') = false) as Hurl'.
  { unfold endpoint_missing in *. injection Hstatic as -> _ _ _ _. exact Hurl. }
  unfold initialize_market_decimals. apply try_except_return.
  erewrite bind_return; [| reflexivity]. rewrite Hurl'.
  by apply fetch_nothing.
Qed.

Lemma prefetch_caches_size_decimals_witness :
  let meta := JObj {[ "size_decimals" := JNum 6; "price_decimals" := JNum 3;
                      "min_base_amount" := JStr "1" ]} in
  let E := Sample.venue "30" (Some meta) Sample.settles_on_fourth_poll Sample.accepted None in
  let w' := snd (initialize_market_decimals E [1; 2] Sample.cached) in
  events w' = [EvOrderbookMeta 2] ∧
  initialize_market_decimals E [1; 2] w' = (Return tt, w').
Proof.
  intros meta E w'. split; [reflexivity |].
  apply (prefetch_caches_size_decimals E [1; 2] Sample.cached w'). reflexivity.
Defined.

(** ** The minimum order size *)

Lemma static_ensure_market_data (E : env) (market_id : Z) :
  keeps static (_ensure_market_data E market_id).
Proof. open_operation. repeat keeps_step. Qed.

(** X23.  What [get_min_order_size] returns is the float of the minimum base
    amount cached for the symbol's market once the metadata is ensured, and
    asking again gives the same answer without a request: the second call
    leaves the world as it is. *)
Theorem min_order_size_is_cached_amount
    (E : env) (symbol : string) (w w' : world) (q : Q) :
  get_min_order_size E symbol w = (Return q, w') →
  ∃ (market_id : Z) (v : json),
    _symbol_to_market_id_cache (self w) !! symbol = Some market_id ∧
    _ensure_market_data E market_id w = (Return tt, w') ∧
    _market_min_base_amounts (self w') !! market_id = Some v ∧
    to_float E v = Some q ∧
    get_min_order_size E symbol w' = (Return q, w').
Proof.
  intros Hrun. unfold get_min_order_size in Hrun.
  apply try_except_reraise_inv in Hrun.
  apply bind_inv in Hrun as (market_id & w0 & Hsym & Hrun).
  apply resolve_symbol_inv in Hsym as [Hsym ->].
  apply bind_inv in Hrun as ([] & w1 & Hensure & Hrun).
  apply bind_inv in Hrun as (c & w2 & Hc & Hrun).
  unfold get_self in Hc. simpl in Hc. injection Hc as <- <-.
  apply bind_inv in Hrun as (v & w2 & Hv & Hrun).
  destruct (_market_min_base_amounts (self w1) !! market_id) as [v'|] eqn:Hmin;
    [| discriminate].
  unfold or_raise, ret in Hv. injection Hv as <- <-.
  apply py_float_inv in Hrun as [Hq ->].
  exists market_id, v'. repeat (split; [assumption |]).
  pose proof (static_ensure_market_data E market_id w) as Hstatic.
  rewrite Hensure in Hstatic. simpl in Hstatic. unfold static in Hstatic.
  injection Hstatic as _ _ _ _ Hcache.
  unfold get_min_order_size. apply try_except_return.
  erewrite bind_return; [| apply resolve_symbol_run; rewrite Hcache; exact Hsym].
  erewrite bind_return;
    [| apply ensure_cached, (ensure_success_caches_all E market_id w w1), Hensure].
  erewrite bind_return; [| reflexivity].
  rewrite Hmin. erewrite bind_return; [| reflexivity].
  by apply py_float_run.
Qed.

Lemma min_order_size_is_cached_amount_witness :
  let meta := JObj {[ "size_decimals" := JNum 4; "price_decimals" := JNum 2;
                      "min_base_amount" := JStr "0.5" ]} in
  let E := Sample.venue "30" (Some meta) Sample.settles_on_fourth_poll Sample.accepted None in
  let w' := snd (get_min_order_size E "ETH" Sample.fresh) in
  fst (get_min_order_size E "ETH" Sample.fresh) = Return 0.5%Q ∧
  events w' = [EvOrderbookMeta 1] ∧
  get_min_order_size E "ETH" w' = (Return 0.5%Q, w').
Proof.
  intros meta E w'. split; [reflexivity |]. split; [reflexivity |].
  destruct (min_order_size_is_cached_amount E "ETH" Sample.fresh w' 0.5)
    as (market_id & v & _ & _ & _ & _ & Hagain); [reflexivity | exact Hagain].
Defined.

(** ** The funding rate *)

Lemma find_funding_rate_inv (E : env) (symbol : string) (market_id : Z) (rates : list json) :
  ∀ (w w' : world) (r : FundingRate),
    find_funding_rate E symbol market_id rates w = (Return (Some r), w') →
    ∃ (before after : list json) (funding_rate : json) (eight_hour_rate : Q),
      rates = (before ++ funding_rate :: after)%list ∧
      Forall (λ x, quotes_market market_id x = false) before ∧
      quotes_market market_id funding_rate = true ∧
      field funding_rate "rate" ≫= to_float E = Some eight_hour_rate ∧
      rate_symbol r = symbol ∧ rate r = (eight_hour_rate / 8)%Q ∧ w' = w.
Proof.
  induction rates as [|head rest IH]; intros w w' r Hrun; simpl in Hrun; [discriminate |].
  apply bind_inv in Hrun as (listed_id & w0 & Hid & Hrun).
  apply py_get_inv in Hid as [-> ->].
  apply bind_inv in Hrun as (exchange & w0 & Hex & Hrun).
  apply py_get_inv in Hex as [-> ->].
  destruct (_ && _) eqn:Hmatch.
  - apply bind_inv in Hrun as (raw & w0 & Hraw & Hrun).
    apply py_getitem_inv in Hraw as [Hraw ->].
    apply bind_inv in Hrun as (eight & w0 & Height & Hrun).
    apply py_float_inv in Height as [Height ->].
    unfold ret in Hrun. injection Hrun as <- <-.
    exists [], rest, head, eight. repeat split; try done.
    rewrite Hraw. exact Height.
  - apply IH in Hrun as (before & after & x & eight & -> & Hbefore & Hx & Hrate & Hs & Hr & ->).
    exists (head :: before), after, x, eight. repeat split; try done.
    constructor; [exact Hmatch | exact Hbefore].
Qed.

(** X24.  The funding rate returned for a symbol is one eighth of the rate
    of the first entry of the funding-rate list that is for the symbol's
    market and for the exchange ["lighter"]; entries for other markets or
    other exchanges before it are passed over, and the world is left as it
    was. *)
Theorem funding_rate_is_eighth_of_first_match
    (E : env) (F : feeds) (no_rate : string → Z → msg) (symbol : string)
    (w w' : world) (r : FundingRate) :
  get_current_funding_rate E F no_rate symbol w = (Return r, w') →
  ∃ (market_id : Z) (data : json) (before after : list json) (funding_rate : json)
    (eight_hour_rate : Q),
    _symbol_to_market_id_cache (self w) !! symbol = Some market_id ∧
    funding_rates F = Some data ∧
    field data "funding_rates" = Some (JArr (before ++ funding_rate :: after)) ∧
    Forall (λ x, quotes_market market_id x = false) before ∧
    quotes_market market_id funding_rate = true ∧
    field funding_rate "rate" ≫= to_float E = Some eight_hour_rate ∧
    rate_symbol r = symbol ∧ rate r = (eight_hour_rate / 8)%Q ∧ w' = w.
Proof.
  intros Hrun. unfold get_current_funding_rate in Hrun.
  apply try_except_reraise_inv in Hrun.
  apply bind_inv in Hrun as (market_id & w0 & Hsym & Hrun).
  apply resolve_symbol_inv in Hsym as [Hsym ->].
  apply bind_inv in Hrun as (c & w0 & Hc & Hrun).
  unfold get_self in Hc. simpl in Hc. injection Hc as <- <-.
  apply bind_inv in Hrun as ([] & w0 & Hurl & Hrun).
  destruct (base_endpoint (self w)); [| discriminate].
  unfold ret in Hurl. injection Hurl as <-.
  apply bind_inv in Hrun as (data & w0 & Hdata & Hrun).
  destruct (funding_rates F) as [data'|] eqn:Hfeed; [| discriminate].
  unfold or_raise, ret in Hdata. injection Hdata as <- <-.
  apply bind_inv in Hrun as (rates & w0 & Hrates & Hrun).
  apply py_getitem_inv in Hrates as [Hrates ->].
  apply bind_inv in Hrun as ([found|] & w0 & Hfound & Hrun); [| discriminate].
  unfold ret in Hrun. injection Hrun as <- <-.
  destruct rates as [| | |t|l|d]; try discriminate.
  - destruct (String.eqb t ""); discriminate.
  - apply find_funding_rate_inv in Hfound
      as (before & after & x & eight & -> & Hbefore & Hx & Hrate & Hs & Hr & ->).
    exists market_id, data', before, after, x, eight. done.
  - destruct (bool_decide (d = ∅)); discriminate.
Qed.

Lemma funding_rate_is_eighth_of_first_match_witness :
  let E := Sample.venue "30" None Sample.settles_on_fourth_poll Sample.accepted None in
  ∃ r : FundingRate,
    get_current_funding_rate E Sample.bulk (λ _ _, NoAccountData) "ETH" Sample.cached
    = (Return r, Sample.cached) ∧
    (rate r == 0.0625)%Q.
Proof.
  intros E.
  destruct (get_current_funding_rate E Sample.bulk (λ _ _, NoAccountData) "ETH" Sample.cached)
    as [[r|e|] w'] eqn:Hrun; [| vm_compute in Hrun; discriminate ..].
  destruct (funding_rate_is_eighth_of_first_match E Sample.bulk (λ _ _, NoAccountData) "ETH"
              Sample.cached w' r Hrun)
    as (_ & _ & _ & _ & _ & _ & _ & _ & _ & _ & _ & _ & _ & _ & Hw).
  exists r. subst w'. split; [reflexivity |].
  vm_compute in Hrun. injection Hrun as <-. reflexivity.
Defined.

(** ** Settled polls the loop does not report *)

Lemma settled_unusable (E : env) (tx_hash s : string) (expected_size : Q)
    (tx : gmap string json) (event_info : json) (w : world) :
  tx !! "event_info" = Some (JStr s) →
  json_loads E s = Some event_info →
  unusable event_info →
  settled E tx_hash expected_size (JObj tx) w = (Raise AttributeError, w).
Proof.
  intros Hinfo Hloads Hbad.
  unfold settled, try_except, bind, py_get at 1, py_json_loads, or_raise, ret.
  rewrite Hinfo. simpl. rewrite Hloads.
  destruct event_info as [| | | | |ev]; try reflexivity.
  simpl in *. destruct (ev !! "t") as [[| | | | |t]|]; try done.
Qed.

(** X25.  A poll that shows the settled status is not reported when its
    settlement payload decodes to something the code cannot read a trade
    from (a list, a number, an object whose ['t'] is no object): the
    AttributeError is caught by the loop's handler, which sleeps and polls
    again, so the wait goes on as if the transaction had not settled. *)
Theorem unusable_settlement_is_polled_again
    (E : env) (tx_hash url s : string) (expected_size poll_interval start_time : Q)
    (timeout : Z) (fuel : nat) (tx : gmap string json) (event_info : json) (w : world) :
  base_endpoint (self w) = Some url →
  Qltb (time_time E (clock_reads w) - start_time) (inject_Z timeout) = true →
  tx_by_hash E (tx_polls w) tx_hash
    = Some {| status_code := 200; body := Some (JObj tx) |} →
  py_eq_num (default JNull (tx !! "status")) 3 = true →
  tx !! "event_info" = Some (JStr s) →
  json_loads E s = Some event_info →
  unusable event_info →
  wait_loop E (S fuel) tx_hash expected_size timeout start_time poll_interval w
  = wait_loop E fuel tx_hash expected_size timeout start_time poll_interval
      (after_polls tx_hash poll_interval 1 1 w).
Proof.
  intros Hurl Htime Hresp Hstatus Hinfo Hloads Hbad.
  simpl. unfold bind at 1, time_now at 1. rewrite Htime.
  set (w0 := {| self := self w; events := events w;
                clock_reads := S (clock_reads w); tx_polls := tx_polls w |}).
  assert (try_except (poll_once E tx_hash expected_size poll_interval)
                     (λ _, let! _ := sleep poll_interval in ret None) w0
          = (Return None, after_polls tx_hash poll_interval 1 1 w)) as Hround.
  { unfold try_except, poll_once, bind, get_self, requests_get_tx, or_raise, ret, py_get.
    simpl. rewrite Hurl. simpl. rewrite Hresp. simpl. rewrite Hstatus.
    rewrite (settled_unusable E tx_hash s expected_size tx event_info _ Hinfo Hloads Hbad).
    reflexivity. }
  erewrite bind_return; [| exact Hround]. reflexivity.
Qed.

Lemma unusable_settlement_is_polled_again_witness :
  let E := Sample.venue_decoding (JArr [])
             (Sample.always (Some (Sample.tx_with_status (JNum 3)))) in
  wait_loop E 9 "0xfeed" 1 3 0 1 Sample.cached
    = wait_loop E 8 "0xfeed" 1 3 0 1 (after_polls "0xfeed" 1 1 1 Sample.cached) ∧
  fst (_wait_for_fill E 9 "0xfeed" "ETH" BUY 1 3 Sample.cached)
    = Raise (Exception (TransactionNotConfirmed "0xfeed" 3)).
Proof.
  intros E. split; [| vm_compute; reflexivity].
  apply (unusable_settlement_is_polled_again E "0xfeed" "https://venue.example"
           Sample.settlement 1 1 0 3 8
           {[ "status" := JNum 3; "event_info" := JStr Sample.settlement ]}
           (JArr []) Sample.cached); reflexivity.
Defined.

(** X26.  A settled transaction without an ['event_info'] field is a fill
    without a price: the default text ["{}"] decodes to an empty object, the
    price and size read from it are 0, and so the result carries no actual
    price and the expected size, together with the block height and the
    execution time of the transaction. *)
Theorem settlement_without_event_info
    (E : env) (tx_hash url : string) (expected_size poll_interval start_time : Q)
    (timeout : Z) (fuel : nat) (tx : gmap string json) (w : world) :
  base_endpoint (self w) = Some url →
  Qltb (time_time E (clock_reads w) - start_time) (inject_Z timeout) = true →
  tx_by_hash E (tx_polls w) tx_hash
    = Some {| status_code := 200; body := Some (JObj tx) |} →
  py_eq_num (default JNull (tx !! "status")) 3 = true →
  tx !! "event_info" = None →
  json_loads E "{}" = Some (JObj ∅) →
  wait_loop E (S fuel) tx_hash expected_size timeout start_time poll_interval w
  = (Return {| fill_status := "FILLED"; fill_tx_hash := tx_hash;
               actual_price := None; actual_size := expected_size;
               block_height := Some (default JNull (tx !! "block_height"));
               executed_at := Some (default JNull (tx !! "executed_at"));
               tx_data := JObj tx |},
     polled tx_hash (after_polls tx_hash poll_interval 0 1 w)).
Proof.
  intros Hurl Htime Hresp Hstatus Hinfo Hloads.
  simpl. unfold bind at 1, time_now at 1. rewrite Htime.
  unfold try_except, poll_once, bind, get_self, requests_get_tx, or_raise, ret, py_get.
  simpl. rewrite Hurl. simpl. rewrite Hresp. simpl. rewrite Hstatus.
  unfold settled, try_except, bind, py_get, py_json_loads, or_raise, ret.
  rewrite Hinfo. simpl. rewrite Hloads. simpl. rewrite lookup_empty. reflexivity.
Qed.

Lemma settlement_without_event_info_witness :
  let E := Sample.venue "30" None
             (Sample.always (Some {| status_code := 200;
                                     body := Some (JObj {[ "status" := JNum 3;
                                                           "block_height" := JNum 42 ]}) |}))
             Sample.accepted None in
  ∃ r : fill_result,
    fst (wait_loop E 1 "0xfeed" 0.5 30 0 1 Sample.cached) = Return r ∧
    actual_price r = None ∧ actual_size r = 0.5%Q ∧ block_height r = Some (JNum 42).
Proof.
  intros E.
  rewrite (settlement_without_event_info E "0xfeed" "https://venue.example" 0.5 1 0 30 0
             {[ "status" := JNum 3; "block_height" := JNum 42 ]} Sample.cached);
    try reflexivity.
  eexists. split; [reflexivity |]. repeat split; reflexivity.
Defined.

(** ** The requests of the position listing *)

Lemma get_current_price_inv (E : env) (symbol : string) (w w' : world) (p : Price) :
  get_current_price E symbol w = (Return p, w') →
  ∃ market_id : Z,
    _symbol_to_market_id_cache (self w) !! symbol = Some market_id ∧
    w' = once_quoted market_id w.
Proof.
  unfold get_current_price. intros H.
  apply try_except_reraise_inv in H.
  apply bind_inv in H as (market_id & w0 & Hsym & H).
  apply resolve_symbol_inv in Hsym as [Hsym ->].
  apply bind_inv in H as (c & w0 & Hc & H).
  unfold get_self in Hc. simpl in Hc. injection Hc as <- <-.
  apply bind_inv in H as ([] & w0 & Hurl & H).
  destruct (base_endpoint (self w)); [| discriminate].
  unfold ret in Hurl. injection Hurl as <-.
  apply bind_inv in H as ([] & w0 & Hev & H).
  unfold emit in Hev. injection Hev as <-. fold (once_quoted market_id w) in H.
  exists market_id. split; [exact Hsym |].
  match type of H with
  | ?c _ = _ => assert (keeps (λ w, w) c) as Hkeeps
  end.
  { pose proof (kept_by_best_price (λ w : world, w)). repeat keeps_step. }
  specialize (Hkeeps (once_quoted market_id w)). rewrite H in Hkeeps. exact Hkeeps.
Qed.

Lemma py_symbol_inv (v : json) (w w' : world) (s : string) :
  py_symbol v w = (Return s, w') → w' = w.
Proof. destruct v; simpl; try discriminate. unfold ret. by intros [= _ ->]. Qed.

Lemma position_of_entry_trace (E : env) (pos_data : json) (w w' : world)
    (p : option Position) :
  position_of_entry E pos_data w = (Return p, w') →
  match p with
  | Some p => ∃ market_id, priced_on (self w) p market_id ∧ w' = once_quoted market_id w
  | None => w' = w
  end.
Proof.
  unfold position_of_entry. intros H. cbv zeta in H.
  apply bind_inv in H as (raw_size & w1 & Hraw & H).
  apply py_getitem_inv in Hraw as [_ ->].
  apply bind_inv in H as (position_size & w1 & Hsize & H).
  apply py_float_inv in Hsize as [_ ->].
  destruct (Qneb position_size 0); [| unfold ret in H; by injection H as <- <-].
  apply bind_inv in H as (raw_symbol & w1 & Hsym & H).
  apply py_getitem_inv in Hsym as [_ ->].
  apply bind_inv in H as (sign & w1 & Hsign & H).
  apply py_getitem_inv in Hsign as [_ ->].
  apply bind_inv in H as (symbol & w1 & Hs & H).
  apply py_symbol_inv in Hs as ->.
  apply bind_inv in H as (quote & w2 & Hquote & H).
  apply get_current_price_inv in Hquote as (market_id & Hmarket & ->).
  apply bind_inv in H as (raw_fraction & w3 & Hrf & H).
  apply py_get_inv in Hrf as [_ ->].
  apply bind_inv in H as (margin_fraction & w3 & Hmf & H).
  apply py_float_inv in Hmf as [_ ->].
  apply bind_inv in H as (raw_entry & w3 & Hre & H).
  apply py_getitem_inv in Hre as [_ ->].
  apply bind_inv in H as (entry & w4 & He & H).
  apply py_float_inv in He as [_ ->].
  apply bind_inv in H as (raw_pnl & w5 & Hrp & H).
  apply py_getitem_inv in Hrp as [_ ->].
  apply bind_inv in H as (pnl & w6 & Hp & H).
  apply py_float_inv in Hp as [_ ->].
  unfold ret in H. injection H as <- <-.
  exists market_id. split; [exact Hmarket | reflexivity].
Qed.

Lemma positions_loop_trace (E : env) (entries : list json) :
  ∀ (acc ps : list Position) (w w' : world),
    positions_loop E entries acc w = (Return ps, w') →
    ∃ (new : list Position) (market_ids : list Z),
      ps = (acc ++ new)%list ∧
      Forall2 (priced_on (self w)) new market_ids ∧
      w' = after_events (quote_requests market_ids) w.
Proof.
  induction entries as [|pos_data entries IH]; intros acc ps w w' H; simpl in H.
  - unfold ret in H. injection H as <- <-. exists [], [].
    split; [by rewrite app_nil_r |]. split; [constructor | by destruct w].
  - apply bind_inv in H as (p & w1 & Hentry & H).
    apply position_of_entry_trace in Hentry.
    apply IH in H as (new & market_ids & -> & Hnew & ->).
    destruct p as [p|]; simpl.
    + destruct Hentry as (market_id & Hmarket & ->). simpl in *.
      exists (p :: new), (market_id :: market_ids).
      split; [by rewrite <- app_assoc |]. split; [by constructor |].
      unfold after_events, quote_requests. simpl. by rewrite <- app_assoc.
    + subst w1. exists new, market_ids. by rewrite app_nil_r.
Qed.

(** X27.  A listing that returns positions has made one request for the
    account and then one order-book request per position, in the order of the
    list, and nothing else; the symbol of every position is in the symbol
    cache, and the request made for it is the one for that symbol's market. *)
Theorem open_positions_requests (E : env) (w w' : world) (ps : list Position) :
  get_open_positions E w = (Return ps, w') →
  ps ≠ [] →
  ∃ market_ids : list Z,
    Forall2 (priced_on (self w)) ps market_ids ∧
    w' = after_events (quote_requests market_ids ++ [EvAccount]) w.
Proof.
  unfold get_open_positions. intros Hrun Hps.
  apply try_except_reraise_inv in Hrun.
  apply bind_inv in Hrun as (c & w0 & Hc & Hrun).
  unfold get_self in Hc. simpl in Hc. injection Hc as <- <-.
  destruct (account_index_missing (self w));
    [unfold ret in Hrun; injection Hrun as <- _; done |].
  unfold try_except in Hrun.
  match type of Hrun with
  | match ?c w with _ => _ end = _ => destruct (c w) as [[ps0|e|] w1] eqn:Hinner
  end; [| unfold ret in Hrun; injection Hrun as <- _; done | discriminate].
  injection Hrun as -> ->.
  apply bind_inv in Hinner as ([] & w0 & Hev & Hinner).
  unfold emit in Hev. injection Hev as <-.
  apply bind_inv in Hinner as (response_data & w0 & Hresp & Hinner).
  destruct (account_by_l1 E); [| discriminate].
  unfold or_raise, ret in Hresp. injection Hresp as <- <-.
  apply bind_inv in Hinner as (account_data & w0 & Hacct & Hinner).
  assert (w0 = after_events [EvAccount] w) as ->.
  { assert (keeps (λ w, w) (first_account j)) as Hk
      by (unfold first_account; repeat keeps_step).
    match type of Hacct with _ ?w1 = _ => specialize (Hk w1) end.
    rewrite Hacct in Hk. exact Hk. }
  apply bind_inv in Hinner as (position_data_list & w0 & Hlist & Hinner).
  apply py_get_inv in Hlist as [_ ->].
  destruct position_data_list as [| | | |l|]; try discriminate.
  apply positions_loop_trace in Hinner as (new & market_ids & -> & Hnew & ->).
  exists market_ids. split; [exact Hnew |].
  unfold after_events. simpl. by rewrite <- app_assoc.
Qed.

Lemma open_positions_requests_witness :
  let E := Sample.venue "30" None Sample.settles_on_fourth_poll Sample.accepted
             (Some (JObj Sample.accounts)) in
  length (Sample.positions) = 3%nat ∧
  events (snd (get_open_positions E Sample.cached))
    = [EvOrderBookOrders 1; EvOrderBookOrders 1; EvAccount].
Proof.
  intros E. split; [reflexivity |].
  destruct (get_open_positions E Sample.cached) as [[ps|e|] w'] eqn:Hrun;
    [| vm_compute in Hrun; discriminate ..].
  destruct (open_positions_requests E Sample.cached w' ps Hrun) as (market_ids & Hms & ->).
  - vm_compute in Hrun. injection Hrun as <- _. discriminate.
  - vm_compute in Hrun. injection Hrun as <- _.
    inversion Hms as [|p1 m1 l1 ms1 H1 Hrest1]; subst.
    inversion Hrest1 as [|p2 m2 l2 ms2 H2 Hrest2]; subst.
    inversion Hrest2; subst.
    vm_compute in H1, H2. injection H1 as <-. injection H2 as <-. reflexivity.
Defined.
